(** * Contour analysis and measurement pipeline of the AgNOR slide-image examiner

    A shallow embedding of [utils/contour_analysis.py].  Python lists are
    lists, the record dictionaries are insertion-ordered association lists,
    exceptions are an explicit result type, and the calls into OpenCV, SciPy,
    pandas' file layer and the pickled classifier are parameters of the
    sections that use them.  The floor of the size filter is computed as
    Python computes it, in IEEE 754 doubles; the other Python floats are
    idealised as rationals.  A data-frame cell keeps the value put into it
    (dtype coercions and the text form of a CSV cell are not modelled). *)

From Stdlib Require Import List ZArith QArith Qround Qabs Qpower Bool String Ascii Lia
  Permutation.
From Stdlib Require SpecFloat.
Import ListNotations.

Local Open Scope Z_scope.

(** ** Exceptions and fallible computations *)

Inductive exn : Type :=
| UnboundLocalError (name : string)
| ZeroDivisionError
| IndexError
| KeyError (key : string)
| ValueError (msg : string)
| TypeError (msg : string)
| AttributeError (msg : string)
| ExternalError (msg : string).

Inductive result (A : Type) : Type :=
| Ok (a : A)
| Raise (e : exn).

Arguments Ok {A} a.
Arguments Raise {A} e.

Definition bind {A B : Type} (m : result A) (k : A -> result B) : result B :=
  match m with
  | Ok a => k a
  | Raise e => Raise e
  end.

Notation "x <- m ;; k" := (bind m (fun x => k))
  (at level 61, m at next level, right associativity).
Notation "' pat <- m ;; k" := (bind m (fun x => match x with pat => k end))
  (at level 61, pat pattern, m at next level, right associativity).

(** [for x in xs: state = body(state, x)] where the body may raise. *)
Fixpoint for_each {A S : Type} (body : S -> A -> result S) (xs : list A) (s : S)
  : result S :=
  match xs with
  | [] => Ok s
  | x :: rest => s' <- body s x ;; for_each body rest s'
  end.

(** ** Numbers *)

(** Python's [int(x)] on a float truncates towards zero. *)
Definition py_int (q : Q) : Z := Z.quot (Qnum q) (Zpos (Qden q)).

(** Python's [round(x, 2)]: nearest multiple of 1/100, ties to even. *)
Definition round_half_even (q : Q) : Z :=
  let f := Qfloor q in
  let r := (q - inject_Z f)%Q in
  match Qcompare r (1 # 2) with
  | Lt => f
  | Gt => f + 1
  | Eq => if Z.even f then f else f + 1
  end.

(** [round(x, 2)] is taken on the exact rational [x]; that [x] is itself a
    rounded double in Python is among the idealisations named above. *)
Definition py_round2 (q : Q) : Q := Qmake (round_half_even (q * 100)%Q) 100.

(** ** Doubles *)

(** A finite Python float is a binary64 number; it is kept as the rational
    it denotes.  [binary64 q] is the double nearest to [q], ties going to the
    even significand: 53 significant bits, and multiples of [2 ^ -1074]
    below the normal range.  The exponent is not bounded above: where
    Python would produce an infinity (and [int] raise OverflowError),
    [double_overflows] says so and the value here stays finite. *)

(** [floor (log2 q)], for a positive [q]. *)
Definition ilog2 (q : Q) : Z :=
  let guess := Z.log2 (Qnum q) - Z.log2 (Zpos (Qden q)) in
  if Qle_bool (2 ^ guess)%Q q then guess else guess - 1.

Definition binary64_positive (q : Q) : Q :=
  let exponent := Z.max (ilog2 q - 52) (-1074) in
  (inject_Z (round_half_even (q / 2 ^ exponent)%Q) * 2 ^ exponent)%Q.

Definition binary64 (q : Q) : Q :=
  match Qcompare q 0 with
  | Eq => 0%Q
  | Gt => binary64_positive q
  | Lt => (- binary64_positive (- q))%Q
  end.

(** A rounded value that no double holds: Python gives an infinity, or
    OverflowError when the value comes from an int. *)
Definition double_overflows (q : Q) : bool := Qle_bool (2 ^ 1024)%Q (Qabs q).

(** [q] is the value of a finite double. *)
Definition is_double (q : Q) : bool :=
  Qeq_bool (binary64 q) q && negb (double_overflows q).

(** The rational a float of the Standard Library's IEEE 754 specification
    denotes; [binary64] is compared with that specification below. *)
Definition spec_float_value (x : SpecFloat.spec_float) : Q :=
  match x with
  | SpecFloat.S754_finite s m e =>
      ((if s then - (1) else 1) * inject_Z (Zpos m) * 2 ^ e)%Q
  | _ => 0%Q
  end.

(** [float(z)], as Python converts an int operand of a float operation. *)
Definition float_of_int (z : Z) : Q := binary64 (inject_Z z).

(** [a * b] and [a / b] on floats, for a [b] that is not zero. *)
Definition float_mul (a b : Q) : Q := binary64 (a * b).
Definition float_truediv (a b : Q) : Q := binary64 (a / b).

(** A float as NumPy produces it: dividing by zero gives an infinity or a
    NaN instead of raising. *)
Inductive pyfloat : Type :=
| Fin (q : Q)
| PInf
| NInf
| NaN.

(** [a / b] on two Python ints. *)
Definition py_truediv (a b : Z) : result Q :=
  if b =? 0 then Raise ZeroDivisionError else Ok (inject_Z a / inject_Z b)%Q.

(** [a / b] where [b] is a NumPy integer scalar. *)
Definition np_true_divide (a b : Z) : pyfloat :=
  if b =? 0 then
    (if a =? 0 then NaN else if 0 <? a then PInf else NInf)
  else Fin (inject_Z a / inject_Z b)%Q.

(** ** Contours *)

Definition point : Type := Z * Z.
Definition contour : Type := list point.
(** Image dimensions, [(HEIGHT, WIDTH)]. *)
Definition shape : Type := Z * Z.

Definition MAX_NUCLEUS_PIXEL_COUNT : Z := 67000.
(** The float literals [0.02] and [0.0017] denote the nearest doubles. *)
Definition MIN_NUCLEUS_PERCENT_PIXEL_COUNT : Q := binary64 (2 # 100).
Definition MAX_NOR_PIXEL_COUNT : Z := 3521.
Definition MIN_NOR_PERCENT_PIXEL_COUNT : Q := binary64 (17 # 10000).
Definition MAX_CONTOUR_PERCENT_DIFF : Q := 5.

Section Geometry.

(** [np.zeros(shape)], [cv2.drawContours(.., color=1, thickness=FILLED)]
    and [image.sum()]: the number of pixels of the image that the filled
    contour covers. *)
Variable filled_pixel_sum : shape -> contour -> Z.
(** [cv2.pointPolygonTest(contour, point, False)]: [1] inside, [0] on the
    boundary, [-1] outside. *)
Variable pointPolygonTest : contour -> point -> Z.
Variable convexHull : contour -> contour.

Definition get_contour_pixel_count (c : contour) (sh : shape) : Z :=
  filled_pixel_sum sh c.

(** *** Size filter *)

(** [min_relative_pixel_count] is a float and [max_pixel_count] an int:
    the product and the quotient are float operations, each rounded to a
    double.  A product too large for a double makes Python raise
    OverflowError; that is left out here (see [double_overflows]). *)
Definition discard_contours_by_size
    (contours : list contour) (sh : shape)
    (max_pixel_count : Z) (min_relative_pixel_count : Q)
  : list contour * list contour :=
  fold_left
    (fun '(kept, discarded) c =>
       let contour_pixel_count := get_contour_pixel_count c sh in
       let min_pixel_count :=
         py_int (float_truediv
                   (float_mul min_relative_pixel_count (float_of_int max_pixel_count))
                   100) in
       if (min_pixel_count <=? contour_pixel_count)
          && (contour_pixel_count <=? max_pixel_count)
       then (kept ++ [c], discarded)
       else (kept, discarded ++ [c]))
    contours ([], []).

(** *** Containment analyser *)

(** The parent-side scan has no [break]: every point of every child is
    tested and the flag is only ever raised. *)
Definition discard_contours_without_contours
    (parent_contours child_contours : list contour)
  : list contour * list contour :=
  fold_left
    (fun '(kept, discarded) parent =>
       let keep_parent :=
         fold_left
           (fun keep child =>
              fold_left
                (fun keep' child_point =>
                   if 0 <=? pointPolygonTest parent child_point
                   then true else keep')
                child keep)
           child_contours false in
       if keep_parent then (kept ++ [parent], discarded)
       else (kept, discarded ++ [parent]))
    parent_contours ([], []).

(** [for child_point in child: if test >= 0: keep_child = True; break] *)
Fixpoint scan_points (parent : contour) (child : contour) : bool :=
  match child with
  | [] => false
  | child_point :: rest =>
      if 0 <=? pointPolygonTest parent child_point then true
      else scan_points parent rest
  end.

(** [for parent in parent_contours: <scan>; if keep_child: break] *)
Fixpoint scan_parents (parents : list contour) (child : contour) : bool :=
  match parents with
  | [] => false
  | parent :: rest =>
      if scan_points parent child then true else scan_parents rest child
  end.

Definition discard_contours_outside_contours
    (parent_contours child_contours : list contour)
  : list contour * list contour :=
  fold_left
    (fun '(kept, discarded) child =>
       let keep_child := scan_parents parent_contours child in
       if keep_child then (kept ++ [child], discarded)
       else (kept, discarded ++ [child]))
    child_contours ([], []).

(** *** Deformation filter *)

(** [((hull - area) / ((hull + area) / 2)) * 100].  The inner quotient is a
    float, so the outer division raises when it is [0.0]. *)
Definition percent_diff (contour_convex_pixel_count contour_pixel_count : Z)
  : result Q :=
  let mean := (inject_Z (contour_convex_pixel_count + contour_pixel_count) / 2)%Q in
  if Qeq_bool mean 0 then Raise ZeroDivisionError
  else Ok ((inject_Z (contour_convex_pixel_count - contour_pixel_count) / mean) * 100)%Q.

Definition discard_overlapping_deformed_contours
    (contours : list contour) (sh : shape) (max_diff : Q)
  : result (list contour * list contour) :=
  for_each
    (fun '(kept, discarded) c =>
       let contour_pixel_count := get_contour_pixel_count c sh in
       let contour_convex_pixel_count :=
         get_contour_pixel_count (convexHull c) sh in
       diff <- percent_diff contour_convex_pixel_count contour_pixel_count ;;
       if Qle_bool diff max_diff
       then Ok (kept ++ [c], discarded)
       else Ok (kept, discarded ++ [c]))
    contours ([], []).

(** The deformation test of one contour. *)
Definition convex_enough (sh : shape) (max_diff : Q) (c : contour) : bool :=
  match percent_diff (filled_pixel_sum sh (convexHull c)) (filled_pixel_sum sh c) with
  | Ok diff => Qle_bool diff max_diff
  | Raise _ => false
  end.

Definition has_pixels (sh : shape) (c : contour) : Prop :=
  filled_pixel_sum sh (convexHull c) + filled_pixel_sum sh c <> 0.

End Geometry.

Definition len {A : Type} (l : list A) : Z := Z.of_nat (List.length l).

(** ** Smoother *)

Definition exn_message (e : exn) : string :=
  match e with
  | UnboundLocalError n => n
  | ZeroDivisionError => "division by zero"
  | IndexError => "index out of range"
  | KeyError k => k
  | ValueError m | TypeError m | AttributeError m | ExternalError m => m
  end.

Section Smoother.

(** The body of the [try] block for one contour: [splprep] with [per=1],
    [k=1], [s=1.0], [linspace] and [splev] resampling to [points] points.
    SciPy raises on degenerate input. *)
Variable spline_resample : contour -> Z -> result contour.

(** Returns the smoothed contours and the lines printed on the way. *)
Definition smooth_contours (contours : list contour) (points : Z)
  : list contour * list string :=
  fold_left
    (fun '(smoothened_contours, printed) c =>
       match spline_resample c points with
       | Ok smoothed => (smoothened_contours ++ [smoothed], printed)
       | Raise e =>
           (smoothened_contours,
            printed ++ [("The smoothing of a contour caused a failure: "
                           ++ exn_message e)%string])
       end)
    contours ([], []).

(** What one contour contributes to the output and to the printed lines. *)
Definition fits (points : Z) (c : contour) : bool :=
  match spline_resample c points with
  | Ok _ => true
  | Raise _ => false
  end.

Definition smoothed_of (points : Z) (c : contour) : list contour :=
  match spline_resample c points with
  | Ok smoothed => [smoothed]
  | Raise _ => []
  end.

Definition failure_of (points : Z) (c : contour) : list string :=
  match spline_resample c points with
  | Ok _ => []
  | Raise e =>
      [("The smoothing of a contour caused a failure: " ++ exn_message e)%string]
  end.

End Smoother.

(** ** Pipeline orchestrator *)

Section Orchestrator.

Variable filled_pixel_sum : shape -> contour -> Z.
Variable pointPolygonTest : contour -> point -> Z.
Variable convexHull : contour -> contour.
Variable spline_resample : contour -> Z -> result contour.

(** Rasters: [image] is an [(H, W, 3)] array, [plane] an [(H, W)] one. *)
Context {image plane : Type}.
(** [mask[:, :, 1] + mask[:, :, 2]] and [mask[:, :, 2]]. *)
Variable nucleus_plus_nor : image -> plane.
Variable nor_plane : image -> plane.
(** [mask[mask > 0] = 255] followed by [astype(np.uint8)]. *)
Variable binarize : plane -> plane.
(** [cv2.findContours(mask, RETR_EXTERNAL, CHAIN_APPROX_SIMPLE)]. *)
Variable findContours : plane -> list contour.
(** [mask.shape[:2]]. *)
Variable image_shape : image -> shape.
(** The three planes drawn from the kept contours and stacked, at the
    intensity [np.max(np.unique(mask))] of the source mask. *)
Variable stack_mask : image -> list contour -> list contour -> image.
Variable color_classes : image -> image.
(** The two drawing modes of [draw_contour_lines]. *)
Variable draw_multiple : image -> list contour -> image.
Variable draw_single : image -> list contour -> image.

Definition get_contours (mask : plane) : list contour :=
  findContours (binarize mask).

Definition draw_contour_lines (img : image) (contours : list contour)
    (type : string) : result image :=
  if String.eqb type "multiple" then Ok (draw_multiple img contours)
  else if String.eqb type "single" then Ok (draw_single img contours)
  else Raise (ValueError "Argument `type` must be either `multiple` or `single`.").

Definition analyze_contours (mask : image) (smooth : bool)
  : result ((image * list contour * list contour)
            * (option image * list contour * list contour)
            * list string) :=
  let nuclei_contours := get_contours (nucleus_plus_nor mask) in
  let '(nuclei_contours, nuclei_size_discarded) :=
    discard_contours_by_size filled_pixel_sum nuclei_contours (image_shape mask)
      MAX_NUCLEUS_PIXEL_COUNT MIN_NUCLEUS_PERCENT_PIXEL_COUNT in
  let nors_contours := get_contours (nor_plane mask) in
  let '(nors_contours, nors_size_discarded) :=
    discard_contours_by_size filled_pixel_sum nors_contours (image_shape mask)
      MAX_NOR_PIXEL_COUNT MIN_NOR_PERCENT_PIXEL_COUNT in
  let '(nuclei_contours, printed) :=
    if smooth then smooth_contours spline_resample nuclei_contours 40
    else (nuclei_contours, []) in
  let '(nuclei_with_nors, nuclei_without_nors) :=
    discard_contours_without_contours pointPolygonTest nuclei_contours nors_contours in
  '(nuclei_contours_adequate, nuclei_overlapping_deformed) <-
    discard_overlapping_deformed_contours filled_pixel_sum convexHull
      nuclei_with_nors (image_shape mask) MAX_CONTOUR_PERCENT_DIFF ;;
  let '(nors_in_adequate_nuclei, _) :=
    discard_contours_outside_contours pointPolygonTest
      nuclei_contours_adequate nors_contours in
  let '(nors_in_overlapping_deformed, _) :=
    discard_contours_outside_contours pointPolygonTest
      nuclei_overlapping_deformed nors_contours in
  let updated_mask :=
    stack_mask mask nuclei_contours_adequate nors_in_adequate_nuclei in
  let contour_detail := color_classes mask in
  contour_detail <-
    (if 0 <? len nuclei_size_discarded
     then draw_contour_lines contour_detail nuclei_size_discarded "single"
     else Ok contour_detail) ;;
  contour_detail <-
    (if 0 <? len nuclei_without_nors
     then draw_contour_lines contour_detail nuclei_without_nors "single"
     else Ok contour_detail) ;;
  contour_detail <-
    (if 0 <? len nors_size_discarded
     then draw_contour_lines contour_detail nors_size_discarded "single"
     else Ok contour_detail) ;;
  '(contour_detail, nuclei_overlapping_deformed, nors_in_overlapping_deformed) <-
    (if 0 <? len nuclei_overlapping_deformed
     then
       contour_detail <-
         draw_contour_lines contour_detail nuclei_overlapping_deformed "multiple" ;;
       Ok (Some contour_detail, nuclei_overlapping_deformed,
           nors_in_overlapping_deformed)
     else
       Ok (if (len nuclei_size_discarded =? 0) && (len nuclei_without_nors =? 0)
           then None else Some contour_detail,
           [], [])) ;;
  Ok ((updated_mask, nuclei_contours_adequate, nors_in_adequate_nuclei),
      (contour_detail, nuclei_overlapping_deformed, nors_in_overlapping_deformed),
      printed).

(** The four discard categories the overlay is drawn from, as the
    orchestrator computes them. *)
Definition nuclei_by_size (mask : image) : list contour * list contour :=
  discard_contours_by_size filled_pixel_sum
    (get_contours (nucleus_plus_nor mask)) (image_shape mask)
    MAX_NUCLEUS_PIXEL_COUNT MIN_NUCLEUS_PERCENT_PIXEL_COUNT.

Definition nors_by_size (mask : image) : list contour * list contour :=
  discard_contours_by_size filled_pixel_sum
    (get_contours (nor_plane mask)) (image_shape mask)
    MAX_NOR_PIXEL_COUNT MIN_NOR_PERCENT_PIXEL_COUNT.

Definition nuclei_by_nors (mask : image) (smooth : bool)
  : list contour * list contour :=
  discard_contours_without_contours pointPolygonTest
    (if smooth then fst (smooth_contours spline_resample (fst (nuclei_by_size mask)) 40)
     else fst (nuclei_by_size mask))
    (fst (nors_by_size mask)).

Definition nuclei_by_convexity (mask : image) (smooth : bool)
  : result (list contour * list contour) :=
  discard_overlapping_deformed_contours filled_pixel_sum convexHull
    (fst (nuclei_by_nors mask smooth)) (image_shape mask)
    MAX_CONTOUR_PERCENT_DIFF.

End Orchestrator.

(** ** Measurement records *)

Inductive value : Type :=
| VStr (s : string)
| VInt (z : Z)
| VFloat (f : pyfloat).

(** A Python [dict] with string keys: insertion-ordered, one entry per key. *)
Definition dict : Type := list (string * value).

Fixpoint dict_set (d : dict) (k : string) (v : value) : dict :=
  match d with
  | [] => [(k, v)]
  | (k', v') :: rest =>
      if String.eqb k' k then (k', v) :: rest
      else (k', v') :: dict_set rest k v
  end.

Fixpoint dict_get (d : dict) (k : string) : option value :=
  match d with
  | [] => None
  | (k', v') :: rest => if String.eqb k' k then Some v' else dict_get rest k
  end.

(** [record[key]]. *)
Definition getitem (d : dict) (k : string) : result value :=
  match dict_get d k with
  | Some v => Ok v
  | None => Raise (KeyError k)
  end.

(** [{key: value for key, value in pairs}]. *)
Definition dict_of_pairs (pairs : list (string * value)) : dict :=
  fold_left (fun d '(k, v) => dict_set d k v) pairs [].

Definition keys (d : dict) : list string := map fst d.
Definition values (d : dict) : list value := map snd d.
Definition zip {A B : Type} : list A -> list B -> list (A * B) := @combine A B.

Fixpoint enumerate {A : Type} (xs : list A) (start : Z) : list (Z * A) :=
  match xs with
  | [] => []
  | x :: rest => (start, x) :: enumerate rest (start + 1)
  end.

Definition NUCLEUS_COLUMNS : list string :=
  ["patient_record"; "patient_name"; "source_image"; "flag"; "group";
   "exam_date"; "exam_instance"; "anatomical_site"; "nucleus";
   "nucleus_pixel_count"; "type"]%string.

Definition AGNOR_COLUMNS : list string :=
  ["patient_record"; "patient_name"; "source_image"; "flag"; "group";
   "exam_date"; "exam_instance"; "anatomical_site"; "nucleus"; "agnor";
   "agnor_pixel_count"; "type"; "nucleus_ratio"; "greatest_agnor_ratio";
   "smallest_agnor_ratio"]%string.

(** [np.min] and [np.max] of a non-empty list of ints. *)
Definition np_min (xs : list Z) : Z :=
  match xs with
  | [] => 0
  | x :: rest => fold_left Z.min rest x
  end.

Definition np_max (xs : list Z) : Z :=
  match xs with
  | [] => 0
  | x :: rest => fold_left Z.max rest x
  end.

(** [v / d] for a record field [v] and a NumPy integer [d]. *)
Definition np_divide_value (v : value) (d : Z) : result value :=
  match v with
  | VInt z => Ok (VFloat (np_true_divide z d))
  | VFloat (Fin q) =>
      Ok (VFloat (if d =? 0
                  then (if Qeq_bool q 0 then NaN
                        else if Qle_bool 0 q then PInf else NInf)
                  else Fin (q / inject_Z d)%Q))
  | VFloat NaN => Ok (VFloat NaN)
  | VFloat PInf => Ok (VFloat (if d <? 0 then NInf else PInf))
  | VFloat NInf => Ok (VFloat (if d <? 0 then PInf else NInf))
  | VStr _ => Raise (TypeError "unsupported operand type(s) for /")
  end.

(** [[f(x) for x in xs]] where [f] may raise. *)
Fixpoint list_comprehension {A B : Type} (f : A -> result B) (xs : list A)
  : result (list B) :=
  match xs with
  | [] => Ok []
  | x :: rest =>
      y <- f x ;; ys <- list_comprehension f rest ;; Ok (y :: ys)
  end.

(** ** Measurement builder *)

Section MeasurementBuilder.

Variable filled_pixel_sum : shape -> contour -> Z.
Variable pointPolygonTest : contour -> point -> Z.

(** The local [contours_size] is bound inside the parent loop only, so it
    is carried as an option: [None] while the name is still unbound. *)
Definition get_contour_measurements
    (parent_contours child_contours : list contour) (sh : shape)
    (mask_name parent_type child_type record_id patient_name record_class
     exam_date exam_instance anatomical_site : string)
    (start_index : Z) (contours_flag : string)
  : result (list dict * list dict) :=
  '(parent_measurements, child_measurements, contours_size) <-
    for_each
      (fun '(parent_measurements, child_measurements, _) '(parent_id, parent_contour) =>
         let parent_pixel_count :=
           get_contour_pixel_count filled_pixel_sum parent_contour sh in
         let parent_features :=
           [VStr record_id; VStr patient_name; VStr mask_name;
            VStr contours_flag; VStr record_class; VStr exam_date;
            VStr exam_instance; VStr anatomical_site; VInt parent_id;
            VInt parent_pixel_count; VStr parent_type] in
         let parent_measurements :=
           parent_measurements
             ++ [dict_of_pairs (zip NUCLEUS_COLUMNS parent_features)] in
         let contours_size : list Z := [] in
         let child_id := 0 in
         '(child_measurements, contours_size, _) <-
           for_each
             (fun '(child_measurements, contours_size, child_id) child_contour =>
                (* for child_point in child_contour: if ...: <row>; break *)
                match find (fun child_point =>
                              0 <=? pointPolygonTest parent_contour child_point)
                           child_contour with
                | Some _ =>
                    let child_pixel_count :=
                      get_contour_pixel_count filled_pixel_sum child_contour sh in
                    let contours_size := contours_size ++ [child_pixel_count] in
                    parent_pixel_count_ratio <-
                      py_truediv child_pixel_count parent_pixel_count ;;
                    let child_features :=
                      [VStr record_id; VStr patient_name; VStr mask_name;
                       VStr contours_flag; VStr record_class; VStr exam_date;
                       VStr exam_instance; VStr anatomical_site; VInt parent_id;
                       VInt child_id; VInt child_pixel_count; VStr child_type;
                       VFloat (Fin parent_pixel_count_ratio)] in
                    Ok (child_measurements
                          ++ [dict_of_pairs (zip AGNOR_COLUMNS child_features)],
                        contours_size, child_id + 1)
                | None => Ok (child_measurements, contours_size, child_id)
                end)
             child_contours (child_measurements, contours_size, child_id) ;;
         Ok (parent_measurements, child_measurements, Some contours_size))
      (enumerate parent_contours start_index) ([], [], None) ;;
  match contours_size with
  | None => Raise (UnboundLocalError "contours_size")
  | Some contours_size =>
      if 0 <? len contours_size then
        let min_contour_size := np_min contours_size in
        let max_contour_size := np_max contours_size in
        child_measurements <-
          list_comprehension
            (fun record =>
               let features := values record in
               agnor_pixel_count <- getitem record "agnor_pixel_count" ;;
               greatest <- np_divide_value agnor_pixel_count max_contour_size ;;
               agnor_pixel_count <- getitem record "agnor_pixel_count" ;;
               smallest <- np_divide_value agnor_pixel_count min_contour_size ;;
               Ok (dict_of_pairs
                     (zip AGNOR_COLUMNS (features ++ [greatest; smallest]))))
            child_measurements ;;
        Ok (parent_measurements, child_measurements)
      else Ok (parent_measurements, child_measurements)
  end.

End MeasurementBuilder.

(** ** Data frames *)

(** A pandas [DataFrame]: named columns and rows of cells; a missing cell
    is NaN. *)
Record DataFrame : Type := { columns : list string; rows : list (list value) }.

Definition NA : value := VFloat NaN.

Definition is_na (v : value) : bool :=
  match v with
  | VFloat NaN => true
  | _ => false
  end.

Definition pyfloat_eqb (a b : pyfloat) : bool :=
  match a, b with
  | Fin p, Fin q => Qeq_bool p q
  | PInf, PInf | NInf, NInf | NaN, NaN => true
  | _, _ => false
  end.

(** Equality of cells as [unique] and [groupby] see it: an int equals the
    float of the same magnitude, and missing values form one class. *)
Definition value_eqb (a b : value) : bool :=
  match a, b with
  | VStr s, VStr t => String.eqb s t
  | VInt x, VInt y => x =? y
  | VFloat f, VFloat g => pyfloat_eqb f g
  | VInt x, VFloat (Fin q) | VFloat (Fin q), VInt x => Qeq_bool (inject_Z x) q
  | _, _ => false
  end.

Fixpoint index_of (c : string) (cols : list string) : option nat :=
  match cols with
  | [] => None
  | c' :: rest =>
      if String.eqb c' c then Some O
      else option_map S (index_of c rest)
  end.

Definition cell_of (o : option value) : value :=
  match o with
  | Some v => v
  | None => NA
  end.

(** [pd.DataFrame(data, columns=cols)] on a list of records. *)
Definition pd_DataFrame (data : list dict) (cols : list string) : DataFrame :=
  {| columns := cols;
     rows := map (fun d => map (fun c => cell_of (dict_get d c)) cols) data |}.

(** Columns of [pd.DataFrame.from_dict(data)]: the keys of the records in
    order of first appearance. *)
Definition add_new (seen : list string) (k : string) : list string :=
  if existsb (String.eqb k) seen then seen else seen ++ [k].

Definition union_keys (data : list dict) : list string :=
  fold_left (fun seen d => fold_left add_new (keys d) seen) data [].

Definition DataFrame_from_dict (data : list dict) : DataFrame :=
  pd_DataFrame data (union_keys data).

(** [df[c]]. *)
Definition df_col (df : DataFrame) (c : string) : result (list value) :=
  match index_of c (columns df) with
  | Some i => Ok (map (fun row => nth i row NA) (rows df))
  | None => Raise (KeyError c)
  end.

(** [df[cols]]: the rows restricted to the listed columns. *)
Definition df_cols (df : DataFrame) (cols : list string)
  : result (list (list value)) :=
  idx <- list_comprehension
           (fun c => match index_of c (columns df) with
                     | Some i => Ok i
                     | None => Raise (KeyError c)
                     end) cols ;;
  Ok (map (fun row => map (fun i => nth i row NA) idx) (rows df)).

Fixpoint set_nth {A : Type} (i : nat) (x : A) (l : list A) : list A :=
  match l, i with
  | [], _ => []
  | _ :: rest, O => x :: rest
  | y :: rest, S j => y :: set_nth j x rest
  end.

(** [df[c] = vs] for a list of one value per row. *)
Definition df_assign (df : DataFrame) (c : string) (vs : list value)
  : result DataFrame :=
  if negb (Nat.eqb (List.length vs) (List.length (rows df))) then
    Raise (ValueError "Length of values does not match length of index")
  else
    Ok (match index_of c (columns df) with
        | Some i =>
            {| columns := columns df;
               rows := map (fun '(row, v) => set_nth i v row) (zip (rows df) vs) |}
        | None =>
            {| columns := columns df ++ [c];
               rows := map (fun '(row, v) => row ++ [v]) (zip (rows df) vs) |}
        end).

(** [df[c] = v] for a scalar, broadcast to every row. *)
Definition df_assign_scalar (df : DataFrame) (c : string) (v : value) : DataFrame :=
  match index_of c (columns df) with
  | Some i =>
      {| columns := columns df; rows := map (set_nth i v) (rows df) |}
  | None =>
      {| columns := columns df ++ [c];
         rows := map (fun row => row ++ [v]) (rows df) |}
  end.

(** [series.unique()]: distinct values in order of first appearance. *)
Definition unique (vs : list value) : list value :=
  fold_left
    (fun seen v => if existsb (value_eqb v) seen then seen else seen ++ [v])
    vs [].

(** [xs[0]] and [series.iloc[0]]. *)
Definition first {A : Type} (xs : list A) : result A :=
  match xs with
  | [] => Raise IndexError
  | x :: _ => Ok x
  end.

(** [list(df.T.to_dict().values())]: one record per row. *)
Definition to_records (df : DataFrame) : list dict :=
  map (fun row => dict_of_pairs (zip (columns df) row)) (rows df).

(** ** Files *)

(** A CSV file is its lines, each a list of cells; the header line holds
    the column names. *)
Definition csv : Type := list (list value).
Definition filesystem : Type := string -> option csv.

Definition is_file (fs : filesystem) (path : string) : bool :=
  match fs path with
  | Some _ => true
  | None => false
  end.

Definition fs_put (fs : filesystem) (path : string) (content : csv) : filesystem :=
  fun p => if String.eqb p path then Some content else fs p.

Definition fs_remove (fs : filesystem) (path : string) : filesystem :=
  fun p => if String.eqb p path then None else fs p.

Definition header_line (df : DataFrame) : list value := map VStr (columns df).

(** [df.to_csv(path, mode=.., header=.., index=False)]. *)
Definition to_csv (fs : filesystem) (df : DataFrame) (path : string)
    (append : bool) (header : bool) : filesystem :=
  let old := if append then match fs path with Some l => l | None => [] end
             else [] in
  fs_put fs path (old ++ (if header then [header_line df] else []) ++ rows df).

Definition str_of_value (v : value) : result string :=
  match v with
  | VStr s => Ok s
  | _ => Raise (TypeError "expected a string")
  end.

(** [pd.read_csv(path)]: the first line names the columns. *)
Definition read_csv (fs : filesystem) (path : string) : result DataFrame :=
  match fs path with
  | None => Raise (ExternalError "FileNotFoundError")
  | Some [] => Raise (ExternalError "EmptyDataError")
  | Some (header :: lines) =>
      cols <- list_comprehension str_of_value header ;;
      Ok {| columns := cols; rows := lines |}
  end.

(** ** Measurement writer *)

Section Writer.

(** [Path(dir).joinpath(name)] rendered as a string. *)
Variable joinpath : string -> string -> string.

Definition write_contour_measurements (fs : filesystem)
    (parent_measurements child_measurements : list dict)
    (output_path datetime : string) : result filesystem :=
  let df_parent := pd_DataFrame parent_measurements NUCLEUS_COLUMNS in
  let df_child := pd_DataFrame child_measurements AGNOR_COLUMNS in
  nucleus <- df_col df_parent "nucleus" ;;
  first_nucleus <- first (unique nucleus) ;;
  let df_child := df_assign_scalar df_child "nucleus" first_nucleus in
  let df_parent := df_assign_scalar df_parent "datetime" (VStr datetime) in
  let df_child := df_assign_scalar df_child "datetime" (VStr datetime) in
  let parent_measurements_output :=
    joinpath output_path ("nucleus_measurements_" ++ datetime ++ ".csv")%string in
  let child_measurements_output :=
    joinpath output_path ("agnor_measurements_" ++ datetime ++ ".csv")%string in
  let fs :=
    if is_file fs parent_measurements_output
    then to_csv fs df_parent parent_measurements_output true false
    else to_csv fs df_parent parent_measurements_output false true in
  let fs :=
    if is_file fs child_measurements_output
    then to_csv fs df_child child_measurements_output true false
    else to_csv fs df_child child_measurements_output false true in
  Ok fs.

End Writer.

(** ** Classification adapter *)

Section Classifier.

(** [joblib.load(model_path)] and the loaded model's [predict], which maps
    the feature rows to one label each. *)
Variable joblib_load :
  string -> result (list (list value) -> result (list value)).

Definition features_list : list string :=
  ["agnor_pixel_count"; "nucleus_ratio"; "smallest_agnor_ratio";
   "greatest_agnor_ratio"]%string.

Definition classify_agnor (model_path : string) (contours : list dict)
  : result (list dict) :=
  if len contours =? 0 then Ok contours
  else
    let df := DataFrame_from_dict contours in
    features <- df_cols df features_list ;;
    predict <- joblib_load model_path ;;
    predictions <- predict features ;;
    df <- df_assign df "type" predictions ;;
    Ok (to_records df).

End Classifier.

(** ** Aggregator *)

Definition df_filter (df : DataFrame) (mask : list bool) : DataFrame :=
  {| columns := columns df;
     rows := map fst (filter snd (zip (rows df) mask)) |}.

(** [df[df[c] == v]]. *)
Definition df_where_eq (df : DataFrame) (c : string) (v : value)
  : result DataFrame :=
  col <- df_col df c ;;
  Ok (df_filter df (map (fun x => value_eqb x v) col)).

Fixpoint contains (s sub : string) : bool :=
  if String.prefix sub s then true
  else match s with
       | EmptyString => false
       | String _ rest => contains rest sub
       end.

(** [series.str.contains("cluster|satellite")]; pandas refuses a column
    that holds anything but strings. *)
Definition str_contains_cluster_or_satellite (col : list value)
  : result (list bool) :=
  list_comprehension
    (fun v => match v with
              | VStr s => Ok (contains s "cluster" || contains s "satellite")
              | _ => Raise (AttributeError "Can only use .str accessor with string values")
              end) col.

Definition pf_add (a b : pyfloat) : pyfloat :=
  match a, b with
  | Fin p, Fin q => Fin (p + q)%Q
  | NaN, _ | _, NaN => NaN
  | PInf, NInf | NInf, PInf => NaN
  | PInf, _ | _, PInf => PInf
  | NInf, _ | _, NInf => NInf
  end.

(** The numeric cells of a column, missing values skipped. *)
Fixpoint numeric (col : list value) : result (list pyfloat) :=
  match col with
  | [] => Ok []
  | VStr _ :: _ => Raise (TypeError "could not convert string to numeric")
  | VInt z :: rest => fs <- numeric rest ;; Ok (Fin (inject_Z z) :: fs)
  | VFloat NaN :: rest => numeric rest
  | VFloat f :: rest => fs <- numeric rest ;; Ok (f :: fs)
  end.

Definition pf_mean (xs : list pyfloat) : pyfloat :=
  match xs with
  | [] => NaN
  | _ => match fold_left pf_add xs (Fin 0) with
         | Fin total => Fin (total / inject_Z (len xs))%Q
         | other => other
         end
  end.

(** [series.mean()]. *)
Definition mean (col : list value) : result pyfloat :=
  xs <- numeric col ;; Ok (pf_mean xs).

Definition round2 (f : pyfloat) : pyfloat :=
  match f with
  | Fin q => Fin (py_round2 q)
  | other => other
  end.

Fixpoint insert_sorted (x : Z) (l : list Z) : list Z :=
  match l with
  | [] => [x]
  | y :: rest => if x <=? y then x :: l else y :: insert_sorted x rest
  end.

Definition sorted (l : list Z) : list Z := fold_right insert_sorted [] l.

(** [series.median()] of integer counts. *)
Definition median (xs : list Z) : pyfloat :=
  let s := sorted xs in
  let n := List.length s in
  match n with
  | O => NaN
  | _ =>
      let lower := nth (n / 2 - 1)%nat s 0 in
      let upper := nth (n / 2)%nat s 0 in
      if Nat.even n
      then Fin (inject_Z (lower + upper) / 2)%Q
      else Fin (inject_Z upper)
  end.

(** Adds [n] to the tally kept for [key], opening it when the key is new. *)
Fixpoint tally {K : Type} (eqb : K -> K -> bool) (groups : list (K * Z))
    (key : K) (n : Z) : list (K * Z) :=
  match groups with
  | [] => [(key, n)]
  | (k, c) :: rest =>
      if eqb k key then (k, c + n) :: rest
      else (k, c) :: tally eqb rest key n
  end.

Fixpoint keys_eqb (a b : list value) : bool :=
  match a, b with
  | [], [] => true
  | x :: a', y :: b' => value_eqb x y && keys_eqb a' b'
  | _, _ => false
  end.

(** [df.groupby(by)[c].count().reset_index()]: per group of equal keys, the
    number of present cells of column [c].  Rows with a missing key are left
    out.  Groups are listed in order of first appearance; pandas sorts them,
    which none of the statistics below depends on. *)
Definition groupby_count (df : DataFrame) (by_ : list string) (c : string)
  : result (list (list value * Z)) :=
  ks <- df_cols df by_ ;;
  vs <- df_col df c ;;
  Ok (fold_left
        (fun groups '(k, v) =>
           if existsb is_na k then groups
           else tally keys_eqb groups k (if is_na v then 0 else 1))
        (zip ks vs) []).

(** [counts.groupby(["agnor"]).size().reset_index(name="count")]. *)
Definition groupby_size (agnor : list Z) : list (Z * Z) :=
  fold_left (fun groups a => tally Z.eqb groups a 1) agnor [].

Definition sum (xs : list Z) : Z := fold_left Z.add xs 0.

(** The [AgNOR = k] cells: the [count] of the row whose [agnor] is [k]. *)
Definition nna_exactly (n_nuclei_with_n_agnors : list (Z * Z)) (k : Z) : Z :=
  let selected := filter (fun '(agnor, _) => agnor =? k) n_nuclei_with_n_agnors in
  if 0 <? len selected
  then match selected with (_, count) :: _ => count | [] => 0 end
  else 0.

(** The [AgNOR = 5+] cell. *)
Definition nna_at_least (n_nuclei_with_n_agnors : list (Z * Z)) (k : Z) : Z :=
  let selected := filter (fun '(agnor, _) => k <=? agnor) n_nuclei_with_n_agnors in
  if 0 <? len selected then sum (map snd selected) else 0.

(** [round(nna / number_of_nucleus, 2)], or the int [0] without nuclei. *)
Definition nna_percent (nna number_of_nucleus : Z) : value :=
  if 0 <? number_of_nucleus
  then VFloat (Fin (py_round2 (inject_Z nna / inject_Z number_of_nucleus)))
  else VInt 0.

(** [df_agnor.groupby(["source_image", "nucleus"])["agnor"].count()]
    regrouped by the count. *)
Definition n_nuclei_with_n_agnors (df_agnor : DataFrame) : result (list (Z * Z)) :=
  per_nucleus <- groupby_count df_agnor ["source_image"; "nucleus"]%string "agnor" ;;
  Ok (groupby_size (map snd per_nucleus)).

Definition endswith (s suffix : string) : bool :=
  let n := String.length s in
  let m := String.length suffix in
  Nat.leb m n && String.eqb (substring (n - m) m s) suffix.

Definition counts_as_floats (counts : list Z) : list pyfloat :=
  map (fun c => Fin (inject_Z c)) counts.

(** The summary row [record] that [aggregate_measurements] computes from
    the two tables, before anything is written. *)
Definition aggregate_record (df_nucleus df_agnor : DataFrame) : result dict :=
  let number_of_nucleus := len (rows df_nucleus) in
  let number_of_agnors := len (rows df_agnor) in
  clusters <- df_where_eq df_agnor "type" (VStr "cluster") ;;
  let number_of_clusters := len (rows clusters) in
  satellites <- df_where_eq df_agnor "type" (VStr "satellite") ;;
  let number_of_satellites := len (rows satellites) in

  types <- df_col df_agnor "type" ;;
  typed <- str_contains_cluster_or_satellite types ;;
  agnor_central_measurements <-
    groupby_count (df_filter df_agnor typed)
      ["source_image"; "nucleus"]%string "agnor" ;;
  let mean_agnor_per_nucleus :=
    round2 (pf_mean (counts_as_floats (map snd agnor_central_measurements))) in
  let median_agnor_per_nucleus :=
    round2 (median (map snd agnor_central_measurements)) in

  nucleus_sizes <- df_col df_nucleus "nucleus_pixel_count" ;;
  mean_nucleus_size <- mean nucleus_sizes ;;
  agnor_sizes <- df_col df_agnor "agnor_pixel_count" ;;
  mean_agnor_size <- mean agnor_sizes ;;
  cluster_sizes <- df_col clusters "agnor_pixel_count" ;;
  mean_cluster_size <- mean cluster_sizes ;;
  satellite_sizes <- df_col satellites "agnor_pixel_count" ;;
  mean_satellite_size <- mean satellite_sizes ;;

  table <- n_nuclei_with_n_agnors df_agnor ;;
  let nna1 := nna_exactly table 1 in
  let nna2 := nna_exactly table 2 in
  let nna3 := nna_exactly table 3 in
  let nna4 := nna_exactly table 4 in
  let nna5_plus := nna_at_least table 5 in

  let nna1_percent := nna_percent nna1 number_of_nucleus in
  let nna2_percent := nna_percent nna2 number_of_nucleus in
  let nna3_percent := nna_percent nna3 number_of_nucleus in
  let nna4_percent := nna_percent nna4 number_of_nucleus in
  let nna5_plus_percent := nna_percent nna5_plus number_of_nucleus in

  patient_record <- (c <- df_col df_agnor "patient_record" ;; first c) ;;
  patient_name <- (c <- df_col df_agnor "patient_name" ;; first c) ;;
  exam_date <- (c <- df_col df_agnor "exam_date" ;; first c) ;;
  exam_instance <- (c <- df_col df_agnor "exam_instance" ;; first c) ;;
  anatomical_site <- (c <- df_col df_agnor "anatomical_site" ;; first c) ;;
  group <- (c <- df_col df_agnor "group" ;; first (unique c)) ;;
  Ok (
    [("Record", patient_record);
     ("Patient Name", patient_name);
     ("ExamDate", exam_date);
     ("Exam Instance", exam_instance);
     ("Anatomical Site", anatomical_site);
     ("Group", group);
     ("Number of Nuclei", VInt number_of_nucleus);
     ("Number of AgNORs", VInt number_of_agnors);
     ("Number of Clusters", VInt number_of_clusters);
     ("Number of Satellites", VInt number_of_satellites);
     ("Mean AgNOR per Nucleus", VFloat mean_agnor_per_nucleus);
     ("Median AgNOR per Nucleus", VFloat median_agnor_per_nucleus);
     ("Mean Nucleus Size", VFloat (round2 mean_nucleus_size));
     ("Mean AgNOR Size", VFloat (round2 mean_agnor_size));
     ("Mean Cluster Size", VFloat (round2 mean_cluster_size));
     ("Mean Satellite Size", VFloat (round2 mean_satellite_size));
     ("AgNOR = 1", VInt nna1);
     ("AgNOR = 2", VInt nna2);
     ("AgNOR = 3", VInt nna3);
     ("AgNOR = 4", VInt nna4);
     ("AgNOR = 5+", VInt nna5_plus);
     ("AgNOR = 1%", nna1_percent);
     ("AgNOR = 2%", nna2_percent);
     ("AgNOR = 3%", nna3_percent);
     ("AgNOR = 4%", nna4_percent);
     ("AgNOR = 5%+", nna5_plus_percent)]%string : dict).

Section Aggregator.

(** [str(Path(p).parent)], [Path(dir).joinpath(name)] and [str(v)] as an
    f-string renders a cell. *)
Variable parent_dir : string -> string.
Variable joinpath : string -> string -> string.
Variable str : value -> string.
(** The paths on which [os.remove] raises. *)
Variable remove_fails : string -> bool.

(** Returns the success flag, the files afterwards and the debug log. *)
Definition aggregate_measurements (fs : filesystem)
    (nucleus_measurements agnor_measurements : string)
    (remove_measurement_files : bool) (database : option string)
    (datetime : string)
  : result (bool * filesystem * list string) :=
  if negb (is_file fs nucleus_measurements) then
    Ok (false, fs,
        [("Base measurement file '" ++ nucleus_measurements ++ "' not found")%string])
  else
  df_nucleus <- read_csv fs nucleus_measurements ;;
  if negb (is_file fs agnor_measurements) then
    Ok (false, fs,
        [("Base measurement file '" ++ nucleus_measurements ++ "' not found")%string])
  else
  df_agnor <- read_csv fs agnor_measurements ;;

  record <- aggregate_record df_nucleus df_agnor ;;
  patient_name <- getitem record "Patient Name" ;;

  let df := DataFrame_from_dict [record] in
  let output_path :=
    joinpath (parent_dir nucleus_measurements)
      (datetime ++ " - Aggregate measurements - " ++ str patient_name ++ ".csv")%string in
  let fs := to_csv fs df output_path false true in

  let '(fs, log) :=
    if remove_measurement_files then
      let '(fs, log) :=
        if is_file fs nucleus_measurements then
          if remove_fails nucleus_measurements
          then (fs, [("Could not remove file " ++ nucleus_measurements)%string])
          else (fs_remove fs nucleus_measurements, [])
        else (fs, []) in
      if is_file fs agnor_measurements then
        if remove_fails agnor_measurements
        then (fs, log ++ [("Could not remove file " ++ agnor_measurements)%string])
        else (fs_remove fs agnor_measurements, log)
      else (fs, log)
    else (fs, []) in

  let fs :=
    match database with
    | Some database =>
        if negb (String.eqb database EmptyString) then
          let database :=
            if negb (endswith database ".csv")
            then (database ++ ".csv")%string else database in
          if is_file fs database
          then to_csv fs df database true false
          else to_csv fs df database false true
        else fs
    | None => fs
    end in
  Ok (true, fs, log).

End Aggregator.

(** ** A sample geometry and raster

    Axis-aligned boxes given by their corner points.  For such a contour
    OpenCV fills the closed box clipped to the image, the point test is box
    membership, and the convex hull is the box itself. *)

Module Box.

Definition bounds (c : contour) : option (Z * Z * Z * Z) :=
  match c with
  | [] => None
  | (x, y) :: rest =>
      Some (fold_left
              (fun '(x0, x1, y0, y1) '(px, py) =>
                 (Z.min x0 px, Z.max x1 px, Z.min y0 py, Z.max y1 py))
              rest (x, x, y, y))
  end.

Definition pointPolygonTest (c : contour) (p : point) : Z :=
  match bounds c with
  | None => -1
  | Some (x0, x1, y0, y1) =>
      let '(x, y) := p in
      if (x0 <? x) && (x <? x1) && (y0 <? y) && (y <? y1) then 1
      else if (x0 <=? x) && (x <=? x1) && (y0 <=? y) && (y <=? y1) then 0
      else -1
  end.

(** Number of pixels of the [(HEIGHT, WIDTH)] image inside the box. *)
Definition filled_pixel_sum (sh : shape) (c : contour) : Z :=
  match bounds c with
  | None => 0
  | Some (x0, x1, y0, y1) =>
      let '(height, width) := sh in
      Z.max 0 (Z.min x1 (width - 1) - Z.max x0 0 + 1)
      * Z.max 0 (Z.min y1 (height - 1) - Z.max y0 0 + 1)
  end.

Definition convexHull (c : contour) : contour := c.

(** The box with opposite corners [(x0, y0)] and [(x1, y1)]. *)
Definition box (x0 y0 x1 y1 : Z) : contour :=
  [(x0, y0); (x1, y0); (x1, y1); (x0, y1)].

(** SciPy's [splprep] needs more points than the spline degree; a box
    resamples to itself. *)
Definition spline_resample (c : contour) (points : Z) : result contour :=
  if (List.length c <=? 1)%nat then Raise (TypeError "m > k must hold")
  else Ok c.

(** A mask made of boxes: the outlines of the nucleus regions (AgNORs
    included) and of the AgNOR regions, and the outlines drawn on it. *)
Record image : Type :=
  { dims : shape;
    nuclei : list contour;
    nors : list contour;
    strokes : list contour }.

Definition plane : Type := list contour.
Definition nucleus_plus_nor (m : image) : plane := nuclei m.
Definition nor_plane (m : image) : plane := nors m.
Definition binarize (p : plane) : plane := p.
Definition findContours (p : plane) : list contour := p.
Definition image_shape (m : image) : shape := dims m.

Definition stack_mask (m : image) (nucleus nor : list contour) : image :=
  {| dims := dims m; nuclei := nucleus; nors := nor; strokes := [] |}.

Definition color_classes (m : image) : image := m.

Definition draw_single (m : image) (cs : list contour) : image :=
  {| dims := dims m; nuclei := nuclei m; nors := nors m;
     strokes := strokes m ++ cs |}.

Definition draw_multiple (m : image) (cs : list contour) : image :=
  {| dims := dims m; nuclei := nuclei m; nors := nors m;
     strokes := strokes m ++ cs ++ map convexHull cs |}.

(** One nucleus-sized box holding one AgNOR-sized box. *)
Definition sample_mask : image :=
  {| dims := (300, 300);
     nuclei := [box 0 0 199 199];
     nors := [box 50 50 59 59];
     strokes := [] |}.

End Box.

(** A thirteen-pixel strip under the nucleus thresholds: the real-valued
    floor of the specification is 13.4, the code's floor is 13. *)
Definition strip13 : contour := Box.box 0 0 12 0.

(** A child has a point inside, or on the boundary of, the parent. *)
Definition has_point_inside (pointPolygonTest : contour -> point -> Z)
    (parent child : contour) : bool :=
  existsb (fun child_point => 0 <=? pointPolygonTest parent child_point) child.

(** ** The rows the measurement builder produces *)

Section BuilderRows.

Variable filled_pixel_sum : shape -> contour -> Z.
Variable pointPolygonTest : contour -> point -> Z.
Variable sh : shape.
Variables mask_name parent_type child_type record_id patient_name record_class
  exam_date exam_instance anatomical_site contours_flag : string.

(** The children that get a row under [parent]: those with a point inside
    it or on its boundary, in input order. *)
Definition attributed (parent : contour) (children : list contour)
  : list contour :=
  filter (has_point_inside pointPolygonTest parent) children.

Definition nucleus_record (parent_id : Z) (parent : contour) : dict :=
  [("patient_record", VStr record_id); ("patient_name", VStr patient_name);
   ("source_image", VStr mask_name); ("flag", VStr contours_flag);
   ("group", VStr record_class); ("exam_date", VStr exam_date);
   ("exam_instance", VStr exam_instance);
   ("anatomical_site", VStr anatomical_site); ("nucleus", VInt parent_id);
   ("nucleus_pixel_count", VInt (filled_pixel_sum sh parent));
   ("type", VStr parent_type)]%string.

(** The thirteen fields a child row has when it is first appended. *)
Definition agnor_record (parent_id : Z) (parent : contour) (child_id : Z)
    (child : contour) : dict :=
  [("patient_record", VStr record_id); ("patient_name", VStr patient_name);
   ("source_image", VStr mask_name); ("flag", VStr contours_flag);
   ("group", VStr record_class); ("exam_date", VStr exam_date);
   ("exam_instance", VStr exam_instance);
   ("anatomical_site", VStr anatomical_site); ("nucleus", VInt parent_id);
   ("agnor", VInt child_id);
   ("agnor_pixel_count", VInt (filled_pixel_sum sh child));
   ("type", VStr child_type);
   ("nucleus_ratio",
    VFloat (Fin (inject_Z (filled_pixel_sum sh child)
                 / inject_Z (filled_pixel_sum sh parent))))]%string.

(** The two ratio fields, taken against the sizes in [contours_size]. *)
Definition ratio_fields (contours_size : list Z) (child : contour) : dict :=
  [("greatest_agnor_ratio",
    VFloat (np_true_divide (filled_pixel_sum sh child) (np_max contours_size)));
   ("smallest_agnor_ratio",
    VFloat (np_true_divide (filled_pixel_sum sh child) (np_min contours_size)))]%string.

(** What [contours_size] holds when the parent loop is over: the sizes of
    the children attributed to the last parent. *)
Definition final_contours_size (parents children : list contour) : list Z :=
  match rev parents with
  | [] => []
  | last_parent :: _ => map (filled_pixel_sum sh) (attributed last_parent children)
  end.

Definition final_agnor_record (contours_size : list Z) (parent_id : Z)
    (parent : contour) (child_id : Z) (child : contour) : dict :=
  agnor_record parent_id parent child_id child
    ++ (if 0 <? len contours_size then ratio_fields contours_size child else []).

(** Sizes of all children attributed to any parent of the call. *)
Definition all_attributed_sizes (parents children : list contour) : list Z :=
  flat_map (fun parent => map (filled_pixel_sum sh) (attributed parent children))
    parents.

End BuilderRows.

(** The identifying cells of a child row. *)
Definition row_key (record : dict) : option value * option value * option value :=
  (dict_get record "nucleus", dict_get record "agnor",
   dict_get record "agnor_pixel_count").

(** ** Labelled records and a sample classifier *)

(** [labelled_record] is [record] with [label] in its [type] field: every
    other field of [record] is still there with its value. *)
Definition labelled (record : dict) (label : value) (labelled_record : dict)
  : Prop :=
  dict_get labelled_record "type" = Some label
  /\ forall k v, k <> "type"%string -> dict_get record k = Some v ->
                 dict_get labelled_record k = Some v.

(** A stand-in for the pickled model: label 0 for a row whose first feature,
    the pixel count, is at least 5, label 1 otherwise. *)
Definition sample_predict (features : list (list value)) : result (list value) :=
  Ok (map (fun row => match row with
                      | VInt z :: _ => if 5 <=? z then VInt 0 else VInt 1
                      | _ => VInt 1
                      end) features).

Definition sample_joblib_load (model_path : string)
  : result (list (list value) -> result (list value)) :=
  if String.eqb model_path EmptyString then Raise (ExternalError "FileNotFoundError")
  else Ok sample_predict.

(** Two child rows as the measurement builder returns them. *)
Definition sample_agnor_rows : list dict :=
  [[("patient_record", VStr "unknown"); ("patient_name", VStr "unknown");
    ("source_image", VStr "img.png"); ("flag", VStr "valid");
    ("group", VStr "unknown"); ("exam_date", VStr EmptyString); ("exam_instance", VStr EmptyString);
    ("anatomical_site", VStr EmptyString); ("nucleus", VInt 0); ("agnor", VInt 0);
    ("agnor_pixel_count", VInt 9); ("type", VStr "cluster");
    ("nucleus_ratio", VFloat (Fin (9 # 100)));
    ("greatest_agnor_ratio", VFloat (Fin (9 # 9)));
    ("smallest_agnor_ratio", VFloat (Fin (9 # 4)))];
   [("patient_record", VStr "unknown"); ("patient_name", VStr "unknown");
    ("source_image", VStr "img.png"); ("flag", VStr "valid");
    ("group", VStr "unknown"); ("exam_date", VStr EmptyString); ("exam_instance", VStr EmptyString);
    ("anatomical_site", VStr EmptyString); ("nucleus", VInt 0); ("agnor", VInt 1);
    ("agnor_pixel_count", VInt 4); ("type", VStr "cluster");
    ("nucleus_ratio", VFloat (Fin (4 # 100)));
    ("greatest_agnor_ratio", VFloat (Fin (4 # 9)));
    ("smallest_agnor_ratio", VFloat (Fin (4 # 4)))]]%string.

(** ** Reading the aggregate tables *)

(** The counts of the regrouped table summed over the keys that pass [p]. *)
Definition weight (p : Z -> bool) (table : list (Z * Z)) : Z :=
  sum (map snd (filter (fun '(agnor, _) => p agnor) table)).


(** Sample tables: ten nuclei of one image, nine of them with 1, 1, 2, 2,
    2, 3, 4, 5 and 6 AgNORs, the tenth with none. *)
Definition sample_nucleus_line (nucleus : Z) : list value :=
  [VStr "r-17"; VStr "patient"; VStr "img.png"; VStr "valid"; VStr "control";
   VStr "2023/01/01"; VStr "T0"; VStr "tongue"; VInt nucleus; VInt 15000;
   VStr "nucleus"; VStr "202301010000"].

Definition sample_agnor_line (nucleus agnor : Z) : list value :=
  [VStr "r-17"; VStr "patient"; VStr "img.png"; VStr "valid"; VStr "control";
   VStr "2023/01/01"; VStr "T0"; VStr "tongue"; VInt nucleus; VInt agnor;
   VInt 90; VStr "cluster"; VFloat (Fin (90 # 15000)); VFloat (Fin (90 # 90));
   VFloat (Fin (90 # 90)); VStr "202301010000"].

Definition sample_df_nucleus : DataFrame :=
  {| columns := NUCLEUS_COLUMNS ++ ["datetime"%string];
     rows := map sample_nucleus_line [0; 1; 2; 3; 4; 5; 6; 7; 8; 9] |}.

Definition sample_df_agnor : DataFrame :=
  {| columns := AGNOR_COLUMNS ++ ["datetime"%string];
     rows :=
       flat_map
         (fun '(nucleus, count) =>
            map (fun agnor => sample_agnor_line (Z.of_nat nucleus) (Z.of_nat agnor))
              (seq 0 count))
         [(0, 1); (1, 1); (2, 2); (3, 2); (4, 2); (5, 3); (6, 4); (7, 5);
          (8, 6)]%nat |}.

(** Sample files and path functions for running the aggregator. *)
Definition sample_parent_dir (path : string) : string := "out".
Definition sample_joinpath (dir name : string) : string :=
  (dir ++ "/" ++ name)%string.
Definition sample_str (v : value) : string :=
  match v with
  | VStr s => s
  | _ => EmptyString
  end.
Definition sample_remove_fails (path : string) : bool := false.

Definition sample_fs : filesystem :=
  fun path =>
    if String.eqb path "out/nucleus.csv"
    then Some (header_line sample_df_nucleus :: rows sample_df_nucleus)
    else if String.eqb path "out/agnor.csv"
    then Some (header_line sample_df_agnor :: rows sample_df_agnor)
    else None.

(** ** The lines the measurement writer leaves in its files *)

(** [if Path(path).is_file(): to_csv(mode="a", header=False) else:
    to_csv(mode="w", header=True)]. *)
Definition create_or_append (fs : filesystem) (df : DataFrame) (path : string)
  : filesystem :=
  if is_file fs path then to_csv fs df path true false
  else to_csv fs df path false true.

Definition written_parent_rows (parent_measurements : list dict)
    (datetime : string) : list (list value) :=
  map (fun record =>
         map (fun c => cell_of (dict_get record c)) NUCLEUS_COLUMNS
           ++ [VStr datetime])
    parent_measurements.

Definition written_child_rows (first_nucleus : value)
    (child_measurements : list dict) (datetime : string) : list (list value) :=
  map (fun record =>
         set_nth 8 first_nucleus
           (map (fun c => cell_of (dict_get record c)) AGNOR_COLUMNS)
           ++ [VStr datetime])
    child_measurements.

(** ** Bounding-box filter *)

(** A [uint8] array of the shape of the prediction, read by pixel. *)
Definition uint8_plane : Type := point -> Byte.byte.

Definition uint8_value (b : Byte.byte) : Z := Z.of_N (Byte.to_N b).

(** [x.astype(np.uint8)] on an integer cell. *)
Definition astype_uint8 (z : Z) : Z := z mod 256.

(** [int(x)] on a NumPy scalar. *)
Definition py_int_of_float (x : pyfloat) : result Z :=
  match x with
  | Fin q => Ok (py_int q)
  | PInf | NInf => Raise (ExternalError "OverflowError")
  | NaN => Raise (ValueError "cannot convert float NaN to integer")
  end.

(** [np.stack([background, nucleus, nor], axis=2).astype(np.uint8)]: the
    three cells of every pixel. *)
Record stacked : Type :=
  { stacked_shape : shape;
    channels : point -> Z * Z * Z }.

Section BoundingBoxes.

Context {segmentation bbox : Type}.

Variable pointPolygonTest : contour -> point -> Z.
(** [utils.utils.get_labelme_points] and [convert_bbox_to_contour (b.tolist())]. *)
Variable get_labelme_points : string -> list string -> result (list bbox).
Variable convert_bbox_to_contour : bbox -> result contour.
(** [np.max(np.unique(prediction))] and [prediction.shape[:2]]. *)
Variable np_max_unique : segmentation -> result pyfloat.
Variable prediction_shape : segmentation -> shape.
(** [cv2.drawContours(plane, contours, contourIdx=-1, color=.., thickness=FILLED)]. *)
Variable drawContours : uint8_plane -> list contour -> Z -> uint8_plane.

(** [background = np.ones(..)] is overwritten before it is read and is left
    out; the integer array that [np.where] builds for the background holds
    unbounded integers here. *)
Definition discard_unboxed_contours
    (prediction : option segmentation)
    (parent_contours child_contours : list contour) (annotation : string)
  : result (option stacked * list contour * list contour) :=
  match prediction with
  | Some prediction =>
      bboxes <- get_labelme_points annotation ["rectangle"%string] ;;
      bboxes <- list_comprehension convert_bbox_to_contour bboxes ;;
      let '(parent_contours, _) :=
        discard_contours_outside_contours pointPolygonTest bboxes parent_contours in
      let '(child_contours, _) :=
        discard_contours_outside_contours pointPolygonTest parent_contours
          child_contours in
      highest <- np_max_unique prediction ;;
      pixel_intensity <- py_int_of_float highest ;;
      let nucleus : uint8_plane := fun _ => Byte.x00 in
      let nor : uint8_plane := fun _ => Byte.x00 in
      let nucleus := drawContours nucleus parent_contours pixel_intensity in
      let nor := drawContours nor child_contours pixel_intensity in
      let nucleus : uint8_plane :=
        fun px => if negb (uint8_value (nor px) =? 0) then Byte.x00 else nucleus px in
      let background : point -> Z :=
        fun px =>
          if (uint8_value (nucleus px) =? 0) && (uint8_value (nor px) =? 0)
          then pixel_intensity else 0 in
      Ok (Some {| stacked_shape := prediction_shape prediction;
                  channels :=
                    fun px => (astype_uint8 (background px),
                               astype_uint8 (uint8_value (nucleus px)),
                               astype_uint8 (uint8_value (nor px))) |},
          parent_contours, child_contours)
  | None => Ok (None, parent_contours, child_contours)
  end.

End BoundingBoxes.

(** ** Dilation *)

(** [contour.max()]: the largest coordinate of the contour. *)
Definition contour_max (c : contour) : result Z :=
  match flat_map (fun '(x, y) => [x; y]) c with
  | [] => Raise (ValueError "zero-size array to reduction operation maximum which has no identity")
  | v :: vs => Ok (fold_left Z.max vs v)
  end.

Section Dilation.

Context {canvas structuring : Type}.

Variable np_zeros : shape -> canvas.
(** [cv2.drawContours(mask, contours, -1, [255, 255, 255], FILLED)]. *)
Variable drawContours : canvas -> list contour -> canvas.
Variable getStructuringElement : Z -> Z * Z -> structuring.
Variable dilate : canvas -> structuring -> Z -> canvas.

Definition dilate_contours (contours : list contour)
    (structuring_element : Z) (kernel : Z * Z) (iterations : Z)
    (sh : option shape) : result canvas :=
  mask <-
    match sh with
    | Some sh => Ok (np_zeros sh)
    | None =>
        max_value <-
          for_each
            (fun max_value contour =>
               m <- contour_max contour ;;
               Ok (if max_value <? m then m else max_value))
            contours 0 ;;
        Ok (np_zeros (max_value * 2, max_value * 2))
    end ;;
  let mask := drawContours mask contours in
  let kernel := getStructuringElement structuring_element kernel in
  Ok (dilate mask kernel iterations).

End Dilation.

(** A sample annotation reader and raster for the bounding-box filter: the
    annotation names its rectangles by corner, and a filled contour covers
    the pixels inside or on its box. *)
Definition sample_get_labelme_points (annotation : string) (shape_types : list string)
  : result (list (Z * Z * Z * Z)) :=
  if String.eqb annotation "boxes.json" then Ok [(0, 0, 9, 9)]
  else Raise (ExternalError "FileNotFoundError").

Definition sample_convert_bbox_to_contour (b : Z * Z * Z * Z) : result contour :=
  let '(x0, y0, x1, y1) := b in Ok (Box.box x0 y0 x1 y1).

Definition sample_uint8 (color : Z) : Byte.byte :=
  match Byte.of_N (Z.to_N (Z.max 0 (Z.min 255 color))) with
  | Some b => b
  | None => Byte.x00
  end.

Definition sample_fill (plane : uint8_plane) (contours : list contour) (color : Z)
  : uint8_plane :=
  fun px =>
    if existsb (fun c => 0 <=? Box.pointPolygonTest c px) contours
    then sample_uint8 color else plane px.

(** ** What a partition is *)



(** The keep rule of the size filter as the specification words it, with
    the floor left as a real number. *)
Definition keep_rule_as_specified (max_pixel_count : Z)
    (min_relative_pixel_count : Q) (pixel_count : Z) : Prop :=
  (min_relative_pixel_count * inject_Z max_pixel_count / 100 <= inject_Z pixel_count)%Q
  /\ pixel_count <= max_pixel_count.

(** The keep rule as the code applies it, with the floor truncated. *)
Definition size_ok (max_pixel_count : Z) (min_relative_pixel_count : Q)
    (pixel_count : Z) : bool :=
  (py_int (float_truediv
             (float_mul min_relative_pixel_count (float_of_int max_pixel_count))
             100)
     <=? pixel_count)
  && (pixel_count <=? max_pixel_count).



(** * Properties *)

(** ** Loops that split a list *)

Lemma partition_loop {A : Type} (p : A -> bool)
    (step : list A * list A -> A -> list A * list A) :
  (forall k d x, step (k, d) x = if p x then (k ++ [x], d) else (k, d ++ [x])) ->
  forall xs kept discarded,
    fold_left step xs (kept, discarded)
    = (kept ++ filter p xs, discarded ++ filter (fun x => negb (p x)) xs).
Proof.
  intros Hstep xs.
  induction xs as [|x xs IH]; intros kept discarded; simpl.
  - now rewrite !app_nil_r.
  - rewrite Hstep. destruct (p x); simpl; rewrite IH, <- app_assoc; reflexivity.
Qed.

Lemma partition_for_each {A : Type} (p : A -> bool)
    (step : list A * list A -> A -> result (list A * list A)) (xs : list A) :
  Forall (fun x => forall k d,
            step (k, d) x = Ok (if p x then (k ++ [x], d) else (k, d ++ [x]))) xs ->
  forall kept discarded,
    for_each step xs (kept, discarded)
    = Ok (kept ++ filter p xs, discarded ++ filter (fun x => negb (p x)) xs).
Proof.
  induction 1 as [|x xs Hx _ IH]; intros kept discarded; simpl.
  - now rewrite !app_nil_r.
  - rewrite Hx. simpl.
    destruct (p x); simpl; rewrite IH, <- app_assoc; reflexivity.
Qed.




Section FilterFacts.

Variable filled_pixel_sum : shape -> contour -> Z.
Variable pointPolygonTest : contour -> point -> Z.
Variable convexHull : contour -> contour.

Lemma discard_contours_by_size_filter contours sh max_pixel_count min_relative :
  discard_contours_by_size filled_pixel_sum contours sh max_pixel_count min_relative
  = (filter (fun c => size_ok max_pixel_count min_relative (filled_pixel_sum sh c))
       contours,
     filter (fun c => negb (size_ok max_pixel_count min_relative
                              (filled_pixel_sum sh c)))
       contours).
Proof.
  unfold discard_contours_by_size.
  apply (partition_loop
           (fun c => size_ok max_pixel_count min_relative (filled_pixel_sum sh c))).
  intros k d x. reflexivity.
Qed.

(** The flag of the parent-side scan is raised exactly when some child has
    a point inside the parent. *)
Lemma point_flag parent child : forall keep,
  fold_left
    (fun keep' child_point =>
       if 0 <=? pointPolygonTest parent child_point then true else keep')
    child keep
  = keep || has_point_inside pointPolygonTest parent child.
Proof.
  unfold has_point_inside.
  induction child as [|pt child IH]; intros keep; simpl.
  - now rewrite orb_false_r.
  - rewrite IH. destruct (0 <=? pointPolygonTest parent pt); simpl.
    + now rewrite orb_true_r.
    + reflexivity.
Qed.

Lemma child_flag parent children : forall keep,
  fold_left
    (fun keep child =>
       fold_left
         (fun keep' child_point =>
            if 0 <=? pointPolygonTest parent child_point then true else keep')
         child keep)
    children keep
  = keep || existsb (has_point_inside pointPolygonTest parent) children.
Proof.
  induction children as [|c children IH]; intros keep; simpl.
  - now rewrite orb_false_r.
  - rewrite IH, point_flag. now rewrite orb_assoc.
Qed.

Lemma discard_contours_without_contours_filter parents children :
  discard_contours_without_contours pointPolygonTest parents children
  = (filter (fun p => existsb (has_point_inside pointPolygonTest p) children)
       parents,
     filter (fun p => negb (existsb (has_point_inside pointPolygonTest p) children))
       parents).
Proof.
  unfold discard_contours_without_contours.
  apply (partition_loop
           (fun p => existsb (has_point_inside pointPolygonTest p) children)).
  intros k d x. rewrite child_flag. reflexivity.
Qed.

Lemma scan_points_existsb parent child :
  scan_points pointPolygonTest parent child
  = has_point_inside pointPolygonTest parent child.
Proof.
  unfold has_point_inside.
  induction child as [|pt child IH]; simpl; [reflexivity|].
  rewrite IH. now destruct (0 <=? pointPolygonTest parent pt).
Qed.

Lemma scan_parents_existsb parents child :
  scan_parents pointPolygonTest parents child
  = existsb (fun p => has_point_inside pointPolygonTest p child) parents.
Proof.
  induction parents as [|p parents IH]; simpl; [reflexivity|].
  rewrite IH, scan_points_existsb.
  now destruct (has_point_inside pointPolygonTest p child).
Qed.

Lemma discard_contours_outside_contours_filter parents children :
  discard_contours_outside_contours pointPolygonTest parents children
  = (filter (scan_parents pointPolygonTest parents) children,
     filter (fun c => negb (scan_parents pointPolygonTest parents c)) children).
Proof.
  unfold discard_contours_outside_contours.
  apply (partition_loop (scan_parents pointPolygonTest parents)).
  intros k d x. reflexivity.
Qed.

Lemma percent_diff_ok hull area :
  hull + area <> 0 -> exists diff, percent_diff hull area = Ok diff.
Proof.
  intros H. unfold percent_diff.
  destruct (Qeq_bool (inject_Z (hull + area) / 2) 0) eqn:E.
  - exfalso. apply Qeq_bool_eq in E. apply H.
    unfold Qeq, Qdiv, Qmult, Qinv, inject_Z in E. simpl in E. lia.
  - eauto.
Qed.

Lemma percent_diff_zero hull area :
  hull + area = 0 -> percent_diff hull area = Raise ZeroDivisionError.
Proof.
  intros H. unfold percent_diff. rewrite H. reflexivity.
Qed.

Lemma discard_overlapping_deformed_contours_filter contours sh max_diff :
  Forall (has_pixels filled_pixel_sum convexHull sh) contours ->
  discard_overlapping_deformed_contours filled_pixel_sum convexHull
    contours sh max_diff
  = Ok (filter (convex_enough filled_pixel_sum convexHull sh max_diff) contours,
        filter (fun c => negb (convex_enough filled_pixel_sum convexHull sh max_diff c)) contours).
Proof.
  intros HF. unfold discard_overlapping_deformed_contours.
  apply (partition_for_each (convex_enough filled_pixel_sum convexHull sh max_diff)).
  eapply Forall_impl; [|exact HF].
  intros c Hc k d. unfold convex_enough, get_contour_pixel_count.
  destruct (percent_diff_ok _ _ Hc) as [diff Hd]. rewrite Hd. simpl.
  now destruct (Qle_bool diff max_diff).
Qed.

End FilterFacts.

(** ** Truncation of the size floor *)

Lemma py_int_floor (q : Q) : (0 <= q)%Q -> py_int q = Qfloor q.
Proof.
  intros H. destruct q as [n d]. unfold py_int, Qfloor. simpl.
  apply Z.quot_div_nonneg; [|lia].
  unfold Qle in H. simpl in H. lia.
Qed.

(** ** Rounding to the nearest double *)

Lemma round_half_even_bounds (q : Q) :
  Qfloor q <= round_half_even q <= Qfloor q + 1.
Proof.
  unfold round_half_even.
  destruct (Qcompare _ _); [destruct (Z.even _)| |]; lia.
Qed.

Lemma round_half_even_mono (p q : Q) :
  (p <= q)%Q -> round_half_even p <= round_half_even q.
Proof.
  intros H. pose proof (Qfloor_resp_le _ _ H) as Hf.
  pose proof (round_half_even_bounds p) as Bp.
  pose proof (round_half_even_bounds q) as Bq.
  destruct (Z.eq_dec (Qfloor p) (Qfloor q)) as [E|E]; [|lia].
  assert (Hr : (p - inject_Z (Qfloor p) <= q - inject_Z (Qfloor q))%Q).
  { rewrite E. apply Qplus_le_l. exact H. }
  clear Bp Bq. unfold round_half_even. rewrite <- E in *.
  set (rp := (p - inject_Z (Qfloor p))%Q) in *.
  set (rq := (q - inject_Z (Qfloor p))%Q) in *.
  destruct (Qcompare rp (1 # 2)) eqn:Cp, (Qcompare rq (1 # 2)) eqn:Cq;
    try (destruct (Z.even (Qfloor p)); lia); exfalso.
  - apply Qeq_alt in Cp. apply Qlt_alt in Cq. rewrite Cp in Hr.
    exact (Qlt_not_le _ _ Cq Hr).
  - apply Qgt_alt in Cp. apply Qeq_alt in Cq. rewrite Cq in Hr.
    exact (Qlt_not_le _ _ Cp Hr).
  - apply Qgt_alt in Cp. apply Qlt_alt in Cq.
    apply (Qlt_irrefl (1 # 2)).
    eapply Qlt_le_trans; [exact Cp|]. eapply Qle_trans; [exact Hr|].
    apply Qlt_le_weak. exact Cq.
Qed.

Lemma round_half_even_integer (q : Q) (z : Z) :
  (q == inject_Z z)%Q -> round_half_even q = z.
Proof.
  intros H. unfold round_half_even.
  assert (Hf : Qfloor q = z) by (rewrite H; apply Qfloor_Z).
  rewrite Hf.
  assert (Hr : (q - inject_Z z < 1 # 2)%Q).
  { rewrite H. setoid_replace (inject_Z z - inject_Z z)%Q with 0%Q by ring.
    reflexivity. }
  destruct (Qcompare (q - inject_Z z) (1 # 2)) eqn:C; [| reflexivity |].
  - apply Qeq_alt in C. rewrite C in Hr. discriminate Hr.
  - apply Qgt_alt in C. exfalso. exact (Qlt_irrefl _ (Qlt_trans _ _ _ C Hr)).
Qed.

Lemma pow2_positive (k : Z) : (0 < 2 ^ k)%Q.
Proof. apply Qpower_0_lt. reflexivity. Qed.

Lemma pow2_integer (k : Z) : 0 <= k -> (2 ^ k == inject_Z (2 ^ k))%Q.
Proof. intros H. symmetry. apply (Zpower_Qpower 2 k H). Qed.

Lemma pow2_plus (j k : Z) : (2 ^ (j + k) == 2 ^ j * 2 ^ k)%Q.
Proof. apply Qpower_plus. discriminate. Qed.

Lemma pow2_le (j k : Z) : j <= k -> (2 ^ j <= 2 ^ k)%Q.
Proof. intros H. apply Qpower_le_compat_l; [exact H | discriminate]. Qed.

Lemma pow2_lt_inv (j k : Z) : (2 ^ j < 2 ^ k)%Q -> j < k.
Proof. intros H. apply (Qpower_lt_compat_l_inv 2); [exact H | reflexivity]. Qed.

Lemma div_pow2 (j k : Z) : (2 ^ j / 2 ^ k == 2 ^ (j - k))%Q.
Proof. symmetry. apply Qpower_minus. discriminate. Qed.

Lemma Qdiv_le_cross (a b c d : Q) :
  (0 < b)%Q -> (0 < d)%Q -> (a * d <= c * b)%Q -> (a / b <= c / d)%Q.
Proof.
  intros Hb Hd H. apply Qle_shift_div_l; [exact Hd|].
  assert (Hb' : ~ (b == 0)%Q).
  { intros E. rewrite E in Hb. exact (Qlt_irrefl _ Hb). }
  setoid_replace (a / b * d)%Q with (a * d / b)%Q by (field; exact Hb').
  apply Qle_shift_div_r; assumption.
Qed.

Lemma Qdiv_lt_cross (a b c d : Q) :
  (0 < b)%Q -> (0 < d)%Q -> (a * d < c * b)%Q -> (a / b < c / d)%Q.
Proof.
  intros Hb Hd H. apply Qlt_shift_div_l; [exact Hd|].
  assert (Hb' : ~ (b == 0)%Q).
  { intros E. rewrite E in Hb. exact (Qlt_irrefl _ Hb). }
  setoid_replace (a / b * d)%Q with (a * d / b)%Q by (field; exact Hb').
  apply Qlt_shift_div_r; assumption.
Qed.

Lemma ilog2_spec (q : Q) :
  (0 < q)%Q -> (2 ^ ilog2 q <= q)%Q /\ (q < 2 ^ (ilog2 q + 1))%Q.
Proof.
  intros Hq. unfold ilog2.
  set (a := Z.log2 (Qnum q)). set (b := Z.log2 (Zpos (Qden q))).
  assert (Hn : 0 < Qnum q).
  { destruct q as [n d]. unfold Qlt in Hq. simpl in *. lia. }
  destruct (Z.log2_spec (Qnum q) Hn) as [Ha1 Ha2]. fold a in Ha1, Ha2.
  destruct (Z.log2_spec (Zpos (Qden q)) eq_refl) as [Hb1 Hb2]. fold b in Hb1, Hb2.
  assert (Ha0 : 0 <= a) by apply Z.log2_nonneg.
  assert (Hb0 : 0 <= b) by apply Z.log2_nonneg.
  rewrite <- Z.add_1_r in Ha2, Hb2.
  assert (Hq' : (q == inject_Z (Qnum q) / inject_Z (Zpos (Qden q)))%Q).
  { destruct q as [n d]. simpl. apply Qmake_Qdiv. }
  assert (Hd : (0 < inject_Z (Zpos (Qden q)))%Q) by reflexivity.
  assert (Hlow : (2 ^ (a - b - 1) <= q)%Q).
  { rewrite Hq'. replace (a - b - 1) with (a - (b + 1)) by lia.
    rewrite <- div_pow2.
    apply Qdiv_le_cross; [apply pow2_positive | exact Hd |].
    rewrite !pow2_integer by lia. rewrite <- !inject_Z_mult, <- Zle_Qle. nia. }
  assert (Hhigh : (q < 2 ^ (a - b + 1))%Q).
  { rewrite Hq'. replace (a - b + 1) with (a + 1 - b) by lia.
    rewrite <- div_pow2.
    apply Qdiv_lt_cross; [exact Hd | apply pow2_positive |].
    rewrite !pow2_integer by lia. rewrite <- !inject_Z_mult, <- Zlt_Qlt. nia. }
  destruct (Qle_bool (2 ^ (a - b)) q) eqn:E.
  - apply Qle_bool_iff in E. split; [exact E | exact Hhigh].
  - split; [exact Hlow|].
    replace (a - b - 1 + 1) with (a - b) by lia.
    apply Qnot_le_lt. intros H. apply Qle_bool_iff in H. congruence.
Qed.

Lemma scaled_pow2 (j k : Z) : k <= j -> (inject_Z (2 ^ (j - k)) * 2 ^ k == 2 ^ j)%Q.
Proof.
  intros H. rewrite <- pow2_integer by lia. rewrite <- pow2_plus.
  replace (j - k + k) with j by lia. reflexivity.
Qed.

Lemma div_by_pow2_le (p q : Q) (k : Z) : (p <= q)%Q -> (p / 2 ^ k <= q / 2 ^ k)%Q.
Proof.
  intros H. apply Qmult_le_compat_r; [exact H|].
  apply Qlt_le_weak, Qinv_lt_0_compat, pow2_positive.
Qed.

Lemma times_pow2_le (m n : Z) (k : Z) :
  m <= n -> (inject_Z m * 2 ^ k <= inject_Z n * 2 ^ k)%Q.
Proof.
  intros H. apply Qmult_le_compat_r; [rewrite <- Zle_Qle; exact H|].
  apply Qlt_le_weak, pow2_positive.
Qed.

Lemma binary64_positive_le_pow2 (q : Q) (j : Z) :
  Z.max (ilog2 q - 52) (-1074) <= j -> (q <= 2 ^ j)%Q ->
  (binary64_positive q <= 2 ^ j)%Q.
Proof.
  intros Hj H. unfold binary64_positive.
  set (k := Z.max (ilog2 q - 52) (-1074)) in *.
  rewrite <- (scaled_pow2 j k Hj).
  apply times_pow2_le.
  rewrite <- (round_half_even_integer (2 ^ j / 2 ^ k) (2 ^ (j - k))).
  - apply round_half_even_mono, div_by_pow2_le, H.
  - rewrite div_pow2. apply pow2_integer. lia.
Qed.

Lemma binary64_positive_ge_pow2 (q : Q) (j : Z) :
  Z.max (ilog2 q - 52) (-1074) <= j -> (2 ^ j <= q)%Q ->
  (2 ^ j <= binary64_positive q)%Q.
Proof.
  intros Hj H. unfold binary64_positive.
  set (k := Z.max (ilog2 q - 52) (-1074)) in *.
  rewrite <- (scaled_pow2 j k Hj).
  apply times_pow2_le.
  rewrite <- (round_half_even_integer (2 ^ j / 2 ^ k) (2 ^ (j - k))).
  - apply round_half_even_mono, div_by_pow2_le, H.
  - rewrite div_pow2. apply pow2_integer. lia.
Qed.

Lemma binary64_positive_mono (p q : Q) :
  (0 < p)%Q -> (p <= q)%Q -> (binary64_positive p <= binary64_positive q)%Q.
Proof.
  intros Hp H.
  assert (Hq : (0 < q)%Q) by (eapply Qlt_le_trans; eassumption).
  destruct (ilog2_spec p Hp) as [Lp Up].
  destruct (ilog2_spec q Hq) as [Lq Uq].
  assert (He : ilog2 p <= ilog2 q).
  { enough (ilog2 p < ilog2 q + 1) by lia. apply pow2_lt_inv.
    eapply Qle_lt_trans; [exact Lp|]. eapply Qle_lt_trans; eassumption. }
  destruct (Z.eq_dec (Z.max (ilog2 p - 52) (-1074)) (Z.max (ilog2 q - 52) (-1074)))
    as [E|E].
  - unfold binary64_positive. rewrite E.
    apply times_pow2_le, round_half_even_mono, div_by_pow2_le, H.
  - apply (Qle_trans _ (2 ^ ilog2 q)).
    + apply binary64_positive_le_pow2; [lia|].
      apply Qlt_le_weak. eapply Qlt_le_trans; [exact Up|]. apply pow2_le. lia.
    + apply binary64_positive_ge_pow2; [lia | exact Lq].
Qed.

Lemma binary64_positive_nonneg (q : Q) : (0 < q)%Q -> (0 <= binary64_positive q)%Q.
Proof.
  intros Hq. unfold binary64_positive.
  apply Qmult_le_0_compat; [|apply Qlt_le_weak, pow2_positive].
  change 0%Q with (inject_Z 0). rewrite <- Zle_Qle.
  pose proof (round_half_even_bounds (q / 2 ^ Z.max (ilog2 q - 52) (-1074))) as [B _].
  eapply Z.le_trans; [|exact B].
  rewrite <- (Qfloor_Z 0). apply Qfloor_resp_le.
  apply Qle_shift_div_l; [apply pow2_positive|].
  rewrite Qmult_0_l. apply Qlt_le_weak, Hq.
Qed.

Lemma binary64_sign (q : Q) :
  ((0 < q)%Q /\ binary64 q = binary64_positive q)
  \/ ((q == 0)%Q /\ binary64 q = 0%Q)
  \/ ((q < 0)%Q /\ binary64 q = (- binary64_positive (- q))%Q).
Proof.
  unfold binary64. destruct (Qcompare q 0) eqn:C.
  - right. left. split; [apply Qeq_alt, C | reflexivity].
  - right. right. split; [apply Qlt_alt, C | reflexivity].
  - left. split; [apply Qgt_alt, C | reflexivity].
Qed.

Lemma Qopp_pos (q : Q) : (q < 0)%Q -> (0 < - q)%Q.
Proof. intros H. apply Qopp_lt_compat in H. exact H. Qed.

(** Rounding to the nearest double is monotone. *)
Lemma binary64_mono (p q : Q) : (p <= q)%Q -> (binary64 p <= binary64 q)%Q.
Proof.
  intros H.
  destruct (binary64_sign p) as [[Sp ->]|[[Sp ->]|[Sp ->]]],
      (binary64_sign q) as [[Sq ->]|[[Sq ->]|[Sq ->]]].
  - apply binary64_positive_mono; assumption.
  - exfalso. rewrite Sq in H. exact (Qlt_not_le _ _ Sp H).
  - exfalso. apply (Qlt_irrefl 0).
    eapply Qlt_le_trans; [exact Sp|]. eapply Qle_trans; [exact H|].
    apply Qlt_le_weak, Sq.
  - apply binary64_positive_nonneg, Sq.
  - apply Qle_refl.
  - exfalso. rewrite Sp in H. exact (Qlt_not_le _ _ Sq H).
  - apply (Qle_trans _ 0).
    + rewrite <- (Qopp_involutive 0). apply Qopp_le_compat.
      apply binary64_positive_nonneg, Qopp_pos, Sp.
    + apply binary64_positive_nonneg, Sq.
  - rewrite <- (Qopp_involutive 0). apply Qopp_le_compat.
    apply binary64_positive_nonneg, Qopp_pos, Sp.
  - apply Qopp_le_compat. apply binary64_positive_mono.
    + apply Qopp_pos, Sq.
    + apply Qopp_le_compat, H.
Qed.

(** Integers below [2 ^ 53] are doubles. *)
Lemma binary64_exact (z : Z) :
  0 <= z < 2 ^ 53 -> (binary64 (inject_Z z) == inject_Z z)%Q.
Proof.
  intros [H0 H53].
  destruct (binary64_sign (inject_Z z)) as [[S ->]|[[S ->]|[S ->]]].
  - destruct (ilog2_spec _ S) as [L U].
    set (e := ilog2 (inject_Z z)) in *.
    assert (He : e < 53).
    { apply pow2_lt_inv. eapply Qle_lt_trans; [exact L|].
      rewrite (pow2_integer 53) by lia. rewrite <- Zlt_Qlt. exact H53. }
    assert (He0 : 0 <= e).
    { enough (0 < e + 1) by lia. apply pow2_lt_inv.
      eapply Qle_lt_trans; [|exact U].
      change (2 ^ 0)%Q with (inject_Z 1). rewrite <- Zle_Qle.
      change 0%Q with (inject_Z 0) in S. rewrite <- Zlt_Qlt in S. lia. }
    unfold binary64_positive. fold e.
    replace (Z.max (e - 52) (-1074)) with (e - 52) by lia.
    rewrite (round_half_even_integer _ (z * 2 ^ (52 - e))).
    + rewrite inject_Z_mult, <- pow2_integer by lia.
      rewrite <- Qmult_assoc, <- pow2_plus.
      replace (52 - e + (e - 52)) with 0 by lia. apply Qmult_1_r.
    + rewrite inject_Z_mult, <- pow2_integer by lia.
      replace (52 - e) with (- (e - 52)) by lia.
      rewrite Qpower_opp. reflexivity.
  - symmetry. exact S.
  - exfalso. change 0%Q with (inject_Z 0) in S. rewrite <- Zlt_Qlt in S. lia.
Qed.

Lemma binary64_nonneg (q : Q) : (0 <= q)%Q -> (0 <= binary64 q)%Q.
Proof. intros H. apply (binary64_mono 0 q H). Qed.

Lemma binary64_le_integer (q : Q) (z : Z) :
  0 <= z < 2 ^ 53 -> (q <= inject_Z z)%Q -> (binary64 q <= inject_Z z)%Q.
Proof.
  intros Hz H. rewrite <- (binary64_exact z Hz). apply binary64_mono, H.
Qed.

(** The size floor never exceeds the maximum, for a percentage up to 100. *)
Lemma size_floor_le_max (r : Q) (m : Z) :
  (0 <= r)%Q -> (r <= 100)%Q -> 0 <= m -> m * 100 < 2 ^ 53 ->
  py_int (float_truediv (float_mul r (float_of_int m)) 100) <= m.
Proof.
  intros H0 H100 Hm Hb. unfold float_truediv, float_mul, float_of_int.
  assert (Em : (binary64 (inject_Z m) == inject_Z m)%Q)
    by (apply binary64_exact; lia).
  assert (Hm' : (0 <= inject_Z m)%Q) by (change 0%Q with (inject_Z 0); rewrite <- Zle_Qle; exact Hm).
  assert (P0 : (0 <= binary64 (r * binary64 (inject_Z m)))%Q).
  { apply binary64_nonneg. rewrite Em. apply Qmult_le_0_compat; assumption. }
  assert (P1 : (binary64 (r * binary64 (inject_Z m)) <= inject_Z (m * 100))%Q).
  { apply binary64_le_integer; [lia|]. rewrite Em, inject_Z_mult.
    rewrite (Qmult_comm (inject_Z m)). apply Qmult_le_compat_r; assumption. }
  assert (Q0 : (0 <= binary64 (binary64 (r * binary64 (inject_Z m)) / 100))%Q).
  { apply binary64_nonneg. apply Qle_shift_div_l; [reflexivity|].
    rewrite Qmult_0_l. exact P0. }
  assert (Q1 : (binary64 (binary64 (r * binary64 (inject_Z m)) / 100) <= inject_Z m)%Q).
  { apply binary64_le_integer; [lia|]. apply Qle_shift_div_r; [reflexivity|].
    rewrite inject_Z_mult in P1. exact P1. }
  rewrite py_int_floor by exact Q0.
  pose proof (Qfloor_resp_le _ _ Q1) as F. rewrite Qfloor_Z in F. exact F.
Qed.

Lemma size_ok_iff max_pixel_count min_relative pixel_count :
  size_ok max_pixel_count min_relative pixel_count = true
  <-> py_int (float_truediv (float_mul min_relative (float_of_int max_pixel_count))
                100) <= pixel_count
      /\ pixel_count <= max_pixel_count.
Proof.
  unfold size_ok. rewrite andb_true_iff, !Z.leb_le. reflexivity.
Qed.

(** ** Size filter *)

(** The floor at the default thresholds, and at two thresholds where the
    rounding of the product decides: [0.3 * 67000] is the double [20100.0]
    and the floor 201, where the exact product of the double [0.3] gives
    200; [0.57 * 10000] is just below 5700 and the floor 56. *)
Example size_floor_in_doubles :
  py_int (float_truediv
            (float_mul MIN_NUCLEUS_PERCENT_PIXEL_COUNT
               (float_of_int MAX_NUCLEUS_PIXEL_COUNT)) 100) = 13
  /\ py_int (float_truediv
               (float_mul MIN_NOR_PERCENT_PIXEL_COUNT
                  (float_of_int MAX_NOR_PIXEL_COUNT)) 100) = 0
  /\ py_int (float_truediv (float_mul (binary64 (3 # 10)) (float_of_int 67000)) 100)
     = 201
  /\ py_int (binary64 (3 # 10) * inject_Z 67000 / 100) = 200
  /\ py_int (float_truediv (float_mul (binary64 (57 # 100)) (float_of_int 10000)) 100)
     = 56.
Proof. vm_compute. repeat split. Qed.

(** On these operands (the doubles 0.3, 0.02, 0.0017, 0.57, 99.99, 1e-320
    and 33.333 with an integer maximum) the product and the quotient of the
    size floor are those of the Standard Library's IEEE 754 specification. *)
Example size_floor_agrees_with_ieee :
  forallb
    (fun '(m, e, z) =>
       let x := SpecFloat.binary_normalize 53 1024 m e false in
       let y := SpecFloat.binary_normalize 53 1024 z 0 false in
       let hundred := SpecFloat.binary_normalize 53 1024 100 0 false in
       Qeq_bool
         (spec_float_value
            (SpecFloat.SFdiv 53 1024 (SpecFloat.SFmul 53 1024 x y) hundred))
         (float_truediv (float_mul (spec_float_value x) (float_of_int z)) 100))
    [(5404319552844595, -54, 67000); (5764607523034235, -58, 67000);
     (7839866231326559, -62, 3521); (5134103575202365, -53, 10000);
     (7036170730324623, -46, 67000); (8901646138474496, -1116, 3);
     (4691202699348148, -47, 12345)]
  = true.
Proof. vm_compute. reflexivity. Qed.

(** C9, as amended: for a float percentage and an int maximum whose product
    fits a double, the size filter keeps a contour exactly when its pixel
    count lies between the floor and [max_pixel_count], both ends included,
    where the floor is [int((percent * max) / 100)] as Python computes it:
    the product and the quotient each rounded to the nearest double and the
    result truncated to an integer.  A count equal to the maximum is kept
    (for a percentage in [0, 100] and a maximum with [0 <= 100 * max < 2 ^ 53]),
    one above the maximum is discarded, and one below the floor is
    discarded. *)
Theorem size_filter_rule
    (filled_pixel_sum : shape -> contour -> Z) (contours : list contour)
    (sh : shape) (max_pixel_count : Z) (min_relative_pixel_count : Q) :
  is_double min_relative_pixel_count = true ->
  double_overflows (float_of_int max_pixel_count) = false ->
  double_overflows
    (float_mul min_relative_pixel_count (float_of_int max_pixel_count)) = false ->
  let min_pixel_count :=
    py_int (float_truediv
              (float_mul min_relative_pixel_count (float_of_int max_pixel_count))
              100) in
  let pixel_count c := get_contour_pixel_count filled_pixel_sum c sh in
  let '(kept, discarded) :=
    discard_contours_by_size filled_pixel_sum contours sh
      max_pixel_count min_relative_pixel_count in
  (forall c, In c kept <->
             In c contours
             /\ min_pixel_count <= pixel_count c <= max_pixel_count)
  /\ (forall c, In c discarded <->
                In c contours
                /\ ~ (min_pixel_count <= pixel_count c <= max_pixel_count))
  /\ ((0 <= min_relative_pixel_count)%Q -> (min_relative_pixel_count <= 100)%Q ->
      0 <= max_pixel_count -> max_pixel_count * 100 < 2 ^ 53 ->
      forall c, In c contours -> pixel_count c = max_pixel_count -> In c kept)
  /\ (forall c, In c contours -> pixel_count c = max_pixel_count + 1 ->
                In c discarded)
  /\ (forall c, In c contours -> pixel_count c = min_pixel_count - 1 ->
                In c discarded).
Proof.
  intros _ _ _ min_pixel_count pixel_count.
  rewrite discard_contours_by_size_filter.
  assert (K : forall c,
             In c (filter (fun c => size_ok max_pixel_count min_relative_pixel_count
                                      (filled_pixel_sum sh c)) contours)
             <-> In c contours
                 /\ min_pixel_count <= pixel_count c <= max_pixel_count).
  { intros c. rewrite filter_In, size_ok_iff. reflexivity. }
  assert (D : forall c,
             In c (filter (fun c => negb (size_ok max_pixel_count
                                            min_relative_pixel_count
                                            (filled_pixel_sum sh c))) contours)
             <-> In c contours
                 /\ ~ (min_pixel_count <= pixel_count c <= max_pixel_count)).
  { intros c. rewrite filter_In, negb_true_iff, <- not_true_iff_false, size_ok_iff.
    reflexivity. }
  split; [exact K|]. split; [exact D|]. repeat split.
  - intros H0 H100 Hm Hb c Hin Hpc. apply K. split; [assumption|].
    rewrite Hpc. split; [|lia].
    now apply size_floor_le_max.
  - intros c Hin Hpc. apply D. split; [assumption|]. lia.
  - intros c Hin Hpc. apply D. split; [assumption|]. lia.
Qed.

(** The nucleus defaults on three strips of 12, 13 and 67000 pixels: the
    floor is 13, so the first is discarded and the other two are kept. *)
Lemma size_filter_rule_witness :
  is_double MIN_NUCLEUS_PERCENT_PIXEL_COUNT = true
  /\ double_overflows (float_of_int MAX_NUCLEUS_PIXEL_COUNT) = false
  /\ double_overflows
       (float_mul MIN_NUCLEUS_PERCENT_PIXEL_COUNT
          (float_of_int MAX_NUCLEUS_PIXEL_COUNT)) = false
  /\ discard_contours_by_size Box.filled_pixel_sum
       [Box.box 0 0 11 0; strip13; Box.box 0 0 669 99] (1000, 1000)
       MAX_NUCLEUS_PIXEL_COUNT MIN_NUCLEUS_PERCENT_PIXEL_COUNT
     = ([strip13; Box.box 0 0 669 99], [Box.box 0 0 11 0])
  /\ forall c,
       In c [strip13; Box.box 0 0 669 99] <->
       In c [Box.box 0 0 11 0; strip13; Box.box 0 0 669 99]
       /\ 13 <= get_contour_pixel_count Box.filled_pixel_sum c (1000, 1000)
          <= MAX_NUCLEUS_PIXEL_COUNT.
Proof.
  assert (H1 : is_double MIN_NUCLEUS_PERCENT_PIXEL_COUNT = true)
    by (vm_compute; reflexivity).
  assert (H2 : double_overflows (float_of_int MAX_NUCLEUS_PIXEL_COUNT) = false)
    by (vm_compute; reflexivity).
  assert (H3 : double_overflows
                 (float_mul MIN_NUCLEUS_PERCENT_PIXEL_COUNT
                    (float_of_int MAX_NUCLEUS_PIXEL_COUNT)) = false)
    by (vm_compute; reflexivity).
  assert (E : discard_contours_by_size Box.filled_pixel_sum
                [Box.box 0 0 11 0; strip13; Box.box 0 0 669 99] (1000, 1000)
                MAX_NUCLEUS_PIXEL_COUNT MIN_NUCLEUS_PERCENT_PIXEL_COUNT
              = ([strip13; Box.box 0 0 669 99], [Box.box 0 0 11 0]))
    by (vm_compute; reflexivity).
  split; [exact H1|]. split; [exact H2|]. split; [exact H3|]. split; [exact E|].
  pose proof (size_filter_rule Box.filled_pixel_sum
                [Box.box 0 0 11 0; strip13; Box.box 0 0 669 99] (1000, 1000)
                MAX_NUCLEUS_PIXEL_COUNT MIN_NUCLEUS_PERCENT_PIXEL_COUNT H1 H2 H3)
    as R.
  cbv zeta in R. rewrite E in R. destruct R as [K _].
  replace (py_int (float_truediv
                     (float_mul MIN_NUCLEUS_PERCENT_PIXEL_COUNT
                        (float_of_int MAX_NUCLEUS_PIXEL_COUNT)) 100))
    with 13 in K by (vm_compute; reflexivity).
  exact K.
Defined.

(** C9, as stated, fails: the strip is kept by the filter, while the rule
    with the untruncated floor rejects it. *)
Lemma size_filter_keeps_below_real_floor :
  In strip13
     (fst (discard_contours_by_size Box.filled_pixel_sum [strip13] (100, 100)
             MAX_NUCLEUS_PIXEL_COUNT MIN_NUCLEUS_PERCENT_PIXEL_COUNT))
  /\ ~ keep_rule_as_specified MAX_NUCLEUS_PIXEL_COUNT MIN_NUCLEUS_PERCENT_PIXEL_COUNT
         (get_contour_pixel_count Box.filled_pixel_sum strip13 (100, 100)).
Proof.
  split.
  - vm_compute. left. reflexivity.
  - intros [H _]. vm_compute in H. apply H. reflexivity.
Qed.

(** ** Partition totality *)




(** ** Smoother *)

Section SmootherFacts.

Variable spline_resample : contour -> Z -> result contour.

Lemma smooth_loop points contours : forall smoothened printed,
  fold_left
    (fun '(smoothened_contours, printed) c =>
       match spline_resample c points with
       | Ok smoothed => (smoothened_contours ++ [smoothed], printed)
       | Raise e =>
           (smoothened_contours,
            printed ++ [("The smoothing of a contour caused a failure: "
                           ++ exn_message e)%string])
       end)
    contours (smoothened, printed)
  = (smoothened ++ flat_map (smoothed_of spline_resample points) contours,
     printed ++ flat_map (failure_of spline_resample points) contours).
Proof.
  induction contours as [|c contours IH]; intros smoothened printed; simpl.
  - now rewrite !app_nil_r.
  - unfold smoothed_of at 1, failure_of at 1.
    destruct (spline_resample c points); rewrite IH; simpl;
      now rewrite <- ?app_assoc.
Qed.

Lemma smoothed_length points contours :
  List.length (flat_map (smoothed_of spline_resample points) contours)
  = List.length (filter (fits spline_resample points) contours).
Proof.
  induction contours as [|c contours IH]; simpl; [reflexivity|].
  unfold smoothed_of at 1, fits at 1.
  destruct (spline_resample c points); simpl; now rewrite IH.
Qed.

Lemma failure_length points contours :
  List.length (flat_map (failure_of spline_resample points) contours)
  = List.length (filter (fun c => negb (fits spline_resample points c)) contours).
Proof.
  induction contours as [|c contours IH]; simpl; [reflexivity|].
  unfold failure_of at 1, fits at 1.
  destruct (spline_resample c points); simpl; now rewrite IH.
Qed.

Lemma filter_lengths {A : Type} (p : A -> bool) (l : list A) :
  (List.length (filter p l) + List.length (filter (fun x => negb (p x)) l)
   = List.length l)%nat.
Proof.
  induction l as [|x l IH]; simpl; [reflexivity|].
  destruct (p x); simpl; lia.
Qed.

Lemma filter_drops {A : Type} (p : A -> bool) (l : list A) (x : A) :
  In x l -> p x = false -> (List.length (filter p l) < List.length l)%nat.
Proof.
  induction l as [|y l IH]; simpl; [tauto|].
  intros [->|Hin] Hp.
  - rewrite Hp. pose proof (filter_length_le p l). lia.
  - specialize (IH Hin Hp). destruct (p y); simpl; lia.
Qed.

End SmootherFacts.

(** C10: smoothing never raises.  A contour whose fitting raises leaves one
    printed failure line and no output contour; every other contour is still
    fitted and its result kept, in input order.  So the output is as long as
    the number of contours that fit, never longer than the input, and
    strictly shorter as soon as one contour fails. *)
Theorem smooth_contours_drops_failures
    (spline_resample : contour -> Z -> result contour)
    (contours : list contour) (points : Z) :
  let '(smoothened_contours, printed) :=
    smooth_contours spline_resample contours points in
  smoothened_contours = flat_map (smoothed_of spline_resample points) contours
  /\ printed = flat_map (failure_of spline_resample points) contours
  /\ List.length smoothened_contours
     = List.length (filter (fits spline_resample points) contours)
  /\ List.length printed
     = List.length (filter (fun c => negb (fits spline_resample points c)) contours)
  /\ (List.length smoothened_contours + List.length printed
      = List.length contours)%nat
  /\ (forall c, In c contours -> fits spline_resample points c = false ->
                (List.length smoothened_contours < List.length contours)%nat).
Proof.
  unfold smooth_contours. rewrite smooth_loop. simpl.
  repeat split.
  - apply smoothed_length.
  - apply failure_length.
  - rewrite smoothed_length, failure_length. apply filter_lengths.
  - intros c Hin Hc. rewrite smoothed_length. eapply filter_drops; eauto.
Qed.

(** A one-point contour between two boxes: the boxes are smoothed, the
    degenerate contour is dropped and reported. *)
Example smooth_contours_shorter :
  smooth_contours Box.spline_resample
    [Box.box 0 0 9 9; [(3, 3)]; Box.box 20 20 29 29] 40
  = ([Box.box 0 0 9 9; Box.box 20 20 29 29],
     ["The smoothing of a contour caused a failure: m > k must hold"%string]).
Proof. reflexivity. Qed.

(** ** Diagnostic overlay *)

Lemma len_positive {A : Type} (l : list A) : (0 <? len l) = negb (len l =? 0).
Proof. destruct l; reflexivity. Qed.

Lemma len_zero {A : Type} (l : list A) : (len l =? 0) = true <-> l = [].
Proof. destruct l; simpl; split; intros H; try reflexivity; discriminate. Qed.

Section OrchestratorFacts.

Variable filled_pixel_sum : shape -> contour -> Z.
Variable pointPolygonTest : contour -> point -> Z.
Variable convexHull : contour -> contour.
Variable spline_resample : contour -> Z -> result contour.
Context {image plane : Type}.
Variable nucleus_plus_nor : image -> plane.
Variable nor_plane : image -> plane.
Variable binarize : plane -> plane.
Variable findContours : plane -> list contour.
Variable image_shape : image -> shape.
Variable stack_mask : image -> list contour -> list contour -> image.
Variable color_classes : image -> image.
Variable draw_multiple : image -> list contour -> image.
Variable draw_single : image -> list contour -> image.

Local Abbreviation analyze :=
  (analyze_contours filled_pixel_sum pointPolygonTest convexHull spline_resample
     nucleus_plus_nor nor_plane binarize findContours image_shape stack_mask
     color_classes draw_multiple draw_single).
Local Abbreviation size_discarded_nuclei mask :=
  (snd (nuclei_by_size filled_pixel_sum nucleus_plus_nor binarize findContours
          image_shape mask)).
Local Abbreviation size_discarded_nors mask :=
  (snd (nors_by_size filled_pixel_sum nor_plane binarize findContours
          image_shape mask)).
Local Abbreviation nuclei_without_nors mask smooth :=
  (snd (nuclei_by_nors filled_pixel_sum pointPolygonTest spline_resample
          nucleus_plus_nor nor_plane binarize findContours image_shape mask smooth)).

(** C5: once the deformation stage has split the nuclei, [analyze_contours]
    returns, and it returns an overlay only if one of the four discard
    categories is non-empty.  Without overlapping or deformed nuclei the two
    deformed lists come back empty, and if moreover nothing was discarded by
    size and every nucleus has an AgNOR, the overlay is [None]. *)
Theorem diagnostic_overlay_only_on_discards
    (mask : image) (smooth : bool) (adequate deformed : list contour) :
  nuclei_by_convexity filled_pixel_sum pointPolygonTest convexHull spline_resample
    nucleus_plus_nor nor_plane binarize findContours image_shape mask smooth
  = Ok (adequate, deformed) ->
  exists updated_mask nors_in_adequate contour_detail deformed_out
         nors_in_deformed printed,
    analyze mask smooth
    = Ok ((updated_mask, adequate, nors_in_adequate),
          (contour_detail, deformed_out, nors_in_deformed), printed)
    /\ (contour_detail <> None ->
        size_discarded_nuclei mask <> [] \/ size_discarded_nors mask <> []
        \/ nuclei_without_nors mask smooth <> [] \/ deformed <> [])
    /\ (deformed = [] -> deformed_out = [] /\ nors_in_deformed = [])
    /\ (deformed = [] -> size_discarded_nuclei mask = [] ->
        size_discarded_nors mask = [] -> nuclei_without_nors mask smooth = [] ->
        contour_detail = None).
Proof.
  unfold nuclei_by_convexity, nuclei_by_nors, nuclei_by_size, nors_by_size,
    analyze_contours.
  destruct (discard_contours_by_size filled_pixel_sum
              (get_contours binarize findContours (nucleus_plus_nor mask))
              (image_shape mask) MAX_NUCLEUS_PIXEL_COUNT
              MIN_NUCLEUS_PERCENT_PIXEL_COUNT) as [nuclei nuclei_size] eqn:E1.
  destruct (discard_contours_by_size filled_pixel_sum
              (get_contours binarize findContours (nor_plane mask))
              (image_shape mask) MAX_NOR_PIXEL_COUNT
              MIN_NOR_PERCENT_PIXEL_COUNT) as [nors nors_size] eqn:E2.
  cbn [fst snd].
  assert (ES : (if smooth
                then fst (smooth_contours spline_resample nuclei 40)
                else nuclei)
               = fst (if smooth then smooth_contours spline_resample nuclei 40
                      else (nuclei, []))) by (destruct smooth; reflexivity).
  rewrite ES. clear ES.
  destruct (if smooth then smooth_contours spline_resample nuclei 40
            else (nuclei, [])) as [smoothed printed].
  cbn [fst snd].
  destruct (discard_contours_without_contours pointPolygonTest smoothed nors)
    as [with_nors without_nors].
  cbn [fst snd]. intros H. rewrite H. cbn [bind].
  destruct (discard_contours_outside_contours pointPolygonTest adequate nors)
    as [nors_adequate ?].
  destruct (discard_contours_outside_contours pointPolygonTest deformed nors)
    as [nors_deformed ?].
  destruct nuclei_size as [|n1 nuclei_size], without_nors as [|n2 without_nors],
    nors_size as [|n3 nors_size], deformed as [|n4 deformed];
    cbn; do 6 eexists; (split; [reflexivity|]);
    repeat split; try congruence; intros; try congruence;
    try (left; congruence); try (right; left; congruence);
    try (right; right; left; congruence); try (right; right; right; congruence).
Qed.

End OrchestratorFacts.

Lemma diagnostic_overlay_only_on_discards_witness :
  nuclei_by_convexity Box.filled_pixel_sum Box.pointPolygonTest Box.convexHull
    Box.spline_resample Box.nucleus_plus_nor Box.nor_plane Box.binarize
    Box.findContours Box.image_shape Box.sample_mask false
  = Ok ([Box.box 0 0 199 199], [])
  /\ exists updated_mask nors_in_adequate contour_detail deformed_out
            nors_in_deformed printed,
       analyze_contours Box.filled_pixel_sum Box.pointPolygonTest Box.convexHull
         Box.spline_resample Box.nucleus_plus_nor Box.nor_plane Box.binarize
         Box.findContours Box.image_shape Box.stack_mask Box.color_classes
         Box.draw_multiple Box.draw_single Box.sample_mask false
       = Ok ((updated_mask, [Box.box 0 0 199 199], nors_in_adequate),
             (contour_detail, deformed_out, nors_in_deformed), printed)
       /\ (deformed_out = [] /\ nors_in_deformed = [])
       /\ contour_detail = None.
Proof.
  assert (H : nuclei_by_convexity Box.filled_pixel_sum Box.pointPolygonTest
                Box.convexHull Box.spline_resample Box.nucleus_plus_nor
                Box.nor_plane Box.binarize Box.findContours Box.image_shape
                Box.sample_mask false
              = Ok ([Box.box 0 0 199 199], [])) by reflexivity.
  split; [exact H|].
  destruct (diagnostic_overlay_only_on_discards Box.filled_pixel_sum
              Box.pointPolygonTest Box.convexHull Box.spline_resample
              Box.nucleus_plus_nor Box.nor_plane Box.binarize Box.findContours
              Box.image_shape Box.stack_mask Box.color_classes Box.draw_multiple
              Box.draw_single Box.sample_mask false _ _ H)
    as (m & na & cd & dout & nd & pr & Hrun & _ & Hempty & Hnone).
  exists m, na, cd, dout, nd, pr.
  split; [exact Hrun|]. split; [exact (Hempty eq_refl)|].
  apply Hnone; reflexivity.
Defined.

(** ** Measurement builder *)

Lemma find_existsb {A : Type} (f : A -> bool) (l : list A) :
  match find f l with Some _ => true | None => false end = existsb f l.
Proof.
  induction l as [|x l IH]; simpl; [reflexivity|].
  destruct (f x); [reflexivity | exact IH].
Qed.

Lemma enumerate_length {A : Type} (xs : list A) (start : Z) :
  List.length (enumerate xs start) = List.length xs.
Proof.
  revert start. induction xs as [|x xs IH]; intros start; simpl; [reflexivity|].
  now rewrite IH.
Qed.

(** A loop that appends one row for every element passing [test] and
    numbers the rows consecutively. *)
Lemma attribute_loop {R : Type} (test : contour -> bool)
    (row : Z -> contour -> R) (size : contour -> Z)
    (step : list R * list Z * Z -> contour -> result (list R * list Z * Z)) :
  (forall rows sizes child_id c,
      step (rows, sizes, child_id) c
      = if test c
        then Ok (rows ++ [row child_id c], sizes ++ [size c], child_id + 1)
        else Ok (rows, sizes, child_id)) ->
  forall children rows sizes child_id,
    for_each step children (rows, sizes, child_id)
    = Ok (rows ++ map (fun '(i, c) => row i c)
                    (enumerate (filter test children) child_id),
          sizes ++ map size (filter test children),
          child_id + len (filter test children)).
Proof.
  intros Hstep children.
  induction children as [|c children IH]; intros rows sizes child_id; simpl.
  - rewrite !app_nil_r. f_equal. f_equal. unfold len. simpl. lia.
  - rewrite Hstep. destruct (test c); simpl.
    + rewrite IH, <- !app_assoc. simpl. f_equal. f_equal.
      unfold len. simpl List.length. lia.
    + apply IH.
Qed.

(** A loop over numbered parents that appends one parent row and the rows
    of the parent's children, and rebinds the size list each time. *)
Lemma parent_loop {P R : Type} (parent_row : Z -> contour -> P)
    (child_rows : Z -> contour -> list R) (sizes_of : contour -> list Z)
    (step : list P * list R * option (list Z) -> Z * contour
            -> result (list P * list R * option (list Z))) :
  forall parents,
    (forall prows crows sizes i p,
        In p parents ->
        step (prows, crows, sizes) (i, p)
        = Ok (prows ++ [parent_row i p], crows ++ child_rows i p,
              Some (sizes_of p))) ->
    forall start prows crows sizes,
      for_each step (enumerate parents start) (prows, crows, sizes)
      = Ok (prows ++ map (fun '(i, p) => parent_row i p) (enumerate parents start),
            crows ++ flat_map (fun '(i, p) => child_rows i p)
                       (enumerate parents start),
            match rev parents with
            | [] => sizes
            | last_parent :: _ => Some (sizes_of last_parent)
            end).
Proof.
  induction parents as [|p parents IH]; intros Hstep start prows crows sizes; simpl.
  - now rewrite !app_nil_r.
  - rewrite Hstep by (left; reflexivity). simpl.
    rewrite IH by (intros; apply Hstep; right; assumption).
    rewrite <- !app_assoc. simpl. f_equal. f_equal.
    destruct (rev parents) as [|q qs]; reflexivity.
Qed.

Lemma list_comprehension_map {A B : Type} (f : A -> result B) (g : A -> B)
    (l : list A) :
  Forall (fun x => f x = Ok (g x)) l -> list_comprehension f l = Ok (map g l).
Proof.
  induction 1 as [|x l Hx _ IH]; simpl; [reflexivity|].
  now rewrite Hx, IH.
Qed.

Lemma py_truediv_ok (a b : Z) :
  b <> 0 -> py_truediv a b = Ok (inject_Z a / inject_Z b)%Q.
Proof.
  intros H. unfold py_truediv. destruct (b =? 0) eqn:E; [|reflexivity].
  apply Z.eqb_eq in E. contradiction.
Qed.

Section BuilderFacts.

Variable filled_pixel_sum : shape -> contour -> Z.
Variable pointPolygonTest : contour -> point -> Z.
Variable sh : shape.
Variables mask_name parent_type child_type record_id patient_name record_class
  exam_date exam_instance anatomical_site contours_flag : string.

Local Abbreviation nucleus_row :=
  (nucleus_record filled_pixel_sum sh mask_name parent_type record_id
     patient_name record_class exam_date exam_instance anatomical_site
     contours_flag).
Local Abbreviation agnor_row :=
  (agnor_record filled_pixel_sum sh mask_name child_type record_id patient_name
     record_class exam_date exam_instance anatomical_site contours_flag).
Local Abbreviation final_agnor_row :=
  (final_agnor_record filled_pixel_sum sh mask_name child_type record_id
     patient_name record_class exam_date exam_instance anatomical_site
     contours_flag).
Local Abbreviation build parents children start_index :=
  (get_contour_measurements filled_pixel_sum pointPolygonTest parents children sh
     mask_name parent_type child_type record_id patient_name record_class
     exam_date exam_instance anatomical_site start_index contours_flag).

(** The builder in closed form: one parent row per parent, and under each
    parent one row per attributed child; the ratio fields of every row are
    taken against the children of the last parent. *)
Lemma get_contour_measurements_rows parents children start_index :
  parents <> [] ->
  Forall (fun parent => filled_pixel_sum sh parent <> 0) parents ->
  build parents children start_index
  = Ok (map (fun '(i, p) => nucleus_row i p) (enumerate parents start_index),
        flat_map
          (fun '(i, p) =>
             map (fun '(j, c) =>
                    final_agnor_row
                      (final_contours_size filled_pixel_sum pointPolygonTest sh
                         parents children) i p j c)
               (enumerate (attributed pointPolygonTest p children) 0))
          (enumerate parents start_index)).
Proof.
  intros Hne Hpix. unfold get_contour_measurements.
  rewrite (parent_loop nucleus_row
             (fun i p => map (fun '(j, c) => agnor_row i p j c)
                           (enumerate (attributed pointPolygonTest p children) 0))
             (fun p => map (filled_pixel_sum sh)
                         (attributed pointPolygonTest p children))).
  2:{ intros prows crows sizes i p Hin.
      rewrite (attribute_loop (has_point_inside pointPolygonTest p)
                 (fun j c => agnor_row i p j c) (filled_pixel_sum sh)).
      - reflexivity.
      - intros rows sizes' child_id c.
        unfold has_point_inside. rewrite <- find_existsb.
        destruct (find _ c); [|reflexivity].
        unfold get_contour_pixel_count.
        rewrite py_truediv_ok; [reflexivity|].
        rewrite Forall_forall in Hpix. now apply Hpix. }
  cbn [bind app].
  unfold final_contours_size.
  destruct (rev parents) as [|last_parent rest] eqn:Erev.
  { exfalso. apply Hne. rewrite <- (rev_involutive parents), Erev. reflexivity. }
  set (sizes := map (filled_pixel_sum sh)
                  (attributed pointPolygonTest last_parent children)).
  destruct (0 <? len sizes) eqn:Elen.
  - rewrite (list_comprehension_map _
               (fun record =>
                  record ++ match dict_get record "agnor_pixel_count" with
                            | Some (VInt z) =>
                                [("greatest_agnor_ratio"%string,
                                  VFloat (np_true_divide z (np_max sizes)));
                                 ("smallest_agnor_ratio"%string,
                                  VFloat (np_true_divide z (np_min sizes)))]
                            | _ => []
                            end)).
    + cbn [bind]. f_equal. f_equal.
      rewrite flat_map_concat_map, concat_map, map_map, <- flat_map_concat_map.
      apply flat_map_ext. intros [i p]. rewrite map_map.
      apply map_ext. intros [j c]. unfold final_agnor_record. rewrite Elen.
      reflexivity.
    + apply Forall_forall. intros record Hin.
      apply in_flat_map in Hin. destruct Hin as ([i p] & _ & Hin).
      apply in_map_iff in Hin. destruct Hin as ([j c] & <- & _).
      reflexivity.
  - f_equal. f_equal. apply flat_map_ext. intros [i p].
    apply map_ext. intros [j c]. unfold final_agnor_record. rewrite Elen.
    now rewrite app_nil_r.
Qed.

End BuilderFacts.

(** C2, as amended: the builder returns (for a non-empty parent list whose
    parents each cover a pixel), and under every parent it lists, in input
    order and numbered from 0, exactly the children that have a point inside
    that parent.  A child gets at most one row per parent, and one under
    each parent that holds one of its points. *)
Theorem children_attributed_per_parent
    (filled_pixel_sum : shape -> contour -> Z)
    (pointPolygonTest : contour -> point -> Z)
    (parents children : list contour) (sh : shape)
    (mask_name parent_type child_type record_id patient_name record_class
     exam_date exam_instance anatomical_site : string)
    (start_index : Z) (contours_flag : string) :
  parents <> [] ->
  Forall (fun parent => filled_pixel_sum sh parent <> 0) parents ->
  exists parent_measurements child_measurements,
    get_contour_measurements filled_pixel_sum pointPolygonTest parents children sh
      mask_name parent_type child_type record_id patient_name record_class
      exam_date exam_instance anatomical_site start_index contours_flag
    = Ok (parent_measurements, child_measurements)
    /\ map row_key child_measurements
       = flat_map
           (fun '(parent_id, parent) =>
              map (fun '(child_id, child) =>
                     (Some (VInt parent_id), Some (VInt child_id),
                      Some (VInt (filled_pixel_sum sh child))))
                (enumerate (attributed pointPolygonTest parent children) 0))
           (enumerate parents start_index).
Proof.
  intros Hne Hpix.
  rewrite get_contour_measurements_rows by assumption.
  eexists. eexists. split; [reflexivity|].
  rewrite flat_map_concat_map, concat_map, map_map, <- flat_map_concat_map.
  apply flat_map_ext. intros [i p]. rewrite map_map.
  apply map_ext. intros [j c]. reflexivity.
Qed.

Lemma children_attributed_per_parent_witness :
  [Box.box 0 0 9 9; Box.box 5 0 14 9] <> []
  /\ Forall (fun parent => Box.filled_pixel_sum (100, 100) parent <> 0)
       [Box.box 0 0 9 9; Box.box 5 0 14 9]
  /\ exists parent_measurements child_measurements,
       get_contour_measurements Box.filled_pixel_sum Box.pointPolygonTest
         [Box.box 0 0 9 9; Box.box 5 0 14 9] [Box.box 6 1 7 2] (100, 100)
         "img.png" "nucleus" "cluster" "unknown" "unknown" "unknown" EmptyString EmptyString EmptyString
         0 "valid"
       = Ok (parent_measurements, child_measurements)
       /\ map row_key child_measurements
          = [(Some (VInt 0), Some (VInt 0), Some (VInt 4));
             (Some (VInt 1), Some (VInt 0), Some (VInt 4))].
Proof.
  assert (Hne : [Box.box 0 0 9 9; Box.box 5 0 14 9] <> []) by discriminate.
  assert (Hpix : Forall (fun parent => Box.filled_pixel_sum (100, 100) parent <> 0)
                   [Box.box 0 0 9 9; Box.box 5 0 14 9]).
  { repeat constructor; vm_compute; discriminate. }
  split; [exact Hne|]. split; [exact Hpix|].
  exact (children_attributed_per_parent Box.filled_pixel_sum Box.pointPolygonTest
           [Box.box 0 0 9 9; Box.box 5 0 14 9] [Box.box 6 1 7 2] (100, 100)
           "img.png" "nucleus" "cluster" "unknown" "unknown" "unknown" EmptyString EmptyString EmptyString
           0 "valid" Hne Hpix).
Defined.

(** C2, as stated, fails: one child that lies inside two overlapping
    parents gets a row under each of them. *)
Lemma child_attributed_to_two_parents :
  exists parent_measurements row1 row2,
    get_contour_measurements Box.filled_pixel_sum Box.pointPolygonTest
      [Box.box 0 0 9 9; Box.box 5 0 14 9] [Box.box 6 1 7 2] (100, 100)
      "img.png" "nucleus" "cluster" "unknown" "unknown" "unknown" EmptyString EmptyString EmptyString
      0 "valid"
    = Ok (parent_measurements, [row1; row2])
    /\ dict_get row1 "nucleus" = Some (VInt 0)
    /\ dict_get row2 "nucleus" = Some (VInt 1)
    /\ dict_get row1 "agnor_pixel_count" = Some (VInt 4)
    /\ dict_get row2 "agnor_pixel_count" = Some (VInt 4).
Proof.
  do 3 eexists. split; [vm_compute; reflexivity|].
  repeat split.
Qed.

(** C1: two parents with one child each, of 9 and of 4 pixels.  The
    greatest child of the call has 9 pixels, but the rows are divided by the
    sizes of the last parent's children only: the 9-pixel child gets the
    greatest-ratio 9/4.  When the last parent has no child, no row gets any
    ratio field, although the call attributed a child. *)
Theorem ratios_use_last_parent_only :
  np_max (all_attributed_sizes Box.filled_pixel_sum Box.pointPolygonTest (100, 100)
            [Box.box 0 0 9 9; Box.box 20 0 29 9]
            [Box.box 1 1 3 3; Box.box 21 1 22 2]) = 9
  /\ (exists parent_measurements row1 row2,
         get_contour_measurements Box.filled_pixel_sum Box.pointPolygonTest
           [Box.box 0 0 9 9; Box.box 20 0 29 9]
           [Box.box 1 1 3 3; Box.box 21 1 22 2] (100, 100)
           "img.png" "nucleus" "cluster" "unknown" "unknown" "unknown" EmptyString EmptyString EmptyString
           0 "valid"
         = Ok (parent_measurements, [row1; row2])
         /\ dict_get row1 "agnor_pixel_count" = Some (VInt 9)
         /\ dict_get row1 "greatest_agnor_ratio" = Some (VFloat (Fin (9 # 4)))
         /\ dict_get row1 "smallest_agnor_ratio" = Some (VFloat (Fin (9 # 4))))
  /\ (exists parent_measurements row1,
         get_contour_measurements Box.filled_pixel_sum Box.pointPolygonTest
           [Box.box 0 0 9 9; Box.box 20 0 29 9] [Box.box 1 1 3 3] (100, 100)
           "img.png" "nucleus" "cluster" "unknown" "unknown" "unknown" EmptyString EmptyString EmptyString
           0 "valid"
         = Ok (parent_measurements, [row1])
         /\ dict_get row1 "agnor_pixel_count" = Some (VInt 9)
         /\ dict_get row1 "greatest_agnor_ratio" = None
         /\ dict_get row1 "smallest_agnor_ratio" = None).
Proof.
  split; [reflexivity|]. split.
  - do 3 eexists. split; [vm_compute; reflexivity|]. repeat split.
  - do 2 eexists. split; [vm_compute; reflexivity|]. repeat split.
Qed.

(** C4: with an empty parent list the parent loop never binds
    [contours_size], and the test that follows the loop raises. *)
Theorem empty_parent_list_raises
    (filled_pixel_sum : shape -> contour -> Z)
    (pointPolygonTest : contour -> point -> Z)
    (children : list contour) (sh : shape)
    (mask_name parent_type child_type record_id patient_name record_class
     exam_date exam_instance anatomical_site : string)
    (start_index : Z) (contours_flag : string) :
  get_contour_measurements filled_pixel_sum pointPolygonTest [] children sh
    mask_name parent_type child_type record_id patient_name record_class
    exam_date exam_instance anatomical_site start_index contours_flag
  = Raise (UnboundLocalError "contours_size").
Proof. reflexivity. Qed.

(** The rest of the empty-input policy holds: every filter stage returns
    empty partitions on empty input, and a non-empty parent list with no
    children gives the parent rows, no child row and no division. *)
Lemma empty_inputs_return_empty
    (filled_pixel_sum : shape -> contour -> Z)
    (pointPolygonTest : contour -> point -> Z)
    (convexHull : contour -> contour)
    (parents children : list contour) (sh : shape)
    (max_pixel_count : Z) (min_relative_pixel_count max_diff : Q) :
  discard_contours_by_size filled_pixel_sum [] sh max_pixel_count
    min_relative_pixel_count = ([], [])
  /\ discard_contours_without_contours pointPolygonTest [] children = ([], [])
  /\ discard_contours_without_contours pointPolygonTest parents [] = ([], parents)
  /\ discard_contours_outside_contours pointPolygonTest parents [] = ([], [])
  /\ discard_contours_outside_contours pointPolygonTest [] children = ([], children)
  /\ discard_overlapping_deformed_contours filled_pixel_sum convexHull [] sh max_diff
     = Ok ([], []).
Proof.
  repeat split.
  - rewrite discard_contours_without_contours_filter. simpl.
    induction parents as [|p ps IH]; simpl; [reflexivity|].
    injection IH as -> ->. reflexivity.
  - rewrite discard_contours_outside_contours_filter. simpl.
    induction children as [|c cs IH]; simpl; [reflexivity|].
    injection IH as -> ->. reflexivity.
Qed.

Lemma no_children_no_rows
    (filled_pixel_sum : shape -> contour -> Z)
    (pointPolygonTest : contour -> point -> Z)
    (parents : list contour) (sh : shape)
    (mask_name parent_type child_type record_id patient_name record_class
     exam_date exam_instance anatomical_site : string)
    (start_index : Z) (contours_flag : string) :
  parents <> [] ->
  exists parent_measurements,
    get_contour_measurements filled_pixel_sum pointPolygonTest parents [] sh
      mask_name parent_type child_type record_id patient_name record_class
      exam_date exam_instance anatomical_site start_index contours_flag
    = Ok (parent_measurements, [])
    /\ List.length parent_measurements = List.length parents.
Proof.
  intros Hne. unfold get_contour_measurements.
  rewrite (parent_loop
             (nucleus_record filled_pixel_sum sh mask_name parent_type record_id
                patient_name record_class exam_date exam_instance anatomical_site
                contours_flag)
             (fun _ _ => @nil dict) (fun _ => @nil Z)).
  2:{ intros prows crows sizes i p _. cbn. now rewrite app_nil_r. }
  cbn [bind app].
  destruct (rev parents) as [|last_parent rest] eqn:Erev.
  { exfalso. apply Hne. rewrite <- (rev_involutive parents), Erev. reflexivity. }
  cbn. eexists. split; [|rewrite length_map; apply enumerate_length].
  f_equal. f_equal.
  induction (enumerate parents start_index) as [|[i p] l IH]; simpl; congruence.
Qed.

(** ** Measurement writer *)

Lemma unique_loop_head (l : list value) : forall x seen,
  exists rest,
    fold_left
      (fun seen v => if existsb (value_eqb v) seen then seen else seen ++ [v])
      l (x :: seen)
    = x :: rest.
Proof.
  induction l as [|v l IH]; intros x seen; simpl.
  - eauto.
  - destruct (value_eqb v x || existsb (value_eqb v) seen).
    + apply IH.
    + apply (IH x (seen ++ [v])).
Qed.

Lemma first_unique (x : value) (l : list value) : first (unique (x :: l)) = Ok x.
Proof.
  unfold unique. simpl.
  destruct (unique_loop_head l x []) as [rest ->]. reflexivity.
Qed.

Lemma nucleus_column_of_parents : index_of "nucleus" NUCLEUS_COLUMNS = Some 8%nat.
Proof. reflexivity. Qed.

Lemma nucleus_column_of_children : index_of "nucleus" AGNOR_COLUMNS = Some 8%nat.
Proof. reflexivity. Qed.

Lemma datetime_column_is_new :
  index_of "datetime" AGNOR_COLUMNS = None
  /\ index_of "datetime" NUCLEUS_COLUMNS = None.
Proof. split; reflexivity. Qed.

Lemma nucleus_column_of_parent_rows (first_parent : dict) (others : list dict) :
  df_col (pd_DataFrame (first_parent :: others) NUCLEUS_COLUMNS) "nucleus"
  = Ok (cell_of (dict_get first_parent "nucleus")
          :: map (fun d => cell_of (dict_get d "nucleus")) others).
Proof.
  unfold df_col, pd_DataFrame. cbn [columns rows].
  rewrite nucleus_column_of_parents. cbn [map]. f_equal. f_equal.
  rewrite map_map. reflexivity.
Qed.

Lemma child_frame_written (records : list dict) (nucleus : value) (datetime : string) :
  df_assign_scalar
    (df_assign_scalar (pd_DataFrame records AGNOR_COLUMNS) "nucleus" nucleus)
    "datetime" (VStr datetime)
  = {| columns := AGNOR_COLUMNS ++ ["datetime"%string];
       rows := map (fun record =>
                      set_nth 8 nucleus
                        (map (fun c => cell_of (dict_get record c)) AGNOR_COLUMNS)
                        ++ [VStr datetime])
                 records |}.
Proof.
  unfold df_assign_scalar at 2. unfold pd_DataFrame. cbn [columns rows].
  rewrite nucleus_column_of_children.
  unfold df_assign_scalar. cbn [columns rows].
  rewrite (proj1 datetime_column_is_new).
  now rewrite !map_map.
Qed.

Lemma to_csv_ends_with_rows (fs : filesystem) (df : DataFrame) (path : string)
    (append header : bool) :
  exists before, to_csv fs df path append header path = Some (before ++ rows df).
Proof.
  unfold to_csv, fs_put. rewrite String.eqb_refl.
  eexists. rewrite app_assoc. reflexivity.
Qed.

(** C3: with a non-empty parent row list the writer succeeds, and the lines
    it writes to the AgNOR file are the child rows, one per record and in
    order, each with its nucleus cell (column 8) replaced by the nucleus cell
    of the first parent row, whichever parent the child had been attributed
    to, and the datetime appended. *)
Theorem agnor_rows_carry_first_nucleus
    (joinpath : string -> string -> string) (fs : filesystem)
    (first_parent : dict) (other_parents child_measurements : list dict)
    (output_path datetime : string) :
  let first_nucleus := cell_of (dict_get first_parent "nucleus") in
  let child_measurements_output :=
    joinpath output_path ("agnor_measurements_" ++ datetime ++ ".csv")%string in
  exists fs' before written,
    write_contour_measurements joinpath fs (first_parent :: other_parents)
      child_measurements output_path datetime = Ok fs'
    /\ fs' child_measurements_output = Some (before ++ written)
    /\ written
       = map (fun record =>
                set_nth 8 first_nucleus
                  (map (fun c => cell_of (dict_get record c)) AGNOR_COLUMNS)
                  ++ [VStr datetime])
           child_measurements
    /\ index_of "nucleus" (AGNOR_COLUMNS ++ ["datetime"%string]) = Some 8%nat
    /\ Forall (fun line => nth 8 line NA = first_nucleus) written.
Proof.
  intros first_nucleus child_measurements_output.
  unfold write_contour_measurements.
  rewrite nucleus_column_of_parent_rows. cbn [bind].
  rewrite first_unique. cbn [bind].
  rewrite child_frame_written.
  fold first_nucleus. fold child_measurements_output.
  set (fs1 := if is_file fs _ then _ else _).
  set (df_child := {| columns := AGNOR_COLUMNS ++ ["datetime"%string]; rows := _ |}).
  assert (Hlines : Forall (fun line => nth 8 line NA = first_nucleus) (rows df_child)).
  { subst df_child. cbn [rows]. apply Forall_forall. intros line Hin.
    apply in_map_iff in Hin. destruct Hin as (record & <- & _). reflexivity. }
  destruct (is_file fs1 child_measurements_output);
    [destruct (to_csv_ends_with_rows fs1 df_child child_measurements_output
                 true false) as [before Hb]
    |destruct (to_csv_ends_with_rows fs1 df_child child_measurements_output
                 false true) as [before Hb]];
    (eexists; exists before; exists (rows df_child); split; [reflexivity|];
     split; [exact Hb|]; split; [reflexivity|]; split; [reflexivity|];
     exact Hlines).
Qed.

(** Two parents with one child each, built and then written to an empty
    directory: the builder attributes the second child to nucleus 1, the
    file carries nucleus 0 on both lines. *)
Example written_rows_lose_their_parent :
  match get_contour_measurements Box.filled_pixel_sum Box.pointPolygonTest
          [Box.box 0 0 9 9; Box.box 20 0 29 9]
          [Box.box 1 1 3 3; Box.box 21 1 22 2] (100, 100)
          "img.png" "nucleus" "cluster" "unknown" "unknown" "unknown"
          EmptyString EmptyString EmptyString 0 "valid" with
  | Ok (parent_measurements, child_measurements) =>
      map (fun record => dict_get record "nucleus") child_measurements
      = [Some (VInt 0); Some (VInt 1)]
      /\ match write_contour_measurements sample_joinpath (fun _ => None)
                 parent_measurements child_measurements "out" "202301010000" with
         | Ok fs' =>
             option_map (map (fun line => nth 8 line NA))
               (fs' "out/agnor_measurements_202301010000.csv"%string)
             = Some [VStr "nucleus"; VInt 0; VInt 0]
         | Raise _ => False
         end
  | Raise _ => False
  end.
Proof. vm_compute. split; reflexivity. Qed.

(** ** Classification adapter *)

Lemma existsb_eqb_In (k : string) (l : list string) :
  existsb (String.eqb k) l = true <-> In k l.
Proof.
  rewrite existsb_exists. split.
  - intros (x & Hin & E). apply String.eqb_eq in E. now subst.
  - intros Hin. exists k. split; [assumption | apply String.eqb_refl].
Qed.

Lemma add_new_spec (seen : list string) (k x : string) :
  In x (add_new seen k) <-> In x seen \/ x = k.
Proof.
  unfold add_new. destruct (existsb (String.eqb k) seen) eqn:E.
  - apply existsb_eqb_In in E. split; [tauto|]. intros [H| ->]; assumption.
  - rewrite in_app_iff. simpl. intuition.
Qed.

Lemma add_new_NoDup (seen : list string) (k : string) :
  NoDup seen -> NoDup (add_new seen k).
Proof.
  intros H. unfold add_new. destruct (existsb (String.eqb k) seen) eqn:E.
  - assumption.
  - apply NoDup_app; [assumption|repeat constructor; simpl; tauto|].
    intros x Hin [<-|[]].
    apply existsb_eqb_In in Hin. congruence.
Qed.

Lemma add_all_spec (ks : list string) : forall seen x,
  In x (fold_left add_new ks seen) <-> In x seen \/ In x ks.
Proof.
  induction ks as [|k ks IH]; intros seen x; simpl.
  - tauto.
  - rewrite IH, add_new_spec. intuition.
Qed.

Lemma add_all_NoDup (ks : list string) : forall seen,
  NoDup seen -> NoDup (fold_left add_new ks seen).
Proof.
  induction ks as [|k ks IH]; intros seen H; simpl.
  - assumption.
  - apply IH. now apply add_new_NoDup.
Qed.

Lemma union_loop_spec (data : list dict) : forall seen x,
  In x (fold_left (fun seen d => fold_left add_new (keys d) seen) data seen)
  <-> In x seen \/ exists d, In d data /\ In x (keys d).
Proof.
  induction data as [|d data IH]; intros seen x; simpl.
  - split; [tauto|]. intros [H|(d & [] & _)]. assumption.
  - rewrite IH, add_all_spec. split.
    + intros [[H|H]|(d' & Hd & Hx)]; eauto 6.
    + intros [H|(d' & [<-|Hd] & Hx)]; eauto 6.
Qed.

Lemma union_loop_NoDup (data : list dict) : forall seen,
  NoDup seen ->
  NoDup (fold_left (fun seen d => fold_left add_new (keys d) seen) data seen).
Proof.
  induction data as [|d data IH]; intros seen H; simpl.
  - assumption.
  - apply IH. now apply add_all_NoDup.
Qed.

Lemma union_keys_NoDup (data : list dict) : NoDup (union_keys data).
Proof. apply union_loop_NoDup. constructor. Qed.

Lemma union_keys_covers (data : list dict) (d : dict) (k : string) :
  In d data -> In k (keys d) -> In k (union_keys data).
Proof.
  intros Hd Hk. apply union_loop_spec. right. eauto.
Qed.

Lemma dict_get_Some_key (d : dict) (k : string) (v : value) :
  dict_get d k = Some v -> In k (keys d).
Proof.
  induction d as [|[k' v'] d IH]; simpl; [discriminate|].
  destruct (String.eqb k' k) eqn:E.
  - apply String.eqb_eq in E. auto.
  - auto.
Qed.

Lemma dict_set_fresh (d : dict) (k : string) (v : value) :
  ~ In k (keys d) -> dict_set d k v = d ++ [(k, v)].
Proof.
  induction d as [|[k' v'] d IH]; simpl; intros H; [reflexivity|].
  destruct (String.eqb k' k) eqn:E.
  - apply String.eqb_eq in E. tauto.
  - rewrite IH by tauto. reflexivity.
Qed.

Lemma dict_of_pairs_loop (pairs : list (string * value)) : forall acc,
  NoDup (keys acc ++ map fst pairs) ->
  fold_left (fun d '(k, v) => dict_set d k v) pairs acc = acc ++ pairs.
Proof.
  induction pairs as [|[k v] pairs IH]; intros acc H; simpl.
  - now rewrite app_nil_r.
  - simpl in H. pose proof (NoDup_remove_2 _ _ _ H) as Hk.
    rewrite dict_set_fresh by (intros Hin; apply Hk, in_or_app; now left).
    rewrite IH.
    + now rewrite <- app_assoc.
    + unfold keys. rewrite map_app. simpl. rewrite <- app_assoc. exact H.
Qed.

Lemma dict_of_pairs_NoDup (pairs : list (string * value)) :
  NoDup (map fst pairs) -> dict_of_pairs pairs = pairs.
Proof. intros H. unfold dict_of_pairs. now rewrite dict_of_pairs_loop. Qed.

Lemma zip_map_self {A B : Type} (f : A -> B) (l : list A) :
  zip l (map f l) = map (fun x => (x, f x)) l.
Proof.
  unfold zip. induction l as [|x l IH]; simpl; [reflexivity|]. now rewrite IH.
Qed.

Lemma dict_get_tabulated (f : string -> value) (cols : list string) (k : string) :
  In k cols -> dict_get (map (fun c => (c, f c)) cols) k = Some (f k).
Proof.
  induction cols as [|c cols IH]; simpl; [tauto|].
  intros H. destruct (String.eqb c k) eqn:E.
  - apply String.eqb_eq in E. now subst.
  - apply IH. destruct H as [->|H]; [|assumption].
    rewrite String.eqb_refl in E. discriminate.
Qed.

(** The record read back from a row whose cells are [f] of the column. *)
Lemma record_of_tabulated_row (f : string -> value) (cols : list string) (k : string) :
  NoDup cols -> In k cols ->
  dict_get (dict_of_pairs (zip cols (map f cols))) k = Some (f k).
Proof.
  intros Hnd Hin. rewrite zip_map_self, dict_of_pairs_NoDup.
  - now apply dict_get_tabulated.
  - rewrite map_map. simpl. now rewrite map_id.
Qed.

Lemma index_of_None (c : string) (cols : list string) :
  index_of c cols = None -> ~ In c cols.
Proof.
  induction cols as [|c' cols IH]; simpl; [tauto|].
  destruct (String.eqb c' c) eqn:E; [discriminate|].
  destruct (index_of c cols); [discriminate|].
  intros _ [->|H]; [rewrite String.eqb_refl in E; discriminate | now apply IH].
Qed.

Lemma set_nth_tabulated (f : string -> value) (c : string) (v : value) :
  forall cols i,
    NoDup cols -> index_of c cols = Some i ->
    set_nth i v (map f cols)
    = map (fun x => if String.eqb x c then v else f x) cols.
Proof.
  induction cols as [|c' cols IH]; intros i Hnd Hi; simpl in *; [discriminate|].
  inversion Hnd as [|? ? Hnotin Hnd']; subst.
  destruct (String.eqb c' c) eqn:E.
  - injection Hi as <-. simpl. f_equal.
    apply String.eqb_eq in E. subst c'.
    apply map_ext_in. intros x Hx.
    destruct (String.eqb x c) eqn:Ex; [|reflexivity].
    apply String.eqb_eq in Ex. subst. contradiction.
  - destruct (index_of c cols) as [j|] eqn:Ej; [|discriminate].
    injection Hi as <-. simpl. f_equal. now apply IH.
Qed.

Lemma append_tabulated (f : string -> value) (c : string) (v : value)
    (cols : list string) :
  ~ In c cols ->
  map f cols ++ [v]
  = map (fun x => if String.eqb x c then v else f x) (cols ++ [c]).
Proof.
  intros H. rewrite map_app. simpl. rewrite String.eqb_refl. f_equal.
  apply map_ext_in. intros x Hx.
  destruct (String.eqb x c) eqn:Ex; [|reflexivity].
  apply String.eqb_eq in Ex. subst. contradiction.
Qed.

Lemma zip_map_l {A B C : Type} (h : A -> B) (l : list A) (vs : list C) :
  zip (map h l) vs = map (fun '(x, v) => (h x, v)) (zip l vs).
Proof.
  unfold zip. revert vs.
  induction l as [|x l IH]; intros [|v vs]; simpl; try reflexivity.
  now rewrite IH.
Qed.

Lemma Forall2_map_self {A B : Type} (R : A -> B -> Prop) (g : A -> B) (l : list A) :
  (forall x, In x l -> R x (g x)) -> Forall2 R l (map g l).
Proof.
  induction l as [|x l IH]; intros H; simpl; constructor.
  - apply H. now left.
  - apply IH. intros y Hy. apply H. now right.
Qed.

Lemma zip_In_l {A B : Type} (l : list A) (vs : list B) (x : A) (v : B) :
  In (x, v) (zip l vs) -> In x l.
Proof. apply in_combine_l. Qed.

Lemma index_of_Some_In (c : string) (cols : list string) (i : nat) :
  index_of c cols = Some i -> In c cols.
Proof.
  revert i. induction cols as [|c' cols IH]; simpl; intros i H; [discriminate|].
  destruct (String.eqb c' c) eqn:E.
  - apply String.eqb_eq in E. auto.
  - destruct (index_of c cols); [eauto | discriminate].
Qed.

Lemma labelled_tabulated (contours : list dict) (cols : list string)
    (record : dict) (label : value) :
  NoDup cols -> In "type"%string cols ->
  (forall k, In k (keys record) -> In k cols) ->
  labelled record label
    (dict_of_pairs
       (zip cols
          (map (fun x => if String.eqb x "type" then label
                         else cell_of (dict_get record x)) cols))).
Proof.
  intros Hnd Htype Hcover. split.
  - now rewrite record_of_tabulated_row.
  - intros k v Hk Hv.
    rewrite record_of_tabulated_row;
      [|assumption|apply Hcover; eapply dict_get_Some_key; eassumption].
    destruct (String.eqb k "type") eqn:E.
    + apply String.eqb_eq in E. contradiction.
    + now rewrite Hv.
Qed.

(** Assigning the predictions and reading the records back. *)
Lemma assign_type_records (contours : list dict) (predictions : list value) :
  List.length predictions = List.length contours ->
  exists labelled_records,
    (df <- df_assign (DataFrame_from_dict contours) "type" predictions ;;
     Ok (to_records df)) = Ok labelled_records
    /\ Forall2 (fun '(record, label) out => labelled record label out)
         (zip contours predictions) labelled_records.
Proof.
  intros Hlen. unfold df_assign, DataFrame_from_dict, pd_DataFrame.
  cbn [columns rows]. rewrite length_map, Hlen, Nat.eqb_refl. cbn [negb bind].
  set (cols := union_keys contours).
  assert (Hnd : NoDup cols) by apply union_keys_NoDup.
  assert (Hcover : forall record label, In (record, label) (zip contours predictions) ->
                   forall k, In k (keys record) -> In k cols).
  { intros record label Hin k Hk.
    eapply union_keys_covers; [eapply zip_In_l; eassumption | assumption]. }
  destruct (index_of "type" cols) as [j|] eqn:Ej; unfold to_records; cbn [columns rows];
    rewrite zip_map_l, !map_map; eexists; (split; [reflexivity|]);
    apply Forall2_map_self; intros [record label] Hin.
  - rewrite (set_nth_tabulated _ "type" label cols j Hnd Ej).
    apply (labelled_tabulated contours); eauto using index_of_Some_In.
  - rewrite (append_tabulated _ "type" label cols (index_of_None _ _ Ej)).
    apply (labelled_tabulated contours).
    + apply NoDup_app; [assumption|repeat constructor; simpl; tauto|].
      intros x Hx [<-|[]]. exact (index_of_None _ _ Ej Hx).
    + apply in_or_app. right. now left.
    + intros k Hk. apply in_or_app. left. eauto.
Qed.

(** C7, as amended: an empty list comes back unchanged, without loading
    the model.  For a non-empty list whose feature columns exist and whose
    model loads and predicts one label per row, the adapter returns one
    record per input record, in order; each keeps every original field with
    its value and has the label itself, as the model predicted it, in its
    [type] field.  No label is translated. *)
Theorem classify_agnor_writes_prediction
    (joblib_load : string -> result (list (list value) -> result (list value)))
    (model_path : string) :
  classify_agnor joblib_load model_path [] = Ok []
  /\ forall contours features predict predictions,
       contours <> [] ->
       df_cols (DataFrame_from_dict contours) features_list = Ok features ->
       joblib_load model_path = Ok predict ->
       predict features = Ok predictions ->
       List.length predictions = List.length contours ->
       exists labelled_records,
         classify_agnor joblib_load model_path contours = Ok labelled_records
         /\ List.length labelled_records = List.length contours
         /\ Forall2 (fun '(record, label) out => labelled record label out)
              (zip contours predictions) labelled_records.
Proof.
  split; [reflexivity|].
  intros contours features predict predictions Hne Hfeat Hload Hpred Hlen.
  unfold classify_agnor.
  destruct contours as [|record contours]; [contradiction|].
  change (len (record :: contours) =? 0) with false. cbv iota.
  rewrite Hfeat. cbn [bind]. rewrite Hload. cbn [bind]. rewrite Hpred. cbn [bind].
  destruct (assign_type_records (record :: contours) predictions Hlen)
    as (out & Hout & HF).
  exists out. split; [exact Hout|]. split; [|exact HF].
  apply Forall2_length in HF. rewrite <- HF. unfold zip.
  rewrite length_combine, Hlen. apply Nat.min_id.
Qed.

Lemma classify_agnor_writes_prediction_witness :
  sample_agnor_rows <> []
  /\ sample_joblib_load "model.joblib" = Ok sample_predict
  /\ exists labelled_records,
       classify_agnor sample_joblib_load "model.joblib" sample_agnor_rows
       = Ok labelled_records
       /\ List.length labelled_records = List.length sample_agnor_rows
       /\ Forall2 (fun '(record, label) out => labelled record label out)
            (zip sample_agnor_rows [VInt 0; VInt 1]) labelled_records.
Proof.
  assert (Hne : sample_agnor_rows <> []) by discriminate.
  split; [exact Hne|]. split; [reflexivity|].
  exact (proj2 (classify_agnor_writes_prediction sample_joblib_load "model.joblib")
           sample_agnor_rows
           [[VInt 9; VFloat (Fin (9 # 100)); VFloat (Fin (9 # 4)); VFloat (Fin (9 # 9))];
            [VInt 4; VFloat (Fin (4 # 100)); VFloat (Fin (4 # 4)); VFloat (Fin (4 # 9))]]
           sample_predict [VInt 0; VInt 1]
           Hne eq_refl eq_refl eq_refl eq_refl).
Defined.

(** C7, as stated, fails: a prediction 0 is recorded as the integer 0, not
    as the string "cluster", and a prediction 1 as the integer 1. *)
Lemma prediction_recorded_untranslated :
  exists row1 row2,
    classify_agnor sample_joblib_load "model.joblib" sample_agnor_rows
    = Ok [row1; row2]
    /\ dict_get row1 "type" = Some (VInt 0)
    /\ dict_get row1 "type" <> Some (VStr "cluster")
    /\ dict_get row2 "type" = Some (VInt 1)
    /\ dict_get row2 "type" <> Some (VStr "satellite").
Proof.
  do 2 eexists. split; [vm_compute; reflexivity|].
  repeat split; discriminate.
Qed.

(** ** Aggregator *)

Lemma sum_from (xs : list Z) : forall a, fold_left Z.add xs a = a + sum xs.
Proof.
  unfold sum. induction xs as [|x xs IH]; intros a; simpl.
  - lia.
  - rewrite IH, (IH x). lia.
Qed.

Lemma sum_cons (x : Z) (xs : list Z) : sum (x :: xs) = x + sum xs.
Proof. unfold sum at 1. simpl. apply sum_from. Qed.

Lemma weight_cons (p : Z -> bool) (a c : Z) (table : list (Z * Z)) :
  weight p ((a, c) :: table) = (if p a then c else 0) + weight p table.
Proof.
  unfold weight. simpl. destruct (p a); simpl; [apply sum_cons | reflexivity].
Qed.

Lemma tally_weight (p : Z -> bool) (table : list (Z * Z)) (a : Z) :
  weight p (tally Z.eqb table a 1) = weight p table + (if p a then 1 else 0).
Proof.
  induction table as [|[k c] table IH]; simpl.
  - rewrite weight_cons. unfold weight, sum. simpl. destruct (p a); reflexivity.
  - destruct (k =? a) eqn:E.
    + apply Z.eqb_eq in E. subst k. rewrite !weight_cons. destruct (p a); lia.
    + rewrite !weight_cons, IH. lia.
Qed.

Lemma groupby_size_weight_from (p : Z -> bool) (agnor : list Z) :
  forall table,
    weight p (fold_left (fun groups a => tally Z.eqb groups a 1) agnor table)
    = weight p table + len (filter p agnor).
Proof.
  induction agnor as [|a agnor IH]; intros table; simpl.
  - unfold len. simpl. lia.
  - rewrite IH, tally_weight. destruct (p a); unfold len; simpl List.length; lia.
Qed.

(** The regrouped table counts, per AgNOR count, the nuclei that have it. *)
Lemma groupby_size_weight (p : Z -> bool) (agnor : list Z) :
  weight p (groupby_size agnor) = len (filter p agnor).
Proof. unfold groupby_size. now rewrite groupby_size_weight_from. Qed.

Lemma tally_keys (table : list (Z * Z)) (a n : Z) :
  map fst (tally Z.eqb table a n)
  = if existsb (fun k => k =? a) (map fst table) then map fst table
    else map fst table ++ [a].
Proof.
  induction table as [|[k c] table IH]; simpl; [reflexivity|].
  destruct (k =? a); simpl; [reflexivity|].
  rewrite IH. now destruct (existsb (fun k0 => k0 =? a) (map fst table)).
Qed.

Lemma tally_NoDup (table : list (Z * Z)) (a n : Z) :
  NoDup (map fst table) -> NoDup (map fst (tally Z.eqb table a n)).
Proof.
  intros H. rewrite tally_keys.
  destruct (existsb (fun k => k =? a) (map fst table)) eqn:E; [assumption|].
  apply NoDup_app; [assumption|repeat constructor; simpl; tauto|].
  intros x Hx [<-|[]].
  assert (Ht : existsb (fun k => k =? a) (map fst table) = true).
  { apply existsb_exists. exists a. split; [assumption | apply Z.eqb_refl]. }
  congruence.
Qed.

Lemma groupby_size_NoDup (agnor : list Z) : NoDup (map fst (groupby_size agnor)).
Proof.
  unfold groupby_size.
  assert (G : forall table, NoDup (map fst table) ->
              NoDup (map fst (fold_left (fun groups a => tally Z.eqb groups a 1)
                                agnor table))).
  { induction agnor as [|a agnor IH]; intros table H; simpl; [assumption|].
    apply IH. now apply tally_NoDup. }
  apply G. constructor.
Qed.

Lemma nna_at_least_weight (table : list (Z * Z)) (k : Z) :
  nna_at_least table k = weight (fun a => k <=? a) table.
Proof.
  unfold nna_at_least, weight.
  destruct (filter (fun '(agnor, _) => k <=? agnor) table); reflexivity.
Qed.

Lemma filter_absent (table : list (Z * Z)) (k : Z) :
  ~ In k (map fst table) -> filter (fun '(agnor, _) => agnor =? k) table = [].
Proof.
  induction table as [|[a c] table IH]; simpl; intros H; [reflexivity|].
  destruct (a =? k) eqn:E.
  - apply Z.eqb_eq in E. tauto.
  - apply IH. tauto.
Qed.

Lemma nna_exactly_weight (table : list (Z * Z)) (k : Z) :
  NoDup (map fst table) -> nna_exactly table k = weight (fun a => a =? k) table.
Proof.
  induction table as [|[a c] table IH]; intros Hnd; [reflexivity|].
  inversion Hnd as [|? ? Hnotin Hnd']; subst.
  rewrite weight_cons, <- (IH Hnd'). unfold nna_exactly. simpl.
  destruct (a =? k) eqn:E.
  - apply Z.eqb_eq in E. subst a.
    rewrite (filter_absent table k Hnotin). unfold sum. simpl. lia.
  - reflexivity.
Qed.


(** How many nuclei have exactly, or at least, [k] AgNORs. *)
Lemma nna_exactly_counts (agnor : list Z) (k : Z) :
  nna_exactly (groupby_size agnor) k = len (filter (fun a => a =? k) agnor).
Proof.
  rewrite nna_exactly_weight by apply groupby_size_NoDup.
  apply groupby_size_weight.
Qed.

Lemma nna_at_least_counts (agnor : list Z) (k : Z) :
  nna_at_least (groupby_size agnor) k = len (filter (fun a => k <=? a) agnor).
Proof. rewrite nna_at_least_weight. apply groupby_size_weight. Qed.

Ltac peel_binds H :=
  repeat match type of H with
         | bind (Ok _) _ = Ok _ => cbn [bind] in H
         | bind ?m _ = Ok _ =>
             let E := fresh "E" in
             destruct m eqn:E; cbn [bind] in H; [|discriminate H]
         end.



(** The aggregator run on the sample files: it succeeds, writes the header
    and one summary row, and removes the two inputs. *)
Example aggregate_measurements_run :
  match aggregate_measurements sample_parent_dir sample_joinpath sample_str
          sample_remove_fails sample_fs "out/nucleus.csv" "out/agnor.csv"
          true None "202301010000" with
  | Ok (success, fs', log) =>
      success = true /\ log = []
      /\ is_file fs' "out/nucleus.csv" = false
      /\ is_file fs' "out/agnor.csv" = false
      /\ option_map (map (fun line => nth 16 line NA))
           (fs' "out/202301010000 - Aggregate measurements - patient.csv"%string)
         = Some [VStr "AgNOR = 1"; VInt 2]
  | Raise _ => False
  end.
Proof. vm_compute. repeat split. Qed.

(** A missing per-object table makes the aggregator return [False] and
    leave the files alone. *)
Lemma aggregate_measurements_missing_input
    (parent_dir : string -> string) (joinpath : string -> string -> string)
    (str : value -> string) (remove_fails : string -> bool) (fs : filesystem)
    (nucleus_measurements agnor_measurements : string)
    (remove_measurement_files : bool) (database : option string)
    (datetime : string) :
  is_file fs nucleus_measurements = false ->
  exists log,
    aggregate_measurements parent_dir joinpath str remove_fails fs
      nucleus_measurements agnor_measurements remove_measurement_files
      database datetime
    = Ok (false, fs, log).
Proof.
  intros H. unfold aggregate_measurements. rewrite H. simpl. eauto.
Qed.

(** * Further properties of the pipeline *)

(** ** The two directions of the containment analyser *)

Lemma filter_all {A : Type} (p : A -> bool) (l : list A) :
  (forall x, In x l -> p x = true) ->
  filter p l = l /\ filter (fun x => negb (p x)) l = [].
Proof.
  induction l as [|x l IH]; intros H; simpl; [split; reflexivity|].
  rewrite (H x (or_introl eq_refl)). simpl.
  destruct IH as [IH1 IH2]; [intros y Hy; apply H; now right|].
  rewrite IH1, IH2. split; reflexivity.
Qed.

Section ContainmentFacts.

Variable pointPolygonTest : contour -> point -> Z.

Local Abbreviation inside := (has_point_inside pointPolygonTest).

Lemma kept_parent_iff parents children p :
  In p (fst (discard_contours_without_contours pointPolygonTest parents children))
  <-> In p parents /\ exists c, In c children /\ inside p c = true.
Proof.
  rewrite discard_contours_without_contours_filter. cbn [fst].
  rewrite filter_In, existsb_exists. reflexivity.
Qed.

Lemma kept_child_iff parents children c :
  In c (fst (discard_contours_outside_contours pointPolygonTest parents children))
  <-> In c children /\ exists p, In p parents /\ inside p c = true.
Proof.
  rewrite discard_contours_outside_contours_filter. cbn [fst].
  rewrite filter_In, scan_parents_existsb, existsb_exists. reflexivity.
Qed.

Lemma kept_sides_linked (parents children : list contour) :
  (forall p,
      In p (fst (discard_contours_without_contours pointPolygonTest parents children)) ->
      exists c,
        In c (fst (discard_contours_outside_contours pointPolygonTest parents children))
        /\ inside p c = true)
  /\ (forall c,
         In c (fst (discard_contours_outside_contours pointPolygonTest parents children)) ->
         exists p,
           In p (fst (discard_contours_without_contours pointPolygonTest parents children))
           /\ inside p c = true).
Proof.
  split.
  - intros p Hp. apply kept_parent_iff in Hp. destruct Hp as (Hin & c & Hc & Hpc).
    exists c. split; [|assumption]. apply kept_child_iff. eauto.
  - intros c Hc. apply kept_child_iff in Hc. destruct Hc as (Hin & p & Hp & Hpc).
    exists p. split; [|assumption]. apply kept_parent_iff. eauto.
Qed.

(** X1: the two directions of the containment analyser agree on the same
    parent and child lists.  Every parent kept by
    [discard_contours_without_contours] holds a point of a child kept by
    [discard_contours_outside_contours], every kept child has a point in a
    kept parent, and one side keeps nothing exactly when the other does. *)
Theorem containment_directions_agree (parents children : list contour) :
  let kept_parents :=
    fst (discard_contours_without_contours pointPolygonTest parents children) in
  let kept_children :=
    fst (discard_contours_outside_contours pointPolygonTest parents children) in
  (forall p, In p kept_parents ->
             exists c, In c kept_children /\ inside p c = true)
  /\ (forall c, In c kept_children ->
                exists p, In p kept_parents /\ inside p c = true)
  /\ (kept_parents = [] <-> kept_children = []).
Proof.
  intros kept_parents kept_children.
  destruct (kept_sides_linked parents children) as (P & C).
  fold kept_parents kept_children in P, C.
  split; [exact P|]. split; [exact C|]. split; intros E.
  - destruct kept_children as [|c l]; [reflexivity|].
    destruct (C c (or_introl eq_refl)) as (p & Hp & _). rewrite E in Hp. destruct Hp.
  - destruct kept_parents as [|p l]; [reflexivity|].
    destruct (P p (or_introl eq_refl)) as (c & Hc & _). rewrite E in Hc. destruct Hc.
Qed.

(** X2: the containment filters are idempotent and compose without loss.
    Filtering the kept parents again, against all children or against the
    kept children only, discards nothing; neither does filtering the kept
    children again, against all parents or against the kept parents only. *)
Theorem containment_filters_stable (parents children : list contour) :
  let kept_parents :=
    fst (discard_contours_without_contours pointPolygonTest parents children) in
  let kept_children :=
    fst (discard_contours_outside_contours pointPolygonTest parents children) in
  discard_contours_without_contours pointPolygonTest kept_parents children
  = (kept_parents, [])
  /\ discard_contours_without_contours pointPolygonTest kept_parents kept_children
     = (kept_parents, [])
  /\ discard_contours_outside_contours pointPolygonTest parents kept_children
     = (kept_children, [])
  /\ discard_contours_outside_contours pointPolygonTest kept_parents kept_children
     = (kept_children, []).
Proof.
  intros kept_parents kept_children.
  destruct (kept_sides_linked parents children) as (P & C).
  fold kept_parents kept_children in P, C.
  rewrite !discard_contours_without_contours_filter,
    !discard_contours_outside_contours_filter.
  repeat split.
  - destruct (filter_all (fun p => existsb (inside p) children) kept_parents)
      as [-> ->]; [|reflexivity].
    intros p Hp. apply kept_parent_iff in Hp. apply existsb_exists. tauto.
  - destruct (filter_all (fun p => existsb (inside p) kept_children) kept_parents)
      as [-> ->]; [|reflexivity].
    intros p Hp. apply existsb_exists. auto.
  - destruct (filter_all (scan_parents pointPolygonTest parents) kept_children)
      as [-> ->]; [|reflexivity].
    intros c Hc. apply kept_child_iff in Hc.
    rewrite scan_parents_existsb. apply existsb_exists. tauto.
  - destruct (filter_all (scan_parents pointPolygonTest kept_parents) kept_children)
      as [-> ->]; [|reflexivity].
    intros c Hc. rewrite scan_parents_existsb. apply existsb_exists. auto.
Qed.

End ContainmentFacts.

(** ** Size and deformation filters *)

Section ShapeFacts.

Variable filled_pixel_sum : shape -> contour -> Z.
Variable convexHull : contour -> contour.

Local Abbreviation deformation_filter :=
  (discard_overlapping_deformed_contours filled_pixel_sum convexHull).
Local Abbreviation convex := (convex_enough filled_pixel_sum convexHull).
Local Abbreviation pixels := (has_pixels filled_pixel_sum convexHull).

Lemma deformation_loop_returns sh max_diff contours : forall state result,
  for_each
    (fun '(kept, discarded) c =>
       let contour_pixel_count := get_contour_pixel_count filled_pixel_sum c sh in
       let contour_convex_pixel_count :=
         get_contour_pixel_count filled_pixel_sum (convexHull c) sh in
       diff <- percent_diff contour_convex_pixel_count contour_pixel_count ;;
       if Qle_bool diff max_diff
       then Ok (kept ++ [c], discarded)
       else Ok (kept, discarded ++ [c]))
    contours state = Ok result ->
  Forall (pixels sh) contours.
Proof.
  induction contours as [|c contours IH]; intros [kept discarded] result H.
  - constructor.
  - cbn [for_each] in H. unfold get_contour_pixel_count in H.
    destruct (Z.eq_dec (filled_pixel_sum sh (convexHull c) + filled_pixel_sum sh c) 0)
      as [E|E].
    + rewrite (percent_diff_zero _ _ E) in H. discriminate H.
    + constructor; [exact E|].
      destruct (percent_diff_ok _ _ E) as [diff Hd]. rewrite Hd in H. cbn [bind] in H.
      destruct (Qle_bool diff max_diff); cbn [bind] in H; eapply IH; exact H.
Qed.

(** When the deformation filter returns, no contour was without pixels and
    the two lists are the two filters of the input. *)
Lemma deformation_filter_returns contours sh max_diff kept discarded :
  deformation_filter contours sh max_diff = Ok (kept, discarded) ->
  Forall (pixels sh) contours
  /\ kept = filter (convex sh max_diff) contours
  /\ discarded = filter (fun c => negb (convex sh max_diff c)) contours.
Proof.
  intros H.
  assert (HF : Forall (pixels sh) contours).
  { unfold discard_overlapping_deformed_contours in H.
    eapply deformation_loop_returns. exact H. }
  split; [exact HF|].
  rewrite (discard_overlapping_deformed_contours_filter _ _ _ _ _ HF) in H.
  injection H as <- <-. split; reflexivity.
Qed.

Lemma filter_twice {A : Type} (p : A -> bool) (l : list A) :
  filter p (filter p l) = filter p l
  /\ filter (fun x => negb (p x)) (filter p l) = [].
Proof.
  apply filter_all. intros x Hx. apply filter_In in Hx. tauto.
Qed.

(** X3: the size filter and the deformation filter are idempotent: run
    again on what they kept, with the same thresholds, they keep all of it
    and discard nothing (the deformation filter, whenever its first run
    returned). *)
Theorem size_and_deformation_filters_idempotent
    (contours : list contour) (sh : shape)
    (max_pixel_count : Z) (min_relative_pixel_count max_diff : Q) :
  (let kept :=
     fst (discard_contours_by_size filled_pixel_sum contours sh
            max_pixel_count min_relative_pixel_count) in
   discard_contours_by_size filled_pixel_sum kept sh
     max_pixel_count min_relative_pixel_count = (kept, []))
  /\ (forall kept discarded,
         deformation_filter contours sh max_diff = Ok (kept, discarded) ->
         deformation_filter kept sh max_diff = Ok (kept, [])).
Proof.
  split.
  - intros kept. subst kept.
    rewrite (discard_contours_by_size_filter filled_pixel_sum contours). cbn [fst].
    rewrite discard_contours_by_size_filter.
    destruct (filter_twice
                (fun c => size_ok max_pixel_count min_relative_pixel_count
                            (filled_pixel_sum sh c)) contours) as [-> ->].
    reflexivity.
  - intros kept discarded H.
    destruct (deformation_filter_returns _ _ _ _ _ H) as (HF & -> & _).
    rewrite discard_overlapping_deformed_contours_filter.
    + destruct (filter_twice (convex sh max_diff) contours) as [-> ->]. reflexivity.
    + rewrite Forall_forall in *. intros c Hc. apply HF.
      apply filter_In in Hc. tauto.
Qed.

(** X4: a contour that fills its own convex hull is never discarded as
    deformed: whenever the deformation filter returns, for a threshold that
    is not negative, every input contour whose hull has the same pixel count
    as the contour itself is among the kept ones. *)
Theorem convex_contours_are_kept
    (contours : list contour) (sh : shape) (max_diff : Q)
    (kept discarded : list contour) :
  deformation_filter contours sh max_diff = Ok (kept, discarded) ->
  (0 <= max_diff)%Q ->
  forall c, In c contours ->
            filled_pixel_sum sh (convexHull c) = filled_pixel_sum sh c ->
            In c kept /\ ~ In c discarded.
Proof.
  intros H Hmax c Hin Hhull.
  destruct (deformation_filter_returns _ _ _ _ _ H) as (HF & -> & ->).
  assert (Hc : convex sh max_diff c = true).
  { unfold convex_enough. rewrite Hhull.
    rewrite Forall_forall in HF. specialize (HF c Hin).
    unfold has_pixels in HF. rewrite Hhull in HF.
    destruct (percent_diff_ok _ _ HF) as [diff Hd]. rewrite Hd.
    unfold percent_diff in Hd.
    destruct (Qeq_bool _ 0); [discriminate Hd|]. injection Hd as <-.
    rewrite Z.sub_diag. apply Qle_bool_iff.
    unfold Qdiv. rewrite !Qmult_0_l. exact Hmax. }
  split.
  - apply filter_In. auto.
  - intros Hd. apply filter_In in Hd. rewrite Hc in Hd. destruct Hd. discriminate.
Qed.

End ShapeFacts.

Lemma size_and_deformation_filters_idempotent_witness :
  discard_overlapping_deformed_contours Box.filled_pixel_sum Box.convexHull
    [Box.box 0 0 199 199] (300, 300) MAX_CONTOUR_PERCENT_DIFF
  = Ok ([Box.box 0 0 199 199], [])
  /\ discard_overlapping_deformed_contours Box.filled_pixel_sum Box.convexHull
       [Box.box 0 0 199 199] (300, 300) MAX_CONTOUR_PERCENT_DIFF
     = Ok ([Box.box 0 0 199 199], []).
Proof.
  assert (H : discard_overlapping_deformed_contours Box.filled_pixel_sum
                Box.convexHull [Box.box 0 0 199 199] (300, 300)
                MAX_CONTOUR_PERCENT_DIFF
              = Ok ([Box.box 0 0 199 199], [])) by reflexivity.
  split; [exact H|].
  exact (proj2 (size_and_deformation_filters_idempotent Box.filled_pixel_sum
                  Box.convexHull [Box.box 0 0 199 199] (300, 300)
                  MAX_NUCLEUS_PIXEL_COUNT MIN_NUCLEUS_PERCENT_PIXEL_COUNT
                  MAX_CONTOUR_PERCENT_DIFF) _ _ H).
Defined.

Lemma convex_contours_are_kept_witness :
  discard_overlapping_deformed_contours Box.filled_pixel_sum Box.convexHull
    [Box.box 0 0 199 199] (300, 300) MAX_CONTOUR_PERCENT_DIFF
  = Ok ([Box.box 0 0 199 199], [])
  /\ (0 <= MAX_CONTOUR_PERCENT_DIFF)%Q
  /\ In (Box.box 0 0 199 199) [Box.box 0 0 199 199]
  /\ (In (Box.box 0 0 199 199) [Box.box 0 0 199 199]
      /\ ~ In (Box.box 0 0 199 199) []).
Proof.
  assert (H : discard_overlapping_deformed_contours Box.filled_pixel_sum
                Box.convexHull [Box.box 0 0 199 199] (300, 300)
                MAX_CONTOUR_PERCENT_DIFF
              = Ok ([Box.box 0 0 199 199], [])) by reflexivity.
  assert (Hmax : (0 <= MAX_CONTOUR_PERCENT_DIFF)%Q) by (vm_compute; discriminate).
  assert (Hin : In (Box.box 0 0 199 199) [Box.box 0 0 199 199])
    by (left; reflexivity).
  split; [exact H|]. split; [exact Hmax|]. split; [exact Hin|].
  exact (convex_contours_are_kept Box.filled_pixel_sum Box.convexHull
           [Box.box 0 0 199 199] (300, 300) MAX_CONTOUR_PERCENT_DIFF _ _
           H Hmax _ Hin eq_refl).
Defined.

(** ** The orchestrator's result *)

Lemma no_parents_no_children (pointPolygonTest : contour -> point -> Z)
    (children : list contour) :
  fst (discard_contours_outside_contours pointPolygonTest [] children) = [].
Proof.
  rewrite discard_contours_outside_contours_filter. cbn [fst].
  induction children as [|c children IH]; [reflexivity|].
  cbn [filter scan_parents]. exact IH.
Qed.


Section ResultFacts.

Variable filled_pixel_sum : shape -> contour -> Z.
Variable pointPolygonTest : contour -> point -> Z.
Variable convexHull : contour -> contour.
Variable spline_resample : contour -> Z -> result contour.
Context {image plane : Type}.
Variable nucleus_plus_nor : image -> plane.
Variable nor_plane : image -> plane.
Variable binarize : plane -> plane.
Variable findContours : plane -> list contour.
Variable image_shape : image -> shape.
Variable stack_mask : image -> list contour -> list contour -> image.
Variable color_classes : image -> image.
Variable draw_multiple : image -> list contour -> image.
Variable draw_single : image -> list contour -> image.

Local Abbreviation analyze :=
  (analyze_contours filled_pixel_sum pointPolygonTest convexHull spline_resample
     nucleus_plus_nor nor_plane binarize findContours image_shape stack_mask
     color_classes draw_multiple draw_single).
Local Abbreviation sized_nuclei mask :=
  (fst (nuclei_by_size filled_pixel_sum nucleus_plus_nor binarize findContours
          image_shape mask)).
Local Abbreviation sized_nors mask :=
  (fst (nors_by_size filled_pixel_sum nor_plane binarize findContours
          image_shape mask)).
Local Abbreviation nuclei_with_nors mask smooth :=
  (fst (nuclei_by_nors filled_pixel_sum pointPolygonTest spline_resample
          nucleus_plus_nor nor_plane binarize findContours image_shape mask smooth)).
Local Abbreviation by_convexity mask smooth :=
  (nuclei_by_convexity filled_pixel_sum pointPolygonTest convexHull spline_resample
     nucleus_plus_nor nor_plane binarize findContours image_shape mask smooth).
Local Abbreviation inside := (has_point_inside pointPolygonTest).
Local Abbreviation pixel_count mask c := (filled_pixel_sum (image_shape mask) c).

(** The orchestrator raises exactly when its deformation stage does, and
    otherwise returns the two nucleus lists of that stage, each with the
    size-filtered AgNORs restricted to it. *)
Lemma analyze_contours_stages (mask : image) (smooth : bool) :
  match by_convexity mask smooth with
  | Ok (adequate, deformed) =>
      exists contour_detail printed,
        analyze mask smooth
        = Ok ((stack_mask mask adequate
                 (fst (discard_contours_outside_contours pointPolygonTest
                         adequate (sized_nors mask))),
               adequate,
               fst (discard_contours_outside_contours pointPolygonTest
                      adequate (sized_nors mask))),
              (contour_detail, deformed,
               fst (discard_contours_outside_contours pointPolygonTest
                      deformed (sized_nors mask))),
              printed)
  | Raise e => analyze mask smooth = Raise e
  end.
Proof.
  unfold nuclei_by_convexity, nuclei_by_nors, nuclei_by_size, nors_by_size,
    analyze_contours.
  destruct (discard_contours_by_size filled_pixel_sum
              (get_contours binarize findContours (nucleus_plus_nor mask))
              (image_shape mask) MAX_NUCLEUS_PIXEL_COUNT
              MIN_NUCLEUS_PERCENT_PIXEL_COUNT) as [nuclei nuclei_size].
  destruct (discard_contours_by_size filled_pixel_sum
              (get_contours binarize findContours (nor_plane mask))
              (image_shape mask) MAX_NOR_PIXEL_COUNT
              MIN_NOR_PERCENT_PIXEL_COUNT) as [nors nors_size].
  cbn [fst snd].
  assert (ES : (if smooth
                then fst (smooth_contours spline_resample nuclei 40)
                else nuclei)
               = fst (if smooth then smooth_contours spline_resample nuclei 40
                      else (nuclei, []))) by (destruct smooth; reflexivity).
  rewrite ES. clear ES.
  destruct (if smooth then smooth_contours spline_resample nuclei 40
            else (nuclei, [])) as [smoothed printed].
  cbn [fst snd].
  destruct (discard_contours_without_contours pointPolygonTest smoothed nors)
    as [with_nors without_nors].
  cbn [fst snd].
  destruct (discard_overlapping_deformed_contours filled_pixel_sum convexHull
              with_nors (image_shape mask) MAX_CONTOUR_PERCENT_DIFF)
    as [[adequate deformed]|e]; [|reflexivity].
  cbn [bind].
  pose proof (no_parents_no_children pointPolygonTest nors) as Hnone.
  destruct (discard_contours_outside_contours pointPolygonTest adequate nors)
    as [nors_adequate ?].
  destruct (discard_contours_outside_contours pointPolygonTest deformed nors)
    as [nors_deformed ?] eqn:Ed.
  destruct nuclei_size as [|n1 nuclei_size], without_nors as [|n2 without_nors],
    nors_size as [|n3 nors_size], deformed as [|n4 deformed];
    cbn; try (rewrite Ed in Hnone; cbn in Hnone; subst nors_deformed);
    do 2 eexists; reflexivity.
Qed.

(** X5: whenever [analyze_contours] returns, its result is consistent.
    Every adequate nucleus passed the deformation test and holds a point of
    one of the returned AgNORs; every returned AgNOR is within the AgNOR size
    bounds and has a point in one of the adequate nuclei; the same link holds
    between the deformed nuclei and their AgNORs, and no nucleus is in both
    lists. *)
Theorem analyze_contours_result_consistent
    (mask : image) (smooth : bool) (updated_mask : image)
    (adequate nors_in_adequate deformed nors_in_deformed : list contour)
    (contour_detail : option image) (printed : list string) :
  analyze mask smooth
  = Ok ((updated_mask, adequate, nors_in_adequate),
        (contour_detail, deformed, nors_in_deformed), printed) ->
  (forall n, In n adequate ->
             convex_enough filled_pixel_sum convexHull (image_shape mask)
               MAX_CONTOUR_PERCENT_DIFF n = true
             /\ exists c, In c nors_in_adequate /\ inside n c = true)
  /\ (forall c, In c nors_in_adequate ->
                0 <= pixel_count mask c <= MAX_NOR_PIXEL_COUNT
                /\ exists n, In n adequate /\ inside n c = true)
  /\ (forall n, In n deformed ->
                convex_enough filled_pixel_sum convexHull (image_shape mask)
                  MAX_CONTOUR_PERCENT_DIFF n = false
                /\ exists c, In c nors_in_deformed /\ inside n c = true)
  /\ (forall c, In c nors_in_deformed ->
                0 <= pixel_count mask c <= MAX_NOR_PIXEL_COUNT
                /\ exists n, In n deformed /\ inside n c = true)
  /\ (forall n, In n adequate -> ~ In n deformed).
Proof.
  intros H. pose proof (analyze_contours_stages mask smooth) as S.
  destruct (by_convexity mask smooth) as [[adequate' deformed']|e] eqn:E;
    [|rewrite S in H; discriminate H].
  destruct S as (detail' & printed' & S). rewrite S in H.
  injection H as _ <- <- _ <- <- _.
  unfold nuclei_by_convexity in E.
  destruct (deformation_filter_returns _ _ _ _ _ _ _ E) as (_ & Ha & Hd).
  assert (Hnor : forall c, In c (sized_nors mask) ->
                           0 <= pixel_count mask c <= MAX_NOR_PIXEL_COUNT).
  { intros c Hc. unfold nors_by_size in Hc.
    rewrite discard_contours_by_size_filter in Hc. cbn [fst] in Hc.
    apply filter_In in Hc. destruct Hc as [_ Hc].
    apply size_ok_iff in Hc. exact Hc. }
  assert (Hwith : forall n, In n (nuclei_with_nors mask smooth) ->
                            exists c, In c (sized_nors mask) /\ inside n c = true).
  { intros n Hn. unfold nuclei_by_nors in Hn.
    apply kept_parent_iff in Hn. tauto. }
  assert (Hlink : forall group n,
             In n group -> In n (nuclei_with_nors mask smooth) ->
             exists c,
               In c (fst (discard_contours_outside_contours pointPolygonTest
                            group (sized_nors mask)))
               /\ inside n c = true).
  { intros group n Hg Hn. destruct (Hwith n Hn) as (c & Hc & Hnc).
    exists c. split; [|assumption]. apply kept_child_iff. eauto. }
  assert (Hback : forall group c,
             In c (fst (discard_contours_outside_contours pointPolygonTest
                          group (sized_nors mask))) ->
             0 <= pixel_count mask c <= MAX_NOR_PIXEL_COUNT
             /\ exists n, In n group /\ inside n c = true).
  { intros group c Hc. apply kept_child_iff in Hc. destruct Hc as [Hc Hn].
    split; [now apply Hnor | exact Hn]. }
  split; [|split; [|split; [|split]]].
  - intros n H. split.
    + subst adequate'. apply filter_In in H. tauto.
    + apply Hlink; [assumption|]. subst adequate'. apply filter_In in H. tauto.
  - intros c H. now apply Hback.
  - intros n H. split.
    + subst deformed'. apply filter_In in H. destruct H as [_ H].
      now apply negb_true_iff in H.
    + apply Hlink; [assumption|]. subst deformed'. apply filter_In in H. tauto.
  - intros c H. now apply Hback.
  - intros n H Hdef. subst. apply filter_In in H, Hdef.
    destruct H as [_ H], Hdef as [_ Hdef]. rewrite H in Hdef. discriminate.
Qed.


End ResultFacts.

Lemma analyze_contours_result_consistent_witness :
  analyze_contours Box.filled_pixel_sum Box.pointPolygonTest Box.convexHull
    Box.spline_resample Box.nucleus_plus_nor Box.nor_plane Box.binarize
    Box.findContours Box.image_shape Box.stack_mask Box.color_classes
    Box.draw_multiple Box.draw_single Box.sample_mask false
  = Ok ((Box.stack_mask Box.sample_mask [Box.box 0 0 199 199] [Box.box 50 50 59 59],
         [Box.box 0 0 199 199], [Box.box 50 50 59 59]),
        (None, [], []), [])
  /\ forall n, In n [Box.box 0 0 199 199] ->
               convex_enough Box.filled_pixel_sum Box.convexHull
                 (Box.image_shape Box.sample_mask) MAX_CONTOUR_PERCENT_DIFF n = true
               /\ exists c, In c [Box.box 50 50 59 59]
                            /\ has_point_inside Box.pointPolygonTest n c = true.
Proof.
  assert (H : analyze_contours Box.filled_pixel_sum Box.pointPolygonTest
                Box.convexHull Box.spline_resample Box.nucleus_plus_nor
                Box.nor_plane Box.binarize Box.findContours Box.image_shape
                Box.stack_mask Box.color_classes Box.draw_multiple Box.draw_single
                Box.sample_mask false
              = Ok ((Box.stack_mask Box.sample_mask [Box.box 0 0 199 199]
                       [Box.box 50 50 59 59],
                     [Box.box 0 0 199 199], [Box.box 50 50 59 59]),
                    (None, [], []), [])) by reflexivity.
  split; [exact H|].
  exact (proj1 (analyze_contours_result_consistent Box.filled_pixel_sum
                  Box.pointPolygonTest Box.convexHull Box.spline_resample
                  Box.nucleus_plus_nor Box.nor_plane Box.binarize Box.findContours
                  Box.image_shape Box.stack_mask Box.color_classes
                  Box.draw_multiple Box.draw_single Box.sample_mask false
                  _ _ _ _ _ _ _ H)).
Defined.


(** ** The measurement builder and the filters before it *)

Lemma for_each_ext_in {A S : Type} (f g : S -> A -> result S) (xs : list A) :
  (forall s x, In x xs -> f s x = g s x) ->
  forall s, for_each f xs s = for_each g xs s.
Proof.
  induction xs as [|x xs IH]; intros H s; simpl; [reflexivity|].
  rewrite (H s x (or_introl eq_refl)).
  destruct (g s x) as [s'|e]; simpl; [|reflexivity].
  apply IH. intros s0 y Hy. apply H. now right.
Qed.

Lemma for_each_skip {A S : Type} (step : S -> A -> result S) (q : A -> bool)
    (xs : list A) :
  (forall s x, In x xs -> q x = false -> step s x = Ok s) ->
  forall s, for_each step xs s = for_each step (filter q xs) s.
Proof.
  induction xs as [|x xs IH]; intros H s; simpl; [reflexivity|].
  destruct (q x) eqn:E; simpl.
  - destruct (step s x) as [s'|e]; simpl; [|reflexivity].
    apply IH. intros s0 y Hy. apply H. now right.
  - rewrite (H s x (or_introl eq_refl) E). simpl.
    apply IH. intros s0 y Hy. apply H. now right.
Qed.

Lemma enumerate_In {A : Type} (xs : list A) : forall start i x,
  In (i, x) (enumerate xs start) -> In x xs.
Proof.
  induction xs as [|y xs IH]; intros start i x; simpl; [tauto|].
  intros [E|H]; [injection E as _ <-; now left | right; eapply IH; exact H].
Qed.

Lemma find_none_outside {A : Type} (f : A -> bool) (l : list A) :
  existsb f l = false -> find f l = None.
Proof.
  intros H. pose proof (find_existsb f l) as E. rewrite H in E.
  destruct (find f l); [discriminate E | reflexivity].
Qed.

(** X7: the measurement builder takes no notice of children that lie
    outside every parent.  Restricting the children to the parents with
    [discard_contours_outside_contours] first changes nothing in what
    [get_contour_measurements] returns or raises. *)
Theorem builder_ignores_children_outside_parents
    (filled_pixel_sum : shape -> contour -> Z)
    (pointPolygonTest : contour -> point -> Z)
    (parents children : list contour) (sh : shape)
    (mask_name parent_type child_type record_id patient_name record_class
     exam_date exam_instance anatomical_site : string)
    (start_index : Z) (contours_flag : string) :
  get_contour_measurements filled_pixel_sum pointPolygonTest parents
    (fst (discard_contours_outside_contours pointPolygonTest parents children)) sh
    mask_name parent_type child_type record_id patient_name record_class
    exam_date exam_instance anatomical_site start_index contours_flag
  = get_contour_measurements filled_pixel_sum pointPolygonTest parents children sh
      mask_name parent_type child_type record_id patient_name record_class
      exam_date exam_instance anatomical_site start_index contours_flag.
Proof.
  rewrite discard_contours_outside_contours_filter. cbn [fst].
  unfold get_contour_measurements. f_equal.
  apply for_each_ext_in. intros [[prows crows] sizes] [i p] Hin.
  apply enumerate_In in Hin. cbv beta iota zeta. f_equal. symmetry.
  apply for_each_skip. intros [[rows sizes'] child_id] c Hc Hout.
  rewrite find_none_outside; [reflexivity|].
  rewrite scan_parents_existsb in Hout.
  fold (has_point_inside pointPolygonTest p c).
  destruct (has_point_inside pointPolygonTest p c) eqn:E; [|reflexivity].
  assert (Ht : existsb (fun p0 => has_point_inside pointPolygonTest p0 c) parents
               = true) by (apply existsb_exists; eauto).
  congruence.
Qed.

Lemma attribute_loop_in {R : Type} (test : contour -> bool)
    (row : Z -> contour -> R) (size : contour -> Z)
    (step : list R * list Z * Z -> contour -> result (list R * list Z * Z))
    (children : list contour) :
  (forall rows sizes child_id c,
      In c children ->
      step (rows, sizes, child_id) c
      = if test c
        then Ok (rows ++ [row child_id c], sizes ++ [size c], child_id + 1)
        else Ok (rows, sizes, child_id)) ->
  forall rows sizes child_id,
    for_each step children (rows, sizes, child_id)
    = Ok (rows ++ map (fun '(i, c) => row i c)
                    (enumerate (filter test children) child_id),
          sizes ++ map size (filter test children),
          child_id + len (filter test children)).
Proof.
  induction children as [|c children IH]; intros Hstep rows sizes child_id; simpl.
  - rewrite !app_nil_r. f_equal. f_equal. unfold len. simpl. lia.
  - rewrite Hstep by (left; reflexivity).
    assert (Hrest : forall rows sizes child_id c0,
               In c0 children ->
               step (rows, sizes, child_id) c0
               = if test c0
                 then Ok (rows ++ [row child_id c0], sizes ++ [size c0], child_id + 1)
                 else Ok (rows, sizes, child_id))
      by (intros; apply Hstep; right; assumption).
    destruct (test c); simpl.
    + rewrite (IH Hrest), <- !app_assoc. simpl. f_equal. f_equal.
      unfold len. simpl List.length. lia.
    + apply (IH Hrest).
Qed.

Lemma py_truediv_zero (a : Z) : py_truediv a 0 = Raise ZeroDivisionError.
Proof. reflexivity. Qed.

Section BuilderReturns.

Variable filled_pixel_sum : shape -> contour -> Z.
Variable pointPolygonTest : contour -> point -> Z.
Variable sh : shape.
Variables mask_name parent_type child_type record_id patient_name record_class
  exam_date exam_instance anatomical_site contours_flag : string.

Local Abbreviation nucleus_row :=
  (nucleus_record filled_pixel_sum sh mask_name parent_type record_id
     patient_name record_class exam_date exam_instance anatomical_site
     contours_flag).
Local Abbreviation agnor_row :=
  (agnor_record filled_pixel_sum sh mask_name child_type record_id patient_name
     record_class exam_date exam_instance anatomical_site contours_flag).
Local Abbreviation final_agnor_row :=
  (final_agnor_record filled_pixel_sum sh mask_name child_type record_id
     patient_name record_class exam_date exam_instance anatomical_site
     contours_flag).
Local Abbreviation build parents children start_index :=
  (get_contour_measurements filled_pixel_sum pointPolygonTest parents children sh
     mask_name parent_type child_type record_id patient_name record_class
     exam_date exam_instance anatomical_site start_index contours_flag).
Local Abbreviation children_of := (attributed pointPolygonTest).
Local Abbreviation final_sizes :=
  (final_contours_size filled_pixel_sum pointPolygonTest sh).

(** A parent divides safely when it covers a pixel or has no child. *)
Local Abbreviation safe children parent :=
  (children_of parent children <> [] -> filled_pixel_sum sh parent <> 0).

(** The closed form of the builder under the weakest condition for it to
    return. *)
Lemma get_contour_measurements_returns parents children start_index :
  parents <> [] ->
  Forall (fun parent => safe children parent) parents ->
  build parents children start_index
  = Ok (map (fun '(i, p) => nucleus_row i p) (enumerate parents start_index),
        flat_map
          (fun '(i, p) =>
             map (fun '(j, c) => final_agnor_row (final_sizes parents children) i p j c)
               (enumerate (children_of p children) 0))
          (enumerate parents start_index)).
Proof.
  intros Hne Hsafe. unfold get_contour_measurements.
  rewrite (parent_loop nucleus_row
             (fun i p => map (fun '(j, c) => agnor_row i p j c)
                           (enumerate (children_of p children) 0))
             (fun p => map (filled_pixel_sum sh) (children_of p children))).
  2:{ intros prows crows sizes i p Hin.
      rewrite (attribute_loop_in (has_point_inside pointPolygonTest p)
                 (fun j c => agnor_row i p j c) (filled_pixel_sum sh)).
      - reflexivity.
      - intros rows sizes' child_id c Hc.
        unfold has_point_inside. rewrite <- find_existsb.
        destruct (find _ c) eqn:Ef; [|reflexivity].
        unfold get_contour_pixel_count.
        rewrite py_truediv_ok; [reflexivity|].
        rewrite Forall_forall in Hsafe. apply (Hsafe p Hin).
        intros Hnone.
        assert (Hattr : In c (children_of p children)).
        { apply filter_In. split; [assumption|].
          unfold has_point_inside. rewrite <- find_existsb, Ef. reflexivity. }
        rewrite Hnone in Hattr. destruct Hattr. }
  cbn [bind app].
  unfold final_contours_size.
  destruct (rev parents) as [|last_parent rest] eqn:Erev.
  { exfalso. apply Hne. rewrite <- (rev_involutive parents), Erev. reflexivity. }
  set (sizes := map (filled_pixel_sum sh) (children_of last_parent children)).
  destruct (0 <? len sizes) eqn:Elen.
  - rewrite (list_comprehension_map _
               (fun record =>
                  record ++ match dict_get record "agnor_pixel_count" with
                            | Some (VInt z) =>
                                [("greatest_agnor_ratio"%string,
                                  VFloat (np_true_divide z (np_max sizes)));
                                 ("smallest_agnor_ratio"%string,
                                  VFloat (np_true_divide z (np_min sizes)))]
                            | _ => []
                            end)).
    + cbn [bind]. f_equal. f_equal.
      rewrite flat_map_concat_map, concat_map, map_map, <- flat_map_concat_map.
      apply flat_map_ext. intros [i p]. rewrite map_map.
      apply map_ext. intros [j c]. unfold final_agnor_record. rewrite Elen.
      reflexivity.
    + apply Forall_forall. intros record Hin.
      apply in_flat_map in Hin. destruct Hin as ([i p] & _ & Hin).
      apply in_map_iff in Hin. destruct Hin as ([j c] & <- & _).
      reflexivity.
  - f_equal. f_equal. apply flat_map_ext. intros [i p].
    apply map_ext. intros [j c]. unfold final_agnor_record. rewrite Elen.
    now rewrite app_nil_r.
Qed.

(** The child loop of a parent without pixels raises at its first child. *)
Lemma child_loop_raises parent_id parent children :
  filled_pixel_sum sh parent = 0 ->
  children_of parent children <> [] ->
  forall state,
    for_each
      (fun '(child_measurements, contours_size, child_id) child_contour =>
         match find (fun child_point =>
                       0 <=? pointPolygonTest parent child_point)
                    child_contour with
         | Some _ =>
             let child_pixel_count :=
               get_contour_pixel_count filled_pixel_sum child_contour sh in
             let contours_size := contours_size ++ [child_pixel_count] in
             parent_pixel_count_ratio <-
               py_truediv child_pixel_count
                 (get_contour_pixel_count filled_pixel_sum parent sh) ;;
             let child_features :=
               [VStr record_id; VStr patient_name; VStr mask_name;
                VStr contours_flag; VStr record_class; VStr exam_date;
                VStr exam_instance; VStr anatomical_site; VInt parent_id;
                VInt child_id; VInt child_pixel_count; VStr child_type;
                VFloat (Fin parent_pixel_count_ratio)] in
             Ok (child_measurements
                   ++ [dict_of_pairs (zip AGNOR_COLUMNS child_features)],
                 contours_size, child_id + 1)
         | None => Ok (child_measurements, contours_size, child_id)
         end)
      children state
    = Raise ZeroDivisionError.
Proof.
  intros Hzero. unfold get_contour_pixel_count. rewrite Hzero.
  induction children as [|c children IH]; intros Hattr [[rows sizes] child_id].
  - contradiction.
  - cbn [for_each]. unfold attributed in Hattr. cbn [filter] in Hattr.
    unfold has_point_inside in Hattr at 1. rewrite <- find_existsb in Hattr.
    destruct (find _ c).
    + reflexivity.
    + cbn [bind]. apply IH. exact Hattr.
Qed.

Lemma builder_raises_on_empty_parent parents children start_index :
  Exists (fun parent => ~ safe children parent) parents ->
  build parents children start_index = Raise ZeroDivisionError.
Proof.
  intros Hbad. unfold get_contour_measurements.
  match goal with
  | |- bind (for_each ?step _ ?init) _ = _ =>
      assert (Hloop : forall start state,
                 for_each step (enumerate parents start) state
                 = Raise ZeroDivisionError);
        [|rewrite Hloop; reflexivity]
  end.
  induction parents as [|p parents IH]; [inversion Hbad|].
  intros start [[prows crows] sizes]. cbn [enumerate for_each].
  destruct (Z.eq_dec (filled_pixel_sum sh p) 0) as [Hz|Hnz].
  - destruct (children_of p children) as [|c0 l] eqn:Ec.
    + (* this parent is safe: it has no child *)
      rewrite (attribute_loop_in (has_point_inside pointPolygonTest p)
                 (fun j c => agnor_row start p j c) (filled_pixel_sum sh)).
      * cbn [bind]. apply IH.
        inversion Hbad as [? ? Hp|? ? Hrest]; subst; [|assumption].
        exfalso. apply Hp. intros Hne. congruence.
      * intros rows sizes' child_id c Hc.
        unfold has_point_inside. rewrite <- find_existsb.
        destruct (find _ c) eqn:Ef; [|reflexivity].
        exfalso.
        assert (Hattr : In c (children_of p children)).
        { apply filter_In. split; [assumption|].
          unfold has_point_inside. rewrite <- find_existsb, Ef. reflexivity. }
        rewrite Ec in Hattr. destruct Hattr.
    + rewrite (child_loop_raises start p children Hz); [reflexivity|].
      rewrite Ec. discriminate.
  - rewrite (attribute_loop_in (has_point_inside pointPolygonTest p)
               (fun j c => agnor_row start p j c) (filled_pixel_sum sh)).
    + cbn [bind]. apply IH.
      inversion Hbad as [? ? Hp|? ? Hrest]; subst; [|assumption].
      exfalso. apply Hp. intros _. exact Hnz.
    + intros rows sizes' child_id c Hc.
      unfold has_point_inside. rewrite <- find_existsb.
      destruct (find _ c); [|reflexivity].
      unfold get_contour_pixel_count. rewrite py_truediv_ok by assumption.
      reflexivity.
Qed.

Lemma safe_or_not children (parents : list contour) :
  Forall (fun parent => safe children parent) parents
  \/ Exists (fun parent => ~ safe children parent) parents.
Proof.
  induction parents as [|p parents [IH|IH]].
  - left. constructor.
  - destruct (Z.eq_dec (filled_pixel_sum sh p) 0) as [Hz|Hnz].
    + destruct (children_of p children) as [|c l] eqn:Ec.
      * left. constructor; [|assumption]. intros H. now rewrite Ec in H.
      * right. constructor. intros H. rewrite Ec in H. apply H; [discriminate|assumption].
    + left. constructor; [|assumption]. intros _. exact Hnz.
  - right. now constructor 2.
Qed.

(** X8: when the measurement builder returns and when it raises.  It
    returns exactly when the parent list is not empty and every parent that
    has a child covers at least one pixel of the image.  With no parent it
    raises UnboundLocalError; with a parent that has a child and no pixel it
    raises ZeroDivisionError. *)
Theorem builder_returns_iff (parents children : list contour) (start_index : Z) :
  ((exists rows, build parents children start_index = Ok rows)
   <-> parents <> [] /\ Forall (fun parent => safe children parent) parents)
  /\ (parents = [] ->
      build parents children start_index = Raise (UnboundLocalError "contours_size"))
  /\ (Exists (fun parent => ~ safe children parent) parents ->
      build parents children start_index = Raise ZeroDivisionError).
Proof.
  split; [|split].
  - split.
    + intros [rows H]. split.
      * intros ->. discriminate H.
      * destruct (safe_or_not children parents) as [Hs|Hb]; [assumption|].
        rewrite (builder_raises_on_empty_parent _ _ _ Hb) in H. discriminate H.
    + intros [Hne Hs]. eexists. now apply get_contour_measurements_returns.
  - intros ->. reflexivity.
  - apply builder_raises_on_empty_parent.
Qed.

(** What the builder returned, whenever it returned. *)
Lemma builder_ok_form parents children start_index parent_rows child_rows :
  build parents children start_index = Ok (parent_rows, child_rows) ->
  parent_rows
  = map (fun '(i, p) => nucleus_row i p) (enumerate parents start_index)
  /\ child_rows
     = flat_map
         (fun '(i, p) =>
            map (fun '(j, c) => final_agnor_row (final_sizes parents children) i p j c)
              (enumerate (children_of p children) 0))
         (enumerate parents start_index).
Proof.
  intros H.
  assert (Hne : parents <> []) by (intros ->; discriminate H).
  destruct (safe_or_not children parents) as [Hs|Hb].
  - rewrite (get_contour_measurements_returns _ _ _ Hne Hs) in H.
    injection H as <- <-. split; reflexivity.
  - rewrite (builder_raises_on_empty_parent _ _ _ Hb) in H. discriminate H.
Qed.

Lemma enumerate_nth_error {A : Type} (xs : list A) : forall start k,
  nth_error (enumerate xs start) k
  = option_map (fun x => (start + Z.of_nat k, x)) (nth_error xs k).
Proof.
  induction xs as [|x xs IH]; intros start [|k]; simpl; try reflexivity.
  - now rewrite Z.add_0_r.
  - rewrite IH. destruct (nth_error xs k); simpl; [|reflexivity].
    do 2 f_equal. lia.
Qed.

(** X9: the parent rows of a call that returns.  There is one row per
    parent, in input order; the row of the parent at position [k] has the
    columns of the nucleus table, the nucleus id [start_index + k], the
    parent's pixel count, the flag and the parent type. *)
Theorem parent_rows_numbered_from_start_index
    (parents children : list contour) (start_index : Z)
    (parent_rows child_rows : list dict) :
  build parents children start_index = Ok (parent_rows, child_rows) ->
  List.length parent_rows = List.length parents
  /\ forall k parent,
       nth_error parents k = Some parent ->
       exists row,
         nth_error parent_rows k = Some row
         /\ keys row = NUCLEUS_COLUMNS
         /\ dict_get row "nucleus" = Some (VInt (start_index + Z.of_nat k))
         /\ dict_get row "nucleus_pixel_count"
            = Some (VInt (filled_pixel_sum sh parent))
         /\ dict_get row "flag" = Some (VStr contours_flag)
         /\ dict_get row "type" = Some (VStr parent_type).
Proof.
  intros H. destruct (builder_ok_form _ _ _ _ _ H) as [-> _].
  split; [rewrite length_map; apply enumerate_length|].
  intros k parent Hk.
  exists (nucleus_row (start_index + Z.of_nat k) parent). split.
  - rewrite nth_error_map, enumerate_nth_error, Hk. reflexivity.
  - repeat split.
Qed.

Lemma flat_rows_length {R : Type} (f : Z -> contour -> Z -> contour -> R)
    (parents children : list contour) : forall start,
  List.length
    (flat_map (fun '(i, p) =>
                 map (fun '(j, c) => f i p j c)
                   (enumerate (children_of p children) 0))
       (enumerate parents start))
  = List.length
      (flat_map (fun parent => map (filled_pixel_sum sh) (children_of parent children))
         parents).
Proof.
  induction parents as [|p ps IH]; intros start; [reflexivity|].
  cbn [enumerate flat_map]. rewrite !length_app, !length_map, enumerate_length.
  f_equal. apply IH.
Qed.

(** X10: the child rows of a call that returns.  There is one row per
    attributed (parent, child) pair.  All rows have the same columns: the
    full AgNOR schema when the last parent has a child, and otherwise only
    its first thirteen columns, without the two AgNOR ratios.  In the first
    case every row's two ratios are its pixel count divided by the greatest
    and by the smallest size among the children of the last parent. *)
Theorem child_rows_schema
    (parents children : list contour) (start_index : Z)
    (parent_rows child_rows : list dict) :
  build parents children start_index = Ok (parent_rows, child_rows) ->
  let sizes := final_sizes parents children in
  let complete := 0 <? len sizes in
  len child_rows
  = len (all_attributed_sizes filled_pixel_sum pointPolygonTest sh parents children)
  /\ Forall (fun row =>
               keys row = if complete then AGNOR_COLUMNS
                          else firstn 13 AGNOR_COLUMNS) child_rows
  /\ (complete = true ->
      Forall (fun row =>
                exists pixel_count,
                  dict_get row "agnor_pixel_count" = Some (VInt pixel_count)
                  /\ dict_get row "greatest_agnor_ratio"
                     = Some (VFloat (np_true_divide pixel_count (np_max sizes)))
                  /\ dict_get row "smallest_agnor_ratio"
                     = Some (VFloat (np_true_divide pixel_count (np_min sizes))))
        child_rows).
Proof.
  intros H sizes complete. destruct (builder_ok_form _ _ _ _ _ H) as [_ ->].
  split; [|split].
  - unfold all_attributed_sizes, len. f_equal. apply flat_rows_length.
  - apply Forall_forall. intros row Hin.
    apply in_flat_map in Hin. destruct Hin as ([i p] & _ & Hin).
    apply in_map_iff in Hin. destruct Hin as ([j c] & <- & _).
    unfold final_agnor_record. fold sizes. fold complete.
    destruct complete; reflexivity.
  - intros Hc. apply Forall_forall. intros row Hin.
    apply in_flat_map in Hin. destruct Hin as ([i p] & _ & Hin).
    apply in_map_iff in Hin. destruct Hin as ([j c] & <- & _).
    unfold final_agnor_record. fold sizes. fold complete. rewrite Hc.
    exists (filled_pixel_sum sh c). repeat split.
Qed.


End BuilderReturns.

Lemma parent_rows_numbered_from_start_index_witness :
  exists parent_rows child_rows,
    get_contour_measurements Box.filled_pixel_sum Box.pointPolygonTest
      [Box.box 0 0 9 9; Box.box 20 0 29 9]
      [Box.box 1 1 3 3; Box.box 21 1 22 2] (100, 100)
      "img.png" "nucleus" "cluster" "unknown" "unknown" "unknown"
      EmptyString EmptyString EmptyString 5 "discarded"
    = Ok (parent_rows, child_rows)
    /\ List.length parent_rows = 2%nat
    /\ exists row, nth_error parent_rows 1 = Some row
                   /\ dict_get row "nucleus" = Some (VInt 6)
                   /\ dict_get row "nucleus_pixel_count" = Some (VInt 100).
Proof.
  destruct (get_contour_measurements Box.filled_pixel_sum Box.pointPolygonTest
              [Box.box 0 0 9 9; Box.box 20 0 29 9]
              [Box.box 1 1 3 3; Box.box 21 1 22 2] (100, 100)
              "img.png" "nucleus" "cluster" "unknown" "unknown" "unknown"
              EmptyString EmptyString EmptyString 5 "discarded")
    as [[parent_rows child_rows]|e] eqn:E; [|vm_compute in E; discriminate E].
  exists parent_rows, child_rows. split; [reflexivity|].
  apply parent_rows_numbered_from_start_index in E. destruct E as [Hlen Hrows].
  split; [exact Hlen|].
  destruct (Hrows 1%nat (Box.box 20 0 29 9) eq_refl)
    as (row & Hrow & _ & Hid & Hpc & _).
  exists row. auto.
Defined.

Lemma child_rows_schema_witness :
  exists parent_rows child_rows,
    get_contour_measurements Box.filled_pixel_sum Box.pointPolygonTest
      [Box.box 0 0 9 9; Box.box 20 0 29 9] [Box.box 1 1 3 3] (100, 100)
      "img.png" "nucleus" "cluster" "unknown" "unknown" "unknown"
      EmptyString EmptyString EmptyString 0 "valid"
    = Ok (parent_rows, child_rows)
    /\ len child_rows = 1
    /\ Forall (fun row => keys row = firstn 13 AGNOR_COLUMNS) child_rows.
Proof.
  destruct (get_contour_measurements Box.filled_pixel_sum Box.pointPolygonTest
              [Box.box 0 0 9 9; Box.box 20 0 29 9] [Box.box 1 1 3 3] (100, 100)
              "img.png" "nucleus" "cluster" "unknown" "unknown" "unknown"
              EmptyString EmptyString EmptyString 0 "valid")
    as [[parent_rows child_rows]|e] eqn:E; [|vm_compute in E; discriminate E].
  exists parent_rows, child_rows. split; [reflexivity|].
  apply child_rows_schema in E. destruct E as (Hlen & Hkeys & _).
  split; [exact Hlen | exact Hkeys].
Defined.

(** ** From the builder to the classifier *)

Lemma add_all_present (ks : list string) : forall seen,
  (forall k, In k ks -> In k seen) -> fold_left add_new ks seen = seen.
Proof.
  induction ks as [|k ks IH]; intros seen H; simpl; [reflexivity|].
  unfold add_new at 2.
  assert (E : existsb (String.eqb k) seen = true)
    by (apply existsb_eqb_In, H; now left).
  rewrite E. apply IH. intros x Hx. apply H. now right.
Qed.

Lemma add_all_fresh (ks : list string) : forall seen,
  NoDup (seen ++ ks) -> fold_left add_new ks seen = seen ++ ks.
Proof.
  induction ks as [|k ks IH]; intros seen H; simpl.
  - now rewrite app_nil_r.
  - pose proof (NoDup_remove_2 _ _ _ H) as Hk.
    unfold add_new at 2.
    destruct (existsb (String.eqb k) seen) eqn:E.
    + exfalso. apply Hk, in_or_app. left. now apply existsb_eqb_In.
    + rewrite IH; rewrite <- app_assoc; [reflexivity | exact H].
Qed.

(** Records that all have the same keys give a frame with these columns. *)
Lemma union_keys_uniform (ks : list string) (records : list dict) :
  records <> [] -> NoDup ks -> Forall (fun r => keys r = ks) records ->
  union_keys records = ks.
Proof.
  intros Hne Hnd HF. destruct records as [|r rs]; [contradiction|].
  inversion_clear HF as [|? ? Hr Hrs].
  unfold union_keys. cbn [fold_left]. rewrite Hr.
  rewrite (add_all_fresh ks []) by exact Hnd. cbn [app].
  clear Hr Hne. induction Hrs as [|r' rs' Hr' _ IH]; [reflexivity|].
  cbn [fold_left]. rewrite Hr'.
  rewrite add_all_present by auto. exact IH.
Qed.

(** X11: rows built by a call whose last parent has no child cannot be
    classified.  Such rows lack the two AgNOR ratio columns, so
    [classify_agnor] raises KeyError on them, before it loads any model. *)
Theorem classifier_rejects_rows_without_ratios
    (filled_pixel_sum : shape -> contour -> Z)
    (pointPolygonTest : contour -> point -> Z)
    (joblib_load : string -> result (list (list value) -> result (list value)))
    (parents children : list contour) (sh : shape)
    (mask_name parent_type child_type record_id patient_name record_class
     exam_date exam_instance anatomical_site : string)
    (start_index : Z) (contours_flag model_path : string)
    (parent_rows child_rows : list dict) :
  get_contour_measurements filled_pixel_sum pointPolygonTest parents children sh
    mask_name parent_type child_type record_id patient_name record_class
    exam_date exam_instance anatomical_site start_index contours_flag
  = Ok (parent_rows, child_rows) ->
  child_rows <> [] ->
  final_contours_size filled_pixel_sum pointPolygonTest sh parents children = [] ->
  exists k, classify_agnor joblib_load model_path child_rows = Raise (KeyError k).
Proof.
  intros H Hne Hlast.
  destruct (builder_ok_form _ _ _ _ _ _ _ _ _ _ _ _ _ _ _ _ _ _ H) as [_ Hrows].
  assert (Hkeys : Forall (fun r => keys r = firstn 13 AGNOR_COLUMNS) child_rows).
  { rewrite Hrows. apply Forall_forall. intros row Hin.
    apply in_flat_map in Hin. destruct Hin as ([i p] & _ & Hin).
    apply in_map_iff in Hin. destruct Hin as ([j c] & <- & _).
    unfold final_agnor_record. rewrite Hlast. reflexivity. }
  assert (Hcols : union_keys child_rows = firstn 13 AGNOR_COLUMNS).
  { apply union_keys_uniform; [assumption| |assumption].
    repeat constructor; simpl; intuition discriminate. }
  unfold classify_agnor.
  destruct child_rows as [|r rs]; [contradiction|].
  change (len (r :: rs) =? 0) with false. cbv iota.
  unfold DataFrame_from_dict, pd_DataFrame, df_cols. cbn [columns].
  rewrite Hcols. eexists. reflexivity.
Qed.

Lemma classifier_rejects_rows_without_ratios_witness :
  exists parent_rows child_rows,
    get_contour_measurements Box.filled_pixel_sum Box.pointPolygonTest
      [Box.box 0 0 9 9; Box.box 20 0 29 9] [Box.box 1 1 3 3] (100, 100)
      "img.png" "nucleus" "cluster" "unknown" "unknown" "unknown"
      EmptyString EmptyString EmptyString 0 "valid"
    = Ok (parent_rows, child_rows)
    /\ child_rows <> []
    /\ final_contours_size Box.filled_pixel_sum Box.pointPolygonTest (100, 100)
         [Box.box 0 0 9 9; Box.box 20 0 29 9] [Box.box 1 1 3 3] = []
    /\ exists k,
         classify_agnor sample_joblib_load "model.joblib" child_rows
         = Raise (KeyError k).
Proof.
  destruct (get_contour_measurements Box.filled_pixel_sum Box.pointPolygonTest
              [Box.box 0 0 9 9; Box.box 20 0 29 9] [Box.box 1 1 3 3] (100, 100)
              "img.png" "nucleus" "cluster" "unknown" "unknown" "unknown"
              EmptyString EmptyString EmptyString 0 "valid")
    as [[parent_rows child_rows]|e] eqn:E; [|vm_compute in E; discriminate E].
  assert (Hne : child_rows <> []).
  { vm_compute in E. injection E as _ <-. discriminate. }
  assert (Hlast : final_contours_size Box.filled_pixel_sum Box.pointPolygonTest
                    (100, 100) [Box.box 0 0 9 9; Box.box 20 0 29 9]
                    [Box.box 1 1 3 3] = []) by reflexivity.
  exists parent_rows, child_rows. split; [reflexivity|].
  split; [exact Hne|]. split; [exact Hlast|].
  exact (classifier_rejects_rows_without_ratios _ _ sample_joblib_load _ _ _
           _ _ _ _ _ _ _ _ _ _ _ "model.joblib" _ _ E Hne Hlast).
Defined.

(** ** The measurement writer over several calls *)

Lemma parent_frame_written (records : list dict) (datetime : string) :
  df_assign_scalar (pd_DataFrame records NUCLEUS_COLUMNS) "datetime" (VStr datetime)
  = {| columns := NUCLEUS_COLUMNS ++ ["datetime"%string];
       rows := written_parent_rows records datetime |}.
Proof.
  unfold df_assign_scalar, pd_DataFrame, written_parent_rows. cbn [columns rows].
  rewrite (proj2 datetime_column_is_new). now rewrite map_map.
Qed.

(** The writer in closed form, for a non-empty parent list. *)
Lemma write_contour_measurements_form
    (joinpath : string -> string -> string) (fs : filesystem)
    (first_parent : dict) (other_parents child_measurements : list dict)
    (output_path datetime : string) :
  write_contour_measurements joinpath fs (first_parent :: other_parents)
    child_measurements output_path datetime
  = Ok (create_or_append
          (create_or_append fs
             {| columns := NUCLEUS_COLUMNS ++ ["datetime"%string];
                rows := written_parent_rows (first_parent :: other_parents) datetime |}
             (joinpath output_path
                ("nucleus_measurements_" ++ datetime ++ ".csv")%string))
          {| columns := AGNOR_COLUMNS ++ ["datetime"%string];
             rows := written_child_rows (cell_of (dict_get first_parent "nucleus"))
                       child_measurements datetime |}
          (joinpath output_path ("agnor_measurements_" ++ datetime ++ ".csv")%string)).
Proof.
  unfold write_contour_measurements.
  rewrite nucleus_column_of_parent_rows. cbn [bind].
  rewrite first_unique. cbn [bind].
  rewrite child_frame_written, parent_frame_written. reflexivity.
Qed.

Lemma header_parses (cols : list string) :
  list_comprehension str_of_value (map VStr cols) = Ok cols.
Proof.
  induction cols as [|c cols IH]; simpl; [reflexivity|]. now rewrite IH.
Qed.

Lemma read_csv_lines (fs : filesystem) (path : string) (df : DataFrame)
    (lines : list (list value)) :
  fs path = Some (header_line df :: lines) ->
  read_csv fs path = Ok {| columns := columns df; rows := lines |}.
Proof.
  intros H. unfold read_csv. rewrite H. unfold header_line.
  now rewrite header_parses.
Qed.

Lemma create_or_append_other (fs : filesystem) (df : DataFrame) (path other : string) :
  other <> path -> create_or_append fs df path other = fs other.
Proof.
  intros H. apply String.eqb_neq in H.
  unfold create_or_append, to_csv, fs_put.
  destruct (is_file fs path); now rewrite H.
Qed.

Lemma create_or_append_new (fs : filesystem) (df : DataFrame) (path : string) :
  fs path = None ->
  create_or_append fs df path path = Some (header_line df :: rows df).
Proof.
  intros H. unfold create_or_append, is_file, to_csv, fs_put.
  rewrite H, String.eqb_refl. reflexivity.
Qed.

Lemma create_or_append_old (fs : filesystem) (df : DataFrame) (path : string)
    (lines : list (list value)) :
  fs path = Some lines ->
  create_or_append fs df path path = Some (lines ++ rows df).
Proof.
  intros H. unfold create_or_append, is_file, to_csv, fs_put.
  rewrite H, String.eqb_refl. reflexivity.
Qed.

(** X12: the writer needs a parent row.  With an empty parent row list it
    raises IndexError, whatever child rows it is given, and with a non-empty
    one it always returns. *)
Theorem writer_returns_iff_parent_rows
    (joinpath : string -> string -> string) (fs : filesystem)
    (parent_measurements child_measurements : list dict)
    (output_path datetime : string) :
  (parent_measurements = [] ->
   write_contour_measurements joinpath fs parent_measurements child_measurements
     output_path datetime = Raise IndexError)
  /\ (parent_measurements <> [] ->
      exists fs',
        write_contour_measurements joinpath fs parent_measurements
          child_measurements output_path datetime = Ok fs').
Proof.
  split.
  - intros ->. reflexivity.
  - intros H. destruct parent_measurements as [|p ps]; [contradiction|].
    rewrite write_contour_measurements_form. eauto.
Qed.

(** X13: the writer creates its two files with a header on the first call
    and appends to them on the next.  Starting without the two files, after
    two calls for the same directory and datetime the nucleus file reads
    back as the parent rows of the first call followed by those of the
    second, under one header, and the AgNOR file as the child rows of the
    first call followed by those of the second; every other file is
    untouched. *)
Theorem writer_creates_then_appends
    (joinpath : string -> string -> string) (fs : filesystem)
    (parent1 parent2 : dict) (parents1 parents2 children1 children2 : list dict)
    (output_path datetime : string) :
  let nucleus_path :=
    joinpath output_path ("nucleus_measurements_" ++ datetime ++ ".csv")%string in
  let agnor_path :=
    joinpath output_path ("agnor_measurements_" ++ datetime ++ ".csv")%string in
  nucleus_path <> agnor_path ->
  fs nucleus_path = None ->
  fs agnor_path = None ->
  exists fs1 fs2,
    write_contour_measurements joinpath fs (parent1 :: parents1) children1
      output_path datetime = Ok fs1
    /\ write_contour_measurements joinpath fs1 (parent2 :: parents2) children2
         output_path datetime = Ok fs2
    /\ read_csv fs2 nucleus_path
       = Ok {| columns := NUCLEUS_COLUMNS ++ ["datetime"%string];
               rows := written_parent_rows (parent1 :: parents1) datetime
                       ++ written_parent_rows (parent2 :: parents2) datetime |}
    /\ read_csv fs2 agnor_path
       = Ok {| columns := AGNOR_COLUMNS ++ ["datetime"%string];
               rows := written_child_rows (cell_of (dict_get parent1 "nucleus"))
                         children1 datetime
                       ++ written_child_rows (cell_of (dict_get parent2 "nucleus"))
                            children2 datetime |}
    /\ forall path, path <> nucleus_path -> path <> agnor_path ->
                    fs2 path = fs path.
Proof.
  intros nucleus_path agnor_path Hdiff Hn Ha.
  rewrite write_contour_measurements_form. eexists. eexists.
  split; [reflexivity|].
  rewrite write_contour_measurements_form. split; [reflexivity|].
  fold nucleus_path agnor_path.
  set (dfp1 := {| columns := NUCLEUS_COLUMNS ++ ["datetime"%string];
                  rows := written_parent_rows (parent1 :: parents1) datetime |}).
  set (dfc1 := {| columns := AGNOR_COLUMNS ++ ["datetime"%string];
                  rows := written_child_rows (cell_of (dict_get parent1 "nucleus"))
                            children1 datetime |}).
  set (dfp2 := {| columns := NUCLEUS_COLUMNS ++ ["datetime"%string];
                  rows := written_parent_rows (parent2 :: parents2) datetime |}).
  set (dfc2 := {| columns := AGNOR_COLUMNS ++ ["datetime"%string];
                  rows := written_child_rows (cell_of (dict_get parent2 "nucleus"))
                            children2 datetime |}).
  set (fs1 := create_or_append (create_or_append fs dfp1 nucleus_path) dfc1 agnor_path).
  assert (H1n : fs1 nucleus_path = Some (header_line dfp1 :: rows dfp1)).
  { subst fs1. rewrite create_or_append_other by exact Hdiff.
    now apply create_or_append_new. }
  assert (H1a : fs1 agnor_path = Some (header_line dfc1 :: rows dfc1)).
  { subst fs1. apply create_or_append_new.
    rewrite create_or_append_other by (intros E; apply Hdiff; now symmetry).
    exact Ha. }
  split; [|split].
  - apply (read_csv_lines _ _ dfp1).
    rewrite create_or_append_other by exact Hdiff.
    rewrite (create_or_append_old _ _ _ _ H1n). reflexivity.
  - apply (read_csv_lines _ _ dfc1).
    rewrite (create_or_append_old _ dfc2 agnor_path (header_line dfc1 :: rows dfc1));
      [reflexivity|].
    rewrite create_or_append_other by (intros E; apply Hdiff; now symmetry).
    exact H1a.
  - intros path Hp1 Hp2. subst fs1.
    rewrite !create_or_append_other by assumption. reflexivity.
Qed.

Lemma writer_creates_then_appends_witness :
  sample_joinpath "out" "nucleus_measurements_202301010000.csv"
  <> sample_joinpath "out" "agnor_measurements_202301010000.csv"
  /\ exists fs1 fs2,
       write_contour_measurements sample_joinpath (fun _ => None)
         [[("nucleus", VInt 0)]%string] [] "out" "202301010000" = Ok fs1
       /\ write_contour_measurements sample_joinpath fs1
            [[("nucleus", VInt 1)]%string] [] "out" "202301010000" = Ok fs2
       /\ read_csv fs2 "out/nucleus_measurements_202301010000.csv"
          = Ok {| columns := NUCLEUS_COLUMNS ++ ["datetime"%string];
                  rows := written_parent_rows [[("nucleus", VInt 0)]%string]
                            "202301010000"
                          ++ written_parent_rows [[("nucleus", VInt 1)]%string]
                               "202301010000" |}.
Proof.
  assert (Hdiff : sample_joinpath "out" "nucleus_measurements_202301010000.csv"
                  <> sample_joinpath "out" "agnor_measurements_202301010000.csv")
    by (vm_compute; discriminate).
  split; [exact Hdiff|].
  destruct (writer_creates_then_appends sample_joinpath (fun _ => None)
              [("nucleus", VInt 0)]%string [("nucleus", VInt 1)]%string
              [] [] [] [] "out" "202301010000" Hdiff eq_refl eq_refl)
    as (fs1 & fs2 & H1 & H2 & Hread & _).
  exists fs1, fs2. split; [exact H1|]. split; [exact H2|]. exact Hread.
Defined.

(** ** The aggregator at its edges *)

Lemma column_of_no_rows (df : DataFrame) (c : string) (col : list value) :
  rows df = [] -> df_col df c = Ok col -> col = [].
Proof.
  intros Hrows H. unfold df_col in H. rewrite Hrows in H.
  destruct (index_of c (columns df)); [|discriminate H].
  injection H as <-. reflexivity.
Qed.

(** No summary row can be computed from an AgNOR table without rows: the
    specimen identifiers are read from its first row. *)
Lemma aggregate_record_needs_agnor_rows (df_nucleus df_agnor : DataFrame) :
  rows df_agnor = [] ->
  exists e, aggregate_record df_nucleus df_agnor = Raise e.
Proof.
  intros Hrows.
  destruct (aggregate_record df_nucleus df_agnor) as [record|e] eqn:H; [|eauto].
  exfalso. unfold aggregate_record in H. cbv zeta in H. peel_binds H.
  match goal with
  | E : bind (df_col df_agnor "patient_record") _ = Ok _ |- _ =>
      destruct (df_col df_agnor "patient_record") as [col|] eqn:Ec;
        [|discriminate E];
        rewrite (column_of_no_rows _ _ _ Hrows Ec) in E; discriminate E
  end.
Qed.

Lemma read_csv_is_file (fs : filesystem) (path : string) (df : DataFrame) :
  read_csv fs path = Ok df -> is_file fs path = true.
Proof.
  unfold read_csv, is_file. destruct (fs path); [reflexivity | discriminate].
Qed.

Section AggregatorFacts.

Variable parent_dir : string -> string.
Variable joinpath : string -> string -> string.
Variable str : value -> string.
Variable remove_fails : string -> bool.

Local Abbreviation aggregate :=
  (aggregate_measurements parent_dir joinpath str remove_fails).

(** X14: an AgNOR table that holds only its header makes the aggregator
    raise: with both files present, [aggregate_measurements] never returns,
    so neither a success flag nor a summary comes out of a specimen without
    AgNORs. *)
Theorem aggregate_raises_without_agnor_rows
    (fs : filesystem) (nucleus_measurements agnor_measurements : string)
    (header : list value) (remove_measurement_files : bool)
    (database : option string) (datetime : string) :
  is_file fs nucleus_measurements = true ->
  fs agnor_measurements = Some [header] ->
  exists e,
    aggregate fs nucleus_measurements agnor_measurements
      remove_measurement_files database datetime = Raise e.
Proof.
  intros Hn Ha. unfold aggregate_measurements. rewrite Hn. cbn [negb].
  destruct (read_csv fs nucleus_measurements) as [df_nucleus|e]; [|cbn; eauto].
  cbn [bind]. unfold is_file at 1. rewrite Ha. cbn [negb].
  unfold read_csv at 1. rewrite Ha.
  destruct (list_comprehension str_of_value header) as [cols|e]; [|cbn; eauto].
  cbn [bind].
  destruct (aggregate_record_needs_agnor_rows df_nucleus
              {| columns := cols; rows := [] |} eq_refl) as [e He].
  rewrite He. cbn. eauto.
Qed.

(** X15: a missing per-object table is reported, not raised.  When the
    nucleus file is missing, or it reads and the AgNOR file is missing,
    [aggregate_measurements] returns False, leaves every file as it was and
    logs one line, which names the nucleus file in both cases. *)
Theorem aggregate_returns_false_on_missing_table
    (fs : filesystem) (nucleus_measurements agnor_measurements : string)
    (remove_measurement_files : bool) (database : option string)
    (datetime : string) :
  is_file fs nucleus_measurements = false
  \/ (is_file fs agnor_measurements = false
      /\ exists df_nucleus, read_csv fs nucleus_measurements = Ok df_nucleus) ->
  aggregate fs nucleus_measurements agnor_measurements
    remove_measurement_files database datetime
  = Ok (false, fs,
        [("Base measurement file '" ++ nucleus_measurements ++ "' not found")%string]).
Proof.
  intros [Hn|[Ha [df Hread]]]; unfold aggregate_measurements.
  - rewrite Hn. reflexivity.
  - rewrite (read_csv_is_file _ _ _ Hread), Hread, Ha. reflexivity.
Qed.

End AggregatorFacts.

Lemma aggregate_raises_without_agnor_rows_witness :
  is_file (fs_put sample_fs "out/agnor.csv" [header_line sample_df_agnor])
    "out/nucleus.csv" = true
  /\ fs_put sample_fs "out/agnor.csv" [header_line sample_df_agnor]
       "out/agnor.csv"%string
     = Some [header_line sample_df_agnor]
  /\ exists e,
       aggregate_measurements sample_parent_dir sample_joinpath sample_str
         sample_remove_fails
         (fs_put sample_fs "out/agnor.csv" [header_line sample_df_agnor])
         "out/nucleus.csv" "out/agnor.csv" false None "202301010000"
       = Raise e.
Proof.
  split; [reflexivity|]. split; [reflexivity|].
  exact (aggregate_raises_without_agnor_rows sample_parent_dir sample_joinpath
           sample_str sample_remove_fails
           (fs_put sample_fs "out/agnor.csv" [header_line sample_df_agnor])
           "out/nucleus.csv" "out/agnor.csv" (header_line sample_df_agnor)
           false None "202301010000" eq_refl eq_refl).
Defined.

Lemma aggregate_returns_false_on_missing_table_witness :
  (is_file (fs_remove sample_fs "out/agnor.csv") "out/nucleus.csv" = false
   \/ (is_file (fs_remove sample_fs "out/agnor.csv") "out/agnor.csv" = false
       /\ exists df_nucleus,
            read_csv (fs_remove sample_fs "out/agnor.csv") "out/nucleus.csv"
            = Ok df_nucleus))
  /\ aggregate_measurements sample_parent_dir sample_joinpath sample_str
       sample_remove_fails (fs_remove sample_fs "out/agnor.csv")
       "out/nucleus.csv" "out/agnor.csv" true None "202301010000"
     = Ok (false, fs_remove sample_fs "out/agnor.csv",
           ["Base measurement file 'out/nucleus.csv' not found"%string]).
Proof.
  assert (H : is_file (fs_remove sample_fs "out/agnor.csv") "out/nucleus.csv" = false
              \/ (is_file (fs_remove sample_fs "out/agnor.csv") "out/agnor.csv" = false
                  /\ exists df_nucleus,
                       read_csv (fs_remove sample_fs "out/agnor.csv") "out/nucleus.csv"
                       = Ok df_nucleus)).
  { right. split; [reflexivity|]. eexists. vm_compute. reflexivity. }
  split; [exact H|].
  exact (aggregate_returns_false_on_missing_table sample_parent_dir sample_joinpath
           sample_str sample_remove_fails (fs_remove sample_fs "out/agnor.csv")
           "out/nucleus.csv" "out/agnor.csv" true None "202301010000" H).
Defined.

(** ** The NNA counts of the summary row *)

Lemma nna_buckets_cover (agnor : list Z) :
  len (filter (fun a => a =? 1) agnor) + len (filter (fun a => a =? 2) agnor)
  + len (filter (fun a => a =? 3) agnor) + len (filter (fun a => a =? 4) agnor)
  + len (filter (fun a => 5 <=? a) agnor)
  = len (filter (fun a => 1 <=? a) agnor).
Proof.
  unfold len. induction agnor as [|a agnor IH]; [reflexivity|]. cbn [filter].
  destruct (Z.eqb_spec a 1), (Z.eqb_spec a 2), (Z.eqb_spec a 3),
    (Z.eqb_spec a 4), (Z.leb_spec 5 a), (Z.leb_spec 1 a);
    cbn [List.length]; lia.
Qed.

Lemma filter_map_length {A B : Type} (f : A -> B) (p : B -> bool) (l : list A) :
  len (filter p (map f l)) = len (filter (fun x => p (f x)) l).
Proof.
  unfold len. f_equal. induction l as [|x l IH]; [reflexivity|]. cbn [map filter].
  destruct (p (f x)); cbn [List.length]; congruence.
Qed.

Lemma filter_length_le {A : Type} (p : A -> bool) (l : list A) :
  len (filter p l) <= len l.
Proof.
  unfold len. apply inj_le.
  induction l as [|x l IH]; [apply le_n|]. cbn [filter].
  destruct (p x); cbn [List.length]; lia.
Qed.

(** X16: in every summary row that [aggregate_measurements] computes, the
    five counts AgNOR = 1, 2, 3, 4 and 5+ together count each group of AgNOR
    rows with the same (source_image, nucleus) and at least one AgNOR number
    exactly once: their sum is the number of such groups, so no nucleus is
    counted in two columns and none with an AgNOR is left out. *)
Theorem nna_counts_cover_each_nucleus_once
    (df_nucleus df_agnor : DataFrame) (record : dict) :
  aggregate_record df_nucleus df_agnor = Ok record ->
  exists per_nucleus n1 n2 n3 n4 n5,
    groupby_count df_agnor ["source_image"; "nucleus"]%string "agnor"
    = Ok per_nucleus
    /\ dict_get record "AgNOR = 1" = Some (VInt n1)
    /\ dict_get record "AgNOR = 2" = Some (VInt n2)
    /\ dict_get record "AgNOR = 3" = Some (VInt n3)
    /\ dict_get record "AgNOR = 4" = Some (VInt n4)
    /\ dict_get record "AgNOR = 5+" = Some (VInt n5)
    /\ n1 + n2 + n3 + n4 + n5
       = len (filter (fun group => 1 <=? snd group) per_nucleus)
    /\ n1 + n2 + n3 + n4 + n5 <= len per_nucleus.
Proof.
  intros H. unfold aggregate_record in H. cbv zeta in H.
  destruct (groupby_count df_agnor ["source_image"; "nucleus"]%string "agnor")
    as [per_nucleus|e] eqn:Hgroup.
  - assert (Htable : n_nuclei_with_n_agnors df_agnor
                     = Ok (groupby_size (map snd per_nucleus))).
    { unfold n_nuclei_with_n_agnors. now rewrite Hgroup. }
    rewrite Htable in H. peel_binds H. injection H as <-.
    exists per_nucleus.
    exists (nna_exactly (groupby_size (map snd per_nucleus)) 1),
      (nna_exactly (groupby_size (map snd per_nucleus)) 2),
      (nna_exactly (groupby_size (map snd per_nucleus)) 3),
      (nna_exactly (groupby_size (map snd per_nucleus)) 4),
      (nna_at_least (groupby_size (map snd per_nucleus)) 5).
    do 6 (split; [reflexivity|]).
    rewrite !nna_exactly_counts, nna_at_least_counts, nna_buckets_cover,
      filter_map_length.
    split; [reflexivity | apply filter_length_le].
  - exfalso.
    assert (Htable : n_nuclei_with_n_agnors df_agnor = Raise e).
    { unfold n_nuclei_with_n_agnors. now rewrite Hgroup. }
    rewrite Htable in H. peel_binds H. cbn [bind] in H. discriminate H.
Qed.

Lemma nna_counts_cover_each_nucleus_once_witness :
  exists record,
    aggregate_record sample_df_nucleus sample_df_agnor = Ok record
    /\ exists per_nucleus n1 n2 n3 n4 n5,
         groupby_count sample_df_agnor ["source_image"; "nucleus"]%string "agnor"
         = Ok per_nucleus
         /\ dict_get record "AgNOR = 1" = Some (VInt n1)
         /\ dict_get record "AgNOR = 2" = Some (VInt n2)
         /\ dict_get record "AgNOR = 3" = Some (VInt n3)
         /\ dict_get record "AgNOR = 4" = Some (VInt n4)
         /\ dict_get record "AgNOR = 5+" = Some (VInt n5)
         /\ n1 + n2 + n3 + n4 + n5
            = len (filter (fun group => 1 <=? snd group) per_nucleus)
         /\ n1 + n2 + n3 + n4 + n5 <= len per_nucleus.
Proof.
  destruct (aggregate_record sample_df_nucleus sample_df_agnor) as [record|e] eqn:E;
    [|vm_compute in E; discriminate E].
  exists record. split; [reflexivity|].
  exact (nna_counts_cover_each_nucleus_once sample_df_nucleus sample_df_agnor
           record E).
Defined.

(** ** A successful aggregation: summary file, clean-up and database *)

Lemma aggregate_record_frame (df_nucleus df_agnor : DataFrame) (record : dict) :
  aggregate_record df_nucleus df_agnor = Ok record ->
  (exists patient_name, getitem record "Patient Name" = Ok patient_name)
  /\ DataFrame_from_dict [record]
     = {| columns := keys record; rows := [values record] |}.
Proof.
  intros H. unfold aggregate_record in H. cbv zeta in H.
  peel_binds H. injection H as <-.
  split; [eexists; reflexivity | reflexivity].
Qed.

Lemma to_csv_keeps_files (fs : filesystem) (df : DataFrame) (path p : string)
    (append header : bool) :
  is_file fs p = true -> is_file (to_csv fs df path append header) p = true.
Proof.
  unfold is_file, to_csv, fs_put. destruct (String.eqb p path); auto.
Qed.

Lemma fs_remove_is_file (fs : filesystem) (path : string) :
  is_file (fs_remove fs path) path = false.
Proof. unfold is_file, fs_remove. now rewrite String.eqb_refl. Qed.

Lemma fs_remove_keeps_absent (fs : filesystem) (path p : string) :
  is_file fs p = false -> is_file (fs_remove fs path) p = false.
Proof.
  unfold is_file, fs_remove. destruct (String.eqb p path); auto.
Qed.

Lemma fs_remove_only (fs : filesystem) (path p : string) :
  is_file fs p = true -> is_file (fs_remove fs path) p = false -> p = path.
Proof.
  unfold is_file, fs_remove. destruct (String.eqb_spec p path); [auto|].
  intros H1 H2. rewrite H1 in H2. discriminate H2.
Qed.

Lemma to_csv_write (fs : filesystem) (df : DataFrame) (path : string) :
  to_csv fs df path false true = fs_put fs path (header_line df :: rows df).
Proof. reflexivity. Qed.

Lemma fs_put_other (fs : filesystem) (path p : string) (content : csv) :
  p <> path -> fs_put fs path content p = fs p.
Proof.
  intros H. unfold fs_put. destruct (String.eqb_spec p path); [contradiction|].
  reflexivity.
Qed.

Lemma fs_remove_other (fs : filesystem) (path p : string) :
  p <> path -> fs_remove fs path p = fs p.
Proof.
  intros H. unfold fs_remove. destruct (String.eqb_spec p path); [contradiction|].
  reflexivity.
Qed.

Lemma fs_put_same (fs : filesystem) (path : string) (content : csv) :
  fs_put fs path content path = Some content.
Proof. unfold fs_put. now rewrite String.eqb_refl. Qed.

Section AggregatorSuccess.

Variable parent_dir : string -> string.
Variable joinpath : string -> string -> string.
Variable str : value -> string.
Variable remove_fails : string -> bool.

Variable fs : filesystem.
Variables nucleus_measurements agnor_measurements : string.
Variables df_nucleus df_agnor : DataFrame.
Variable record : dict.
Variable datetime : string.

Hypothesis nucleus_read : read_csv fs nucleus_measurements = Ok df_nucleus.
Hypothesis agnor_read : read_csv fs agnor_measurements = Ok df_agnor.
Hypothesis summary : aggregate_record df_nucleus df_agnor = Ok record.

Local Abbreviation aggregate :=
  (aggregate_measurements parent_dir joinpath str remove_fails fs
     nucleus_measurements agnor_measurements).

Local Abbreviation output_path :=
  (joinpath (parent_dir nucleus_measurements)
     (datetime ++ " - Aggregate measurements - "
      ++ str (cell_of (dict_get record "Patient Name")) ++ ".csv")%string).

Local Abbreviation database_path d :=
  (if endswith d%string ".csv" then d%string else (d ++ ".csv")%string).

Local Abbreviation could_not_remove path :=
  ("Could not remove file " ++ path)%string.

Local Abbreviation summary_lines := [map VStr (keys record); values record].

Lemma summary_written :
  is_file (fs_put fs output_path summary_lines) nucleus_measurements = true
  /\ is_file (fs_put fs output_path summary_lines) agnor_measurements = true.
Proof.
  pose proof (read_csv_is_file _ _ _ nucleus_read) as Hn.
  pose proof (read_csv_is_file _ _ _ agnor_read) as Ha.
  unfold is_file, fs_put in *.
  split; match goal with |- context [String.eqb ?p ?q] =>
                        destruct (String.eqb p q) end; auto.
Qed.

Ltac enter_success :=
  let patient_name := fresh "patient_name" in
  let Hname := fresh "Hname" in
  let Hdf := fresh "Hdf" in
  let Hcell := fresh "Hcell" in
  let Hn := fresh "Hn" in
  let Ha := fresh "Ha" in
  destruct (aggregate_record_frame _ _ _ summary) as [[patient_name Hname] Hdf];
  assert (Hcell : cell_of (dict_get record "Patient Name") = patient_name)
    by (unfold getitem in Hname;
        destruct (dict_get record "Patient Name");
        [injection Hname as ->; reflexivity | discriminate Hname]);
  destruct summary_written as [Hn Ha];
  unfold aggregate_measurements;
  rewrite (read_csv_is_file _ _ _ nucleus_read), nucleus_read; cbn [negb bind];
  rewrite (read_csv_is_file _ _ _ agnor_read), agnor_read; cbn [negb bind];
  rewrite summary; cbn [bind]; rewrite Hname; cbn [bind]; rewrite Hdf;
  rewrite !to_csv_write; unfold header_line; cbn [columns rows];
  rewrite <- Hcell in *; clear Hcell Hname Hdf;
  rewrite Hn.

(** X17: once both tables read and a summary row is computed,
    [aggregate_measurements] returns True and the summary file, written in
    mode w, holds exactly the header line and the summary row, whatever the
    file held before; this holds with or without clean-up and database, as
    long as the summary file is none of the input files and not the
    database file. *)
Theorem aggregate_writes_header_and_summary_row
    (remove_measurement_files : bool) (database : option string) :
  output_path <> nucleus_measurements ->
  output_path <> agnor_measurements ->
  (forall d, database = Some d -> output_path <> database_path d) ->
  exists fs' log,
    aggregate remove_measurement_files database datetime = Ok (true, fs', log)
    /\ fs' output_path = Some [map VStr (keys record); values record].
Proof.
  intros Hon Hoa Hod. enter_success.
  assert (Hout : forall fs1,
             fs1 output_path = Some summary_lines ->
             match database with
             | Some database0 =>
                 if negb (database0 =? EmptyString)%string
                 then
                   if is_file fs1
                        (if negb (endswith database0 ".csv")
                         then (database0 ++ ".csv")%string else database0)
                   then to_csv fs1
                          {| columns := keys record; rows := [values record] |}
                          (if negb (endswith database0 ".csv")
                           then (database0 ++ ".csv")%string else database0)
                          true false
                   else fs_put fs1
                          (if negb (endswith database0 ".csv")
                           then (database0 ++ ".csv")%string else database0)
                          summary_lines
                 else fs1
             | None => fs1
             end output_path = Some summary_lines).
  { intros fs1 H1. destruct database as [d|]; [|exact H1].
    specialize (Hod d eq_refl).
    destruct (negb (d =? EmptyString)%string); [|exact H1].
    destruct (endswith d ".csv"); cbn [negb] in *;
      destruct (is_file fs1 _); unfold to_csv;
      rewrite fs_put_other by exact Hod; exact H1. }
  pose proof (fs_put_same fs output_path summary_lines) as Hsame.
  destruct remove_measurement_files.
  - destruct (remove_fails nucleus_measurements);
      [rewrite Ha|];
      [destruct (remove_fails agnor_measurements)|
       destruct (is_file (fs_remove _ nucleus_measurements) agnor_measurements);
       [destruct (remove_fails agnor_measurements)|]];
      do 2 eexists; (split; [reflexivity|]); apply Hout;
      rewrite ?fs_remove_other by assumption; exact Hsame.
  - do 2 eexists. split; [reflexivity|]. apply Hout. exact Hsame.
Qed.

(** X18: a clean-up failure is not fatal.  Once both tables read and a
    summary row is computed, [aggregate_measurements] returns True whether
    or not the input files can be removed; it logs one line for each input
    file whose removal was asked for and failed, and nothing else; and,
    without a database, an input file whose removal was asked for and did
    not fail is gone afterwards. *)
Theorem aggregate_survives_failed_cleanup
    (remove_measurement_files : bool) (database : option string) :
  exists fs' log,
    aggregate remove_measurement_files database datetime = Ok (true, fs', log)
    /\ log
       = (if remove_measurement_files && remove_fails nucleus_measurements
          then [could_not_remove nucleus_measurements] else [])
         ++ (if remove_measurement_files && remove_fails agnor_measurements
             then [could_not_remove agnor_measurements] else [])
    /\ (database = None -> remove_measurement_files = true ->
        (remove_fails nucleus_measurements = false ->
         is_file fs' nucleus_measurements = false)
        /\ (remove_fails agnor_measurements = false ->
            is_file fs' agnor_measurements = false)).
Proof.
  enter_success.
  destruct remove_measurement_files; cbn [andb].
  - destruct (remove_fails nucleus_measurements) eqn:Fn.
    + rewrite Ha. destruct (remove_fails agnor_measurements) eqn:Fa;
        do 2 eexists; (split; [reflexivity|]); (split; [reflexivity|]);
        intros -> _; (split; [discriminate|]); intros Hf;
        [discriminate Hf | apply fs_remove_is_file].
    + destruct (is_file (fs_remove _ nucleus_measurements) agnor_measurements)
        eqn:Ia.
      * destruct (remove_fails agnor_measurements) eqn:Fa;
          do 2 eexists; (split; [reflexivity|]); (split; [reflexivity|]);
          intros -> _; split; intros Hf; try discriminate Hf.
        -- apply fs_remove_is_file.
        -- apply fs_remove_keeps_absent, fs_remove_is_file.
        -- apply fs_remove_is_file.
      * pose proof (fs_remove_only _ _ _ Ha Ia) as Heq.
        do 2 eexists. split; [reflexivity|].
        split; [rewrite Heq, Fn; reflexivity|].
        intros -> _. split; intros _; [apply fs_remove_is_file | exact Ia].
  - do 2 eexists. split; [reflexivity|]. split; [reflexivity|].
    intros _ Hf. discriminate Hf.
Qed.

(** X19: with a database name that is not empty, a successful aggregation
    ends by adding the summary row to the database file, whose name gets
    the suffix .csv when it lacks it: an existing database keeps its lines
    and gains the summary row as its last line, without a header, and a
    missing one is created with the header line and the summary row.  The
    database file is assumed to be none of the input files and not the
    summary file. *)
Theorem aggregate_appends_summary_to_database
    (remove_measurement_files : bool) (d : string) :
  d <> EmptyString ->
  database_path d <> output_path ->
  database_path d <> nucleus_measurements ->
  database_path d <> agnor_measurements ->
  exists fs' log,
    aggregate remove_measurement_files (Some d) datetime = Ok (true, fs', log)
    /\ fs' (database_path d)
       = Some match fs (database_path d) with
              | Some lines => lines ++ [values record]
              | None => [map VStr (keys record); values record]
              end.
Proof.
  intros Hd Hdo Hdn Hda. enter_success.
  assert (Hne : negb (d =? EmptyString)%string = true).
  { destruct (String.eqb_spec d EmptyString); [contradiction | reflexivity]. }
  rewrite Hne.
  assert (Hpath : (if negb (endswith d ".csv") then (d ++ ".csv")%string else d)
                  = database_path d) by (destruct (endswith d ".csv"); reflexivity).
  rewrite Hpath. clear Hpath.
  assert (Hdb : forall fs1,
             fs1 (database_path d) = fs (database_path d) ->
             (if is_file fs1 (database_path d)
              then to_csv fs1 {| columns := keys record; rows := [values record] |}
                     (database_path d) true false
              else fs_put fs1 (database_path d) summary_lines) (database_path d)
             = Some match fs (database_path d) with
                    | Some lines => lines ++ [values record]
                    | None => [map VStr (keys record); values record]
                    end).
  { intros fs1 H1. unfold is_file, to_csv. rewrite H1.
    destruct (fs (database_path d)); rewrite fs_put_same; reflexivity. }
  assert (Hsame : fs_put fs output_path summary_lines (database_path d)
                  = fs (database_path d)) by (apply fs_put_other; exact Hdo).
  destruct remove_measurement_files.
  - destruct (remove_fails nucleus_measurements);
      [rewrite Ha|];
      [destruct (remove_fails agnor_measurements)|
       destruct (is_file (fs_remove _ nucleus_measurements) agnor_measurements);
       [destruct (remove_fails agnor_measurements)|]];
      do 2 eexists; (split; [reflexivity|]); apply Hdb;
      rewrite ?fs_remove_other by assumption; exact Hsame.
  - do 2 eexists. split; [reflexivity|]. apply Hdb. exact Hsame.
Qed.

End AggregatorSuccess.

Lemma aggregate_writes_header_and_summary_row_witness :
  exists record fs' log,
    aggregate_record sample_df_nucleus sample_df_agnor = Ok record
    /\ aggregate_measurements sample_parent_dir sample_joinpath sample_str
         sample_remove_fails sample_fs "out/nucleus.csv" "out/agnor.csv"
         true (Some "db"%string) "202301010000"
       = Ok (true, fs', log)
    /\ fs' "out/202301010000 - Aggregate measurements - patient.csv"%string
       = Some [map VStr (keys record); values record].
Proof.
  destruct (aggregate_record sample_df_nucleus sample_df_agnor) as [record|e] eqn:E;
    [|vm_compute in E; discriminate E].
  exists record.
  assert (Hname : sample_str (cell_of (dict_get record "Patient Name")) = "patient"%string).
  { vm_compute in E. injection E as <-. reflexivity. }
  destruct (aggregate_writes_header_and_summary_row sample_parent_dir
              sample_joinpath sample_str sample_remove_fails sample_fs
              "out/nucleus.csv" "out/agnor.csv" sample_df_nucleus sample_df_agnor
              record "202301010000" eq_refl eq_refl E true (Some "db"%string))
    as (fs' & log & H1 & H2).
  - rewrite Hname. vm_compute. discriminate.
  - rewrite Hname. vm_compute. discriminate.
  - intros d [= <-]. rewrite Hname. vm_compute. discriminate.
  - exists fs', log. split; [reflexivity|]. split; [exact H1|].
    rewrite Hname in H2. exact H2.
Defined.

Lemma aggregate_survives_failed_cleanup_witness :
  exists record fs' log,
    aggregate_record sample_df_nucleus sample_df_agnor = Ok record
    /\ aggregate_measurements sample_parent_dir sample_joinpath sample_str
         (fun path => String.eqb path "out/agnor.csv") sample_fs
         "out/nucleus.csv" "out/agnor.csv" true None "202301010000"
       = Ok (true, fs', log)
    /\ log = ["Could not remove file out/agnor.csv"%string]
    /\ is_file fs' "out/nucleus.csv" = false.
Proof.
  destruct (aggregate_record sample_df_nucleus sample_df_agnor) as [record|e] eqn:E;
    [|vm_compute in E; discriminate E].
  exists record.
  destruct (aggregate_survives_failed_cleanup sample_parent_dir
              sample_joinpath sample_str
              (fun path => String.eqb path "out/agnor.csv") sample_fs
              "out/nucleus.csv" "out/agnor.csv" sample_df_nucleus sample_df_agnor
              record "202301010000" eq_refl eq_refl E true None)
    as (fs' & log & H1 & H2 & H3).
  exists fs', log. split; [reflexivity|]. split; [exact H1|].
  split; [exact H2|]. exact (proj1 (H3 eq_refl eq_refl) eq_refl).
Defined.

Lemma aggregate_appends_summary_to_database_witness :
  exists record fs' log,
    aggregate_record sample_df_nucleus sample_df_agnor = Ok record
    /\ aggregate_measurements sample_parent_dir sample_joinpath sample_str
         sample_remove_fails sample_fs "out/nucleus.csv" "out/agnor.csv"
         true (Some "db"%string) "202301010000"
       = Ok (true, fs', log)
    /\ fs' "db.csv"%string = Some [map VStr (keys record); values record].
Proof.
  destruct (aggregate_record sample_df_nucleus sample_df_agnor) as [record|e] eqn:E;
    [|vm_compute in E; discriminate E].
  exists record.
  assert (Hname : sample_str (cell_of (dict_get record "Patient Name")) = "patient"%string).
  { vm_compute in E. injection E as <-. reflexivity. }
  destruct (aggregate_appends_summary_to_database sample_parent_dir
              sample_joinpath sample_str sample_remove_fails sample_fs
              "out/nucleus.csv" "out/agnor.csv" sample_df_nucleus sample_df_agnor
              record "202301010000" eq_refl eq_refl E true "db")
    as (fs' & log & H1 & H2).
  - discriminate.
  - rewrite Hname. vm_compute. discriminate.
  - vm_compute. discriminate.
  - vm_compute. discriminate.
  - exists fs', log. split; [reflexivity|]. split; [exact H1|]. exact H2.
Defined.

(** ** The bounding-box filter *)

Lemma uint8_value_range (b : Byte.byte) : 0 <= uint8_value b < 256.
Proof.
  unfold uint8_value. pose proof (Byte.to_N_bounded b). lia.
Qed.

Lemma astype_uint8_keeps (b : Byte.byte) :
  astype_uint8 (uint8_value b) = uint8_value b.
Proof. unfold astype_uint8. apply Z.mod_small, uint8_value_range. Qed.

Lemma astype_uint8_range (z : Z) : 0 <= astype_uint8 z < 256.
Proof. unfold astype_uint8. apply Z.mod_pos_bound. lia. Qed.

Section BoundingBoxFacts.

Context {segmentation bbox : Type}.

Variable pointPolygonTest : contour -> point -> Z.
Variable get_labelme_points : string -> list string -> result (list bbox).
Variable convert_bbox_to_contour : bbox -> result contour.
Variable np_max_unique : segmentation -> result pyfloat.
Variable prediction_shape : segmentation -> shape.
Variable drawContours : uint8_plane -> list contour -> Z -> uint8_plane.

Local Abbreviation unboxed :=
  (discard_unboxed_contours pointPolygonTest get_labelme_points
     convert_bbox_to_contour np_max_unique prediction_shape drawContours).

Local Abbreviation touches outer inner :=
  (has_point_inside pointPolygonTest outer inner).

(** X20: what [discard_unboxed_contours] keeps.  Without a prediction the
    two contour lists come back unchanged.  With one, whenever the call
    returns, the parents kept are the input parents with a point inside or
    on a rectangle of the annotation, in input order, and the children kept
    are the input children with a point inside or on a kept parent; so
    every kept child sits in a kept parent that sits in a rectangle, and an
    annotation without rectangles leaves no contour at all. *)
Theorem unboxed_contours_follow_the_boxes
    (prediction : option segmentation) (parent_contours child_contours : list contour)
    (annotation : string) (mask : option stacked) (parents children : list contour) :
  unboxed prediction parent_contours child_contours annotation
  = Ok (mask, parents, children) ->
  match prediction with
  | None => mask = None /\ parents = parent_contours /\ children = child_contours
  | Some _ =>
      exists rectangles bboxes,
        get_labelme_points annotation ["rectangle"%string] = Ok rectangles
        /\ list_comprehension convert_bbox_to_contour rectangles = Ok bboxes
        /\ parents = filter (fun parent => existsb (fun b => touches b parent) bboxes)
                       parent_contours
        /\ children = filter (fun child => existsb (fun p => touches p child) parents)
                        child_contours
        /\ (forall child, In child children ->
            exists parent b,
              In parent parents /\ In b bboxes
              /\ touches parent child = true /\ touches b parent = true)
        /\ (bboxes = [] -> parents = [] /\ children = [])
  end.
Proof.
  intros H. destruct prediction as [prediction|]; cbn in H.
  - destruct (get_labelme_points annotation ["rectangle"%string])
      as [rectangles|] eqn:Er; [|discriminate H]. cbn [bind] in H.
    destruct (list_comprehension convert_bbox_to_contour rectangles)
      as [bboxes|] eqn:Eb; [|discriminate H]. cbn [bind] in H.
    rewrite !discard_contours_outside_contours_filter in H.
    peel_binds H. injection H as _ <- <-.
    exists rectangles, bboxes.
    split; [reflexivity|]. split; [exact Eb|].
    split; [apply filter_ext; intros c; apply scan_parents_existsb|].
    split; [apply filter_ext; intros c; apply scan_parents_existsb|].
    split.
    + intros child Hc. apply filter_In in Hc. destruct Hc as [_ Hc].
      rewrite scan_parents_existsb in Hc. apply existsb_exists in Hc.
      destruct Hc as (parent & Hp & Hpc).
      pose proof Hp as Hp'. apply filter_In in Hp'. destruct Hp' as [_ Hb].
      rewrite scan_parents_existsb in Hb. apply existsb_exists in Hb.
      destruct Hb as (b & Hb & Hbp).
      exists parent, b. auto.
    + intros ->.
      assert (Hp : filter (scan_parents pointPolygonTest []) parent_contours = []).
      { induction parent_contours as [|c l IH]; [reflexivity | exact IH]. }
      rewrite Hp. split; [reflexivity|].
      induction child_contours as [|c l IH]; [reflexivity | exact IH].
  - injection H as <- <- <-. auto.
Qed.

(** X21: the mask that [discard_unboxed_contours] rebuilds puts every pixel
    in at most one class.  Whenever the call returns a mask, it has the
    height and width of the prediction, all cells are uint8 values, a pixel
    with a non-zero AgNOR cell has zero nucleus and background cells, a
    pixel with a non-zero nucleus cell has a zero background cell, and a
    pixel with neither holds int(max(prediction)), reduced modulo 256, in
    its background cell. *)
Theorem rebuilt_mask_classes_exclusive
    (prediction : segmentation) (parent_contours child_contours : list contour)
    (annotation : string) (mask : stacked) (parents children : list contour) :
  unboxed (Some prediction) parent_contours child_contours annotation
  = Ok (Some mask, parents, children) ->
  exists highest,
    np_max_unique prediction = Ok (Fin highest)
    /\ stacked_shape mask = prediction_shape prediction
    /\ forall px,
         let '(background, nucleus, nor) := channels mask px in
         0 <= background < 256 /\ 0 <= nucleus < 256 /\ 0 <= nor < 256
         /\ (nor <> 0 -> nucleus = 0 /\ background = 0)
         /\ (nucleus <> 0 -> background = 0)
         /\ (nucleus = 0 -> nor = 0 -> background = py_int highest mod 256).
Proof.
  intros H. cbn in H.
  destruct (get_labelme_points annotation ["rectangle"%string])
    as [rectangles|]; [|discriminate H]. cbn [bind] in H.
  destruct (list_comprehension convert_bbox_to_contour rectangles)
    as [bboxes|]; [|discriminate H]. cbn [bind] in H.
  rewrite !discard_contours_outside_contours_filter in H.
  destruct (np_max_unique prediction) as [[highest| | |]|] eqn:Eh;
    try discriminate H.
  cbn in H. injection H as <- _ _.
  exists highest. split; [reflexivity|]. split; [reflexivity|].
  intros px. cbn [channels].
  set (nor := drawContours (fun _ => Byte.x00) _ (py_int highest) px).
  set (nucleus := drawContours (fun _ => Byte.x00) _ (py_int highest) px).
  pose proof (uint8_value_range nor) as Rnor.
  pose proof (uint8_value_range nucleus) as Rnuc.
  rewrite !astype_uint8_keeps.
  destruct (uint8_value nor =? 0) eqn:Enor; cbn [negb].
  - apply Z.eqb_eq in Enor.
    destruct (uint8_value nucleus =? 0) eqn:Enuc; cbn [andb].
    + apply Z.eqb_eq in Enuc. unfold astype_uint8.
      pose proof (Z.mod_pos_bound (py_int highest) 256 ltac:(lia)).
      repeat split; try lia; intros; try reflexivity; lia.
    + apply Z.eqb_neq in Enuc. unfold astype_uint8. rewrite Z.mod_0_l by lia.
      repeat split; try lia; intros; try reflexivity; lia.
  - apply Z.eqb_neq in Enor.
    change (uint8_value Byte.x00) with 0. cbn [Z.eqb andb].
    unfold astype_uint8. rewrite Z.mod_0_l by lia.
    repeat split; try lia; intros; try reflexivity; lia.
Qed.

End BoundingBoxFacts.

Lemma unboxed_contours_follow_the_boxes_witness :
  exists mask parents children,
    discard_unboxed_contours Box.pointPolygonTest sample_get_labelme_points
      sample_convert_bbox_to_contour (fun _ : unit => Ok (Fin 255))
      (fun _ => (100, 100)) sample_fill (Some tt)
      [Box.box 1 1 5 5; Box.box 20 20 30 30]
      [Box.box 2 2 3 3; Box.box 21 21 22 22] "boxes.json"
    = Ok (mask, parents, children)
    /\ exists rectangles bboxes,
         sample_get_labelme_points "boxes.json" ["rectangle"%string] = Ok rectangles
         /\ list_comprehension sample_convert_bbox_to_contour rectangles = Ok bboxes
         /\ parents
            = filter (fun parent =>
                        existsb (fun b => has_point_inside Box.pointPolygonTest b parent)
                          bboxes)
                [Box.box 1 1 5 5; Box.box 20 20 30 30]
         /\ children
            = filter (fun child =>
                        existsb (fun p => has_point_inside Box.pointPolygonTest p child)
                          parents)
                [Box.box 2 2 3 3; Box.box 21 21 22 22]
         /\ (forall child, In child children ->
             exists parent b,
               In parent parents /\ In b bboxes
               /\ has_point_inside Box.pointPolygonTest parent child = true
               /\ has_point_inside Box.pointPolygonTest b parent = true)
         /\ (bboxes = [] -> parents = [] /\ children = []).
Proof.
  destruct (discard_unboxed_contours Box.pointPolygonTest sample_get_labelme_points
              sample_convert_bbox_to_contour (fun _ : unit => Ok (Fin 255))
              (fun _ => (100, 100)) sample_fill (Some tt)
              [Box.box 1 1 5 5; Box.box 20 20 30 30]
              [Box.box 2 2 3 3; Box.box 21 21 22 22] "boxes.json")
    as [[[mask parents] children]|e] eqn:E; [|vm_compute in E; discriminate E].
  exists mask, parents, children. split; [reflexivity|].
  exact (unboxed_contours_follow_the_boxes Box.pointPolygonTest
           sample_get_labelme_points sample_convert_bbox_to_contour
           (fun _ : unit => Ok (Fin 255)) (fun _ => (100, 100)) sample_fill
           (Some tt) _ _ _ mask parents children E).
Defined.

Lemma rebuilt_mask_classes_exclusive_witness :
  exists mask parents children,
    discard_unboxed_contours Box.pointPolygonTest sample_get_labelme_points
      sample_convert_bbox_to_contour (fun _ : unit => Ok (Fin 255))
      (fun _ => (100, 100)) sample_fill (Some tt)
      [Box.box 1 1 5 5; Box.box 20 20 30 30]
      [Box.box 2 2 3 3; Box.box 21 21 22 22] "boxes.json"
    = Ok (Some mask, parents, children)
    /\ exists highest,
         Ok (Fin 255) = Ok (Fin highest)
         /\ stacked_shape mask = (100, 100)
         /\ forall px,
              let '(background, nucleus, nor) := channels mask px in
              0 <= background < 256 /\ 0 <= nucleus < 256 /\ 0 <= nor < 256
              /\ (nor <> 0 -> nucleus = 0 /\ background = 0)
              /\ (nucleus <> 0 -> background = 0)
              /\ (nucleus = 0 -> nor = 0 -> background = py_int highest mod 256).
Proof.
  destruct (discard_unboxed_contours Box.pointPolygonTest sample_get_labelme_points
              sample_convert_bbox_to_contour (fun _ : unit => Ok (Fin 255))
              (fun _ => (100, 100)) sample_fill (Some tt)
              [Box.box 1 1 5 5; Box.box 20 20 30 30]
              [Box.box 2 2 3 3; Box.box 21 21 22 22] "boxes.json")
    as [[[[mask|] parents] children]|e] eqn:E;
    [|vm_compute in E; discriminate E|vm_compute in E; discriminate E].
  exists mask, parents, children. split; [reflexivity|].
  exact (rebuilt_mask_classes_exclusive Box.pointPolygonTest
           sample_get_labelme_points sample_convert_bbox_to_contour
           (fun _ : unit => Ok (Fin 255)) (fun _ => (100, 100)) sample_fill
           tt _ _ _ mask parents children E).
Defined.

(** ** The dilation canvas *)

Lemma fold_max_bounds (vs : list Z) :
  forall v,
    v <= fold_left Z.max vs v
    /\ (forall u, In u vs -> u <= fold_left Z.max vs v)
    /\ (fold_left Z.max vs v = v \/ In (fold_left Z.max vs v) vs).
Proof.
  induction vs as [|w vs IH]; intros v; cbn [fold_left].
  - split; [lia|]. split; [intros u []|]. left. reflexivity.
  - destruct (IH (Z.max v w)) as (H1 & H2 & H3).
    split; [lia|]. split.
    + intros u [<-|Hu]; [lia | auto].
    + destruct H3 as [H3|H3]; [|right; right; exact H3].
      rewrite H3. destruct (Z.max_spec v w) as [[_ ->]|[_ ->]];
        [right; left; reflexivity | left; reflexivity].
Qed.

Lemma coordinates_of_point (c : contour) (x y : Z) :
  In (x, y) c ->
  In x (flat_map (fun '(x, y) => [x; y]) c)
  /\ In y (flat_map (fun '(x, y) => [x; y]) c).
Proof.
  intros H. split; apply in_flat_map; exists (x, y); cbn; auto.
Qed.

Lemma point_of_coordinate (c : contour) (v : Z) :
  In v (flat_map (fun '(x, y) => [x; y]) c) ->
  exists x y, In (x, y) c /\ (v = x \/ v = y).
Proof.
  intros H. apply in_flat_map in H. destruct H as ([x y] & Hp & Hv).
  exists x, y. split; [exact Hp|]. cbn in Hv. intuition auto.
Qed.

Lemma contour_max_bounds (c : contour) :
  match contour_max c with
  | Ok m =>
      c <> []
      /\ (forall x y, In (x, y) c -> x <= m /\ y <= m)
      /\ exists x y, In (x, y) c /\ (m = x \/ m = y)
  | Raise _ => c = []
  end.
Proof.
  unfold contour_max.
  destruct (flat_map (fun '(x, y) => [x; y]) c) as [|v vs] eqn:E.
  - destruct c as [|[x y] c]; [reflexivity | discriminate E].
  - destruct (fold_max_bounds vs v) as (H1 & H2 & H3).
    split; [intros ->; discriminate E|]. split.
    + intros x y Hp. destruct (coordinates_of_point c x y Hp) as [Hx Hy].
      rewrite E in Hx, Hy.
      split; [destruct Hx as [<-|Hx] | destruct Hy as [<-|Hy]]; auto.
    + apply point_of_coordinate. rewrite E.
      destruct H3 as [->|H3]; [left; reflexivity | right; exact H3].
Qed.

Lemma max_value_loop (contours : list contour) :
  forall start,
    match for_each
            (fun max_value contour =>
               m <- contour_max contour ;;
               Ok (if max_value <? m then m else max_value))
            contours start with
    | Ok max_value =>
        Forall (fun c => c <> []) contours
        /\ start <= max_value
        /\ (forall c x y, In c contours -> In (x, y) c ->
            x <= max_value /\ y <= max_value)
        /\ (max_value = start
            \/ exists c x y,
                 In c contours /\ In (x, y) c /\ (max_value = x \/ max_value = y))
    | Raise _ => In [] contours
    end.
Proof.
  induction contours as [|c contours IH]; intros start; cbn [for_each].
  - split; [constructor|]. split; [lia|]. split; [intros c x y []|]. now left.
  - pose proof (contour_max_bounds c) as Hc.
    destruct (contour_max c) as [m|e]; cbn [bind].
    + destruct Hc as (Hne & Hle & x0 & y0 & Hin & Hat).
      specialize (IH (if start <? m then m else start)).
      destruct (for_each _ contours (if start <? m then m else start))
        as [max_value|e].
      * destruct IH as (Hall & Hs & Hb & Ha).
        assert (Hm : start <= max_value /\ m <= max_value).
        { destruct (Z.ltb_spec start m); lia. }
        split; [constructor; assumption|]. split; [lia|]. split.
        -- intros c' x y [<-|Hc'] Hp; [|eauto].
           destruct (Hle x y Hp). lia.
        -- destruct Ha as [Ha|(c' & x & y & H1 & H2 & H3)].
           ++ destruct (Z.ltb_spec start m).
              ** right. exists c, x0, y0. rewrite Ha.
                 split; [left; reflexivity|]. split; assumption.
              ** left. exact Ha.
           ++ right. exists c', x, y. split; [right; exact H1|]. auto.
      * right. exact IH.
    + left. exact Hc.
Qed.

Section DilationFacts.

Context {canvas structuring : Type}.

Variable np_zeros : shape -> canvas.
Variable drawContours : canvas -> list contour -> canvas.
Variable getStructuringElement : Z -> Z * Z -> structuring.
Variable dilate : canvas -> structuring -> Z -> canvas.

Local Abbreviation dilated :=
  (dilate_contours np_zeros drawContours getStructuringElement dilate).

(** X22: the canvas of [dilate_contours] when no shape is given.  The call
    returns exactly when every contour has a point; the mask it dilates is
    then drawn on a square canvas whose side is twice the largest
    coordinate found in the contours, or 0 when no coordinate is positive:
    no coordinate exceeds half the side, and a non-zero half side is a
    coordinate of some point.  With a shape the contours are not inspected
    and the call always returns. *)
Theorem dilate_contours_canvas
    (contours : list contour) (structuring_element : Z) (kernel : Z * Z)
    (iterations : Z) :
  ((exists mask,
       dilated contours structuring_element kernel iterations None = Ok mask)
   <-> Forall (fun c => c <> []) contours)
  /\ (forall mask,
        dilated contours structuring_element kernel iterations None = Ok mask ->
        exists max_value,
          mask = dilate (drawContours (np_zeros (max_value * 2, max_value * 2))
                           contours)
                   (getStructuringElement structuring_element kernel) iterations
          /\ 0 <= max_value
          /\ (forall c x y, In c contours -> In (x, y) c ->
              x <= max_value /\ y <= max_value)
          /\ (max_value = 0
              \/ exists c x y,
                   In c contours /\ In (x, y) c
                   /\ (max_value = x \/ max_value = y)))
  /\ forall sh,
       dilated contours structuring_element kernel iterations (Some sh)
       = Ok (dilate (drawContours (np_zeros sh) contours)
               (getStructuringElement structuring_element kernel) iterations).
Proof.
  pose proof (max_value_loop contours 0) as Hloop.
  unfold dilate_contours.
  destruct (for_each _ contours 0) as [max_value|e]; cbn [bind].
  - destruct Hloop as (Hall & H0 & Hb & Ha).
    split; [split; [intros _; exact Hall | intros _; eauto]|].
    split; [|reflexivity].
    intros mask [= <-]. exists max_value. auto.
  - split; [split|].
    + intros [mask H]. discriminate H.
    + intros Hall. exfalso. rewrite Forall_forall in Hall.
      exact (Hall [] Hloop eq_refl).
    + split; [intros mask H; discriminate H | reflexivity].
Qed.

End DilationFacts.
